(** * hh.ru notification bot: the notification pipeline

    A shallow embedding of the three components that touch the
    [notifications] table (src/bot.py: [notifications_worker],
    [hh_messages_worker]; src/hh_web.py: [hh_webhook]) together with the
    schema of src/db_models.py, and the properties of the pipeline stated
    in the design document. *)

From Stdlib Require Import List ZArith Lia Bool String Ascii Permutation Sorted.
From Stdlib Require DecimalString.
Import ListNotations.
Local Open Scope Z_scope.
#[local] Set Warnings "-register-all".

(** ** Python values *)

(** A Python [str] is a sequence of Unicode code points. *)
Definition pystr := list Z.

(** Source literals are written as Rocq strings and decoded from the UTF-8
    bytes of this file. *)
Fixpoint utf8_decode (fuel : nat) (bs : list Z) : pystr :=
  match fuel with
  | O => []
  | S fuel =>
    match bs with
    | [] => []
    | b0 :: r0 =>
      if b0 <? 128 then b0 :: utf8_decode fuel r0
      else if b0 <? 224 then
        match r0 with
        | b1 :: r1 => ((b0 - 192) * 64 + (b1 - 128)) :: utf8_decode fuel r1
        | _ => []
        end
      else if b0 <? 240 then
        match r0 with
        | b1 :: b2 :: r2 =>
          ((b0 - 224) * 4096 + (b1 - 128) * 64 + (b2 - 128)) :: utf8_decode fuel r2
        | _ => []
        end
      else
        match r0 with
        | b1 :: b2 :: b3 :: r3 =>
          ((b0 - 240) * 262144 + (b1 - 128) * 4096 + (b2 - 128) * 64 + (b3 - 128))
            :: utf8_decode fuel r3
        | _ => []
        end
    end
  end.

Definition bytes_of (s : string) : list Z :=
  map (fun a => Z.of_N (N_of_ascii a)) (list_ascii_of_string s).

Definition u (s : string) : pystr :=
  let bs := bytes_of s in utf8_decode (List.length bs) bs.

(** [a == b] for two strings *)
Fixpoint pystr_eqb (a b : pystr) : bool :=
  match a, b with
  | [], [] => true
  | x :: a', y :: b' => (x =? y) && pystr_eqb a' b'
  | _, _ => false
  end.

(** The values [json.loads] produces (numbers restricted to integers). *)
Inductive json : Type :=
| JNull
| JBool (b : bool)
| JInt (z : Z)
| JStr (s : pystr)
| JList (l : list json)
| JDict (d : list (pystr * json)).

(** [d.get(k)]: [None] of the model is Python's missing key. *)
Fixpoint dict_lookup (k : pystr) (d : list (pystr * json)) : option json :=
  match d with
  | [] => None
  | (k', v) :: d' => if pystr_eqb k' k then Some v else dict_lookup k d'
  end.

(** [d.get(k)] with the default [None]. *)
Definition dict_get (k : pystr) (d : list (pystr * json)) : json :=
  match dict_lookup k d with Some v => v | None => JNull end.

(** Truth value of a Python object ([if x], [not x], [x or y]). *)
Definition truthy (j : json) : bool :=
  match j with
  | JNull => false
  | JBool b => b
  | JInt z => negb (z =? 0)
  | JStr s => match s with [] => false | _ => true end
  | JList l => match l with [] => false | _ => true end
  | JDict d => match d with [] => false | _ => true end
  end.

(** [a or b] *)
Definition py_or (a b : json) : json := if truthy a then a else b.

(** [for x in v]: the items of a list, the keys of a dict, the characters of
    a string; [None] when the value is not iterable. *)
Definition py_iter (v : json) : option (list json) :=
  match v with
  | JList l => Some l
  | JDict d => Some (map (fun kv => JStr (fst kv)) d)
  | JStr s => Some (map (fun c => JStr [c]) s)
  | _ => None
  end.

Definition str_of_Z (z : Z) : pystr :=
  bytes_of (DecimalString.NilZero.string_of_int (Z.to_int z)).

(** [Py_UNICODE_ISSPACE] *)
Definition is_space (c : Z) : bool :=
  ((9 <=? c) && (c <=? 13)) || ((28 <=? c) && (c <=? 32))
  || (c =? 133) || (c =? 160) || (c =? 5760)
  || ((8192 <=? c) && (c <=? 8202))
  || (c =? 8232) || (c =? 8233) || (c =? 8239) || (c =? 8287) || (c =? 12288).

Fixpoint lstrip (s : pystr) : pystr :=
  match s with
  | [] => []
  | c :: s' => if is_space c then lstrip s' else s
  end.

(** [s.strip()] *)
Definition strip (s : pystr) : pystr := rev (lstrip (rev (lstrip s))).

Fixpoint startswith (p s : pystr) : bool :=
  match p, s with
  | [], _ => true
  | _ :: _, [] => false
  | a :: p', b :: s' => (a =? b) && startswith p' s'
  end.

(** [p in s] for two strings *)
Fixpoint contains (p s : pystr) : bool :=
  startswith p s ||
  match s with
  | [] => false
  | _ :: s' => contains p s'
  end.

(** [any(f(x) for x in l)] *)
Definition any {A} (f : A -> bool) (l : list A) : bool := existsb f l.

(** [p] occurs in [s] *)
Definition substring (p s : pystr) : Prop :=
  exists pre suf, s = pre ++ p ++ suf.

(** What the pipeline uses of the Python runtime and of the database driver
    without the source fixing it: Unicode lower-casing ([str.lower]), the
    rendering of containers by [str()], the binding of a non-null value
    to a [String] column ([None]: the driver refuses the value), and the
    coercions of the validation library. *)
Class Runtime := {
  lower : pystr -> pystr;
  lower_empty : lower [] = [];
  str_container : json -> pystr;
  bind_string : json -> option pystr;
  bind_string_str : forall s, bind_string (JStr s) = Some s;
  (* pydantic's validation of a present field annotated [str] and of one
     annotated [Dict[str, Any]]; [None]: the value is refused *)
  validate_str : json -> option pystr;
  validate_str_str : forall s, validate_str (JStr s) = Some s;
  validate_dict : json -> option (list (pystr * json));
  validate_dict_dict : forall d, validate_dict (JDict d) = Some d
}.

(** ** src/db_models.py: the tables *)

Record User := mkUser {
  uid : Z;                          (* id, primary key *)
  telegram_id : Z;
  hh_user_id : option pystr;
  hh_access_token : option pystr;
  mute_rejections : bool
}.

Record Notification := mkNotification {
  notif_id : Z;                     (* id, primary key *)
  user_id : Z;
  kind : pystr;
  hh_object_id : option pystr;
  text : pystr;
  is_rejection : bool;
  sent : bool;
  created_at : Z
}.

Record LogEvent := mkLogEvent {
  level : pystr;
  message : pystr
}.

Record DB := mkDB {
  users : list User;
  notifications : list Notification;
  log_events : list LogEvent
}.

(** The primary keys: no two rows of a table share an id. *)
Definition wf_db (db : DB) : Prop :=
  NoDup (map uid (users db)) /\ NoDup (map notif_id (notifications db)).

(** [usr] is the row of [users] that [n.user_id] refers to. *)
Definition owner (db : DB) (n : Notification) (usr : User) : Prop :=
  In usr (users db) /\ uid usr = user_id n.

(** The id the table gives the next inserted row. *)
Definition next_id (ns : list Notification) : Z :=
  1 + fold_right Z.max 0 (map notif_id ns).

(** [session.add(Notification(user_id=..., kind=..., hh_object_id=...,
    text=..., is_rejection=...))]: [sent] takes its default [False], the
    server stamps [created_at]. *)
Definition add_notification (now : Z) (user_id : Z) (kind : pystr)
    (hh_object_id : option pystr) (text : pystr) (is_rejection : bool)
    (ns : list Notification) : list Notification :=
  ns ++ [mkNotification (next_id ns) user_id kind hh_object_id text
           is_rejection false now].

(** [res.scalar_one_or_none()]: the outer [None] is [MultipleResultsFound]. *)
Definition scalar_one_or_none {A} (rows : list A) : option (option A) :=
  match rows with
  | [] => Some None
  | [x] => Some (Some x)
  | _ => None
  end.

(** [notif.sent = True] *)
Definition set_sent (n : Notification) : Notification :=
  mkNotification (notif_id n) (user_id n) (kind n) (hh_object_id n) (text n)
    (is_rejection n) true (created_at n).

(** ** src/bot.py: [notifications_worker], one pass of the [while True] body *)

(** What one pass does with a selected row: it consumes it silently, or it
    calls [bot.send_message(chat_id, text)], which returns ([ok = true]) or
    raises. *)
Inductive event :=
| Suppressed (n : Z)
| SendMessage (n : Z) (chat_id : Z) (txt : pystr) (ok : bool).

Definition event_notif (e : event) : Z :=
  match e with
  | Suppressed n => n
  | SendMessage n _ _ _ => n
  end.

Definition is_call (e : event) : bool :=
  match e with
  | Suppressed _ => false
  | SendMessage _ _ _ _ => true
  end.

(** The messaging endpoint: whether the call returns, given what the pass
    has done so far. *)
Definition Messenger := list event -> Z -> pystr -> bool.

Fixpoint insert_by_created_at (r : Notification * User)
    (rows : list (Notification * User)) : list (Notification * User) :=
  match rows with
  | [] => [r]
  | r' :: rest =>
    if created_at (fst r) <? created_at (fst r') then r :: rows
    else r' :: insert_by_created_at r rest
  end.

(** [.order_by(Notification.created_at)]; rows of equal time stay in table
    order. *)
Definition order_by_created_at (rows : list (Notification * User))
    : list (Notification * User) :=
  fold_left (fun acc r => insert_by_created_at r acc) rows [].

(** [select(Notification, User).join(User, User.id == Notification.user_id)
      .where(Notification.sent == False).order_by(Notification.created_at)] *)
Definition select_unsent (db : DB) : list (Notification * User) :=
  order_by_created_at
    (flat_map
       (fun n => map (pair n) (filter (fun usr => uid usr =? user_id n) (users db)))
       (filter (fun n => negb (sent n)) (notifications db))).

(** The [for notif, user in rows] loop. [marked] holds the ids of the
    objects on which [notif.sent = True] was executed. *)
Fixpoint deliver (send : Messenger) (rows : list (Notification * User))
    (log : list event) (marked : list Z) : list event * list Z :=
  match rows with
  | [] => (log, marked)
  | (notif, user) :: rest =>
    if is_rejection notif && mute_rejections user then
      deliver send rest (log ++ [Suppressed (notif_id notif)])
        (notif_id notif :: marked)
    else
      let ok := send log (telegram_id user) (text notif) in
      deliver send rest
        (log ++ [SendMessage (notif_id notif) (telegram_id user) (text notif) ok])
        (if ok then notif_id notif :: marked else marked)
  end.

Definition is_marked (marked : list Z) (n : Notification) : bool :=
  existsb (Z.eqb (notif_id n)) marked.

(** [session.commit()]: the rows of the marked objects get [sent = True]. *)
Definition commit_sent (marked : list Z) (db : DB) : DB :=
  mkDB (users db)
    (map (fun n => if is_marked marked n then set_sent n else n) (notifications db))
    (log_events db).

Definition notifications_worker_cycle (send : Messenger) (db : DB)
    : DB * list event :=
  let rows := select_unsent db in
  let '(log, marked) := deliver send rows [] [] in
  (commit_sent marked db, log).

(** [if notif.is_rejection and user.mute_rejections] *)
Definition suppressed (n : Notification) (usr : User) : bool :=
  is_rejection n && mute_rejections usr.

(** [l] lists [a], [b], [c] in this order. *)
Definition in_order {A} (a b c : A) (l : list A) : Prop :=
  exists l0 l1 l2 l3, l = l0 ++ a :: l1 ++ b :: l2 ++ c :: l3.

(** ** The external platform, as the poll worker sees it *)

(** A [GET]: the request or [raise_for_status] raises, the body is not JSON
    ([resp.json()] raises), or the body is a JSON value. *)
Inductive response :=
| RequestFailed
| InvalidJson
| Body (j : json).

Record Upstream := mkUpstream {
  get_negotiations : User -> response;        (* GET /negotiations *)
  get_messages : User -> json -> response     (* GET /negotiations/{nid}/messages *)
}.

(** [resp.json().get("items", [])] *)
Definition items (r : response) : option json :=
  match r with
  | Body (JDict d) =>
    Some (match dict_lookup (u "items") d with Some v => v | None => JList [] end)
  | _ => None
  end.

(** The [WHERE] clause of the poll worker's look-up. *)
Definition is_message_of (usr : Z) (msg_id : pystr) (n : Notification) : bool :=
  (user_id n =? usr) && pystr_eqb (kind n) (u "message") &&
  match hh_object_id n with
  | Some o => pystr_eqb o msg_id
  | None => false
  end.

(** The number of [kind = "message"] rows of a user with a given
    [hh_object_id]. *)
Definition count_message (usr : Z) (msg_id : pystr) (ns : list Notification) : nat :=
  List.length (filter (is_message_of usr msg_id) ns).

(** [for x in l: body], where the body may raise ([None]). *)
Fixpoint for_each {A S} (body : A -> S -> option S) (l : list A) (s : S)
    : option S :=
  match l with
  | [] => Some s
  | x :: l' =>
    match body x s with
    | Some s' => for_each body l' s'
    | None => None
    end
  end.

(** ** src/hh_web.py: the webhook request and its answer *)

Record WebhookEvent := mkWebhookEvent {
  ev_id : pystr;
  subscription_id : pystr;
  action_type : pystr;
  ev_user_id : pystr;
  payload : list (pystr * json)
}.

Inductive exn :=
| JSONDecodeError
| TypeError
| ValidationError
| MultipleResultsFound
| StatementError.

(** The handler returns a [PlainTextResponse] or an exception leaves it. *)
Inductive outcome :=
| PlainTextResponse (body : pystr) (status_code : Z)
| Raised (e : exn).

(** The status the caller receives: no exception handler is registered on
    [app] and the handler raises no [HTTPException], so an exception that
    leaves it is answered by the server's 500. *)
Definition http_status (o : outcome) : Z :=
  match o with
  | PlainTextResponse _ status_code => status_code
  | Raised _ => 500
  end.

Definition required_fields : list pystr :=
  [u "id"; u "subscription_id"; u "action_type"; u "user_id"; u "payload"].

(** [log_event(level, message, details)]: a row of [log_events]. *)
Definition log_event (level message : pystr) (db : DB) : DB :=
  mkDB (users db) (notifications db) (log_events db ++ [mkLogEvent level message]).

Definition nl : pystr := [10].

(** ** A runtime to evaluate the model with *)

Definition lower_letter (c : Z) : Z :=
  if ((65 <=? c) && (c <=? 90)) || ((1040 <=? c) && (c <=? 1071)) then c + 32
  else if (1024 <=? c) && (c <=? 1039) then c + 80
  else c.

(** Lower-casing of the Basic Latin and Cyrillic letters; values other than
    strings are refused by the driver and by the validation. *)
Definition letters_runtime : Runtime := {|
  lower := map lower_letter;
  lower_empty := eq_refl;
  str_container := fun _ => u "...";
  bind_string := fun j => match j with JStr s => Some s | _ => None end;
  bind_string_str := fun _ => eq_refl;
  validate_str := fun j => match j with JStr s => Some s | _ => None end;
  validate_str_str := fun _ => eq_refl;
  validate_dict := fun j => match j with JDict d => Some d | _ => None end;
  validate_dict_dict := fun _ => eq_refl
|}.

(** ** src/bot.py: the commands *)

Record UserRequestLog := mkUserRequestLog {
  req_user_id : option Z;
  req_telegram_id : Z;
  message_text : pystr
}.

(** The database with the table [user_requests]. *)
Record Store := mkStore {
  main : DB;
  user_requests : list UserRequestLog
}.

(** What a handler reads of the incoming message: [message.from_user.id]
    and [message.text]. *)
Record Message := mkMessage {
  from_user_id : Z;
  message_text_of : option pystr
}.

(** [select(User).where(User.telegram_id == tg_id)] *)
Definition users_by_telegram_id (tg_id : Z) (db : DB) : list User :=
  filter (fun usr => telegram_id usr =? tg_id) (users db).

(** [message.text or ""] *)
Definition text_or_empty (message : Message) : pystr :=
  match message_text_of message with
  | Some t => t
  | None => []
  end.

(** [log_user_request]; [None] when the look-up raises. *)
Definition log_user_request (tg_id : Z) (text : pystr) (s : Store) : option Store :=
  match scalar_one_or_none (users_by_telegram_id tg_id (main s)) with
  | None => None
  | Some user =>
    let req :=
      mkUserRequestLog
        (match user with Some usr => Some (uid usr) | None => None end)
        tg_id text in
    Some (mkStore (main s) (user_requests s ++ [req]))
  end.

(** The id the table gives the next inserted user. *)
Definition next_user_id (us : list User) : Z :=
  1 + fold_right Z.max 0 (map uid us).

(** [User(telegram_id=tg_id)]: no platform identity, no token,
    [mute_rejections] at its default [True]. *)
Definition new_user (tg_id : Z) (us : list User) : User :=
  mkUser (next_user_id us) tg_id None None true.

(** [user.mute_rejections = b] *)
Definition set_mute (b : bool) (usr : User) : User :=
  mkUser (uid usr) (telegram_id usr) (hh_user_id usr) (hh_access_token usr) b.

Definition start_text (auth_link : pystr) : pystr :=
  u "Привет! 👋" ++
  nl ++
  nl ++
  u "Я бот для уведомлений с hh.ru." ++
  nl ++
  nl ++
  u "1. Нажми на ссылку ниже и авторизуйся через hh.ru, чтобы привязать аккаунт:" ++
  nl ++
  auth_link ++
  nl ++
  nl ++
  u "2. После привязки я буду присылать уведомления о приглашениях и новых сообщениях." ++
  nl ++
  u "По умолчанию сообщения с отказами я <b>не присылаю</b>. Это можно настроить командой /settings.".

Definition mute_on_text : pystr :=
  u "✅ Режим <b>НЕ уведомлять об отказах</b> включён." ++
  nl ++
  u "Я буду присылать только приглашения и нейтральные сообщения.".

Definition mute_off_text : pystr :=
  u "ℹ️ Режим <b>НЕ уведомлять об отказах</b> выключен." ++
  nl ++
  u "Теперь буду присылать и отказные сообщения тоже.".

Definition not_recognized_text : pystr :=
  u "Команда не распознана." ++
  nl ++
  u "Используй /start для привязки hh.ru или /settings для настроек.".

(** A handler's result: the database after it and the texts it answered
    with; [None] when an exception left the handler. *)
Definition handled := (Store * option (list pystr))%type.

(** [cmd_start] *)
Definition cmd_start (PUBLIC_BASE_URL : pystr) (message : Message) (s : Store)
    : handled :=
  let tg_id := from_user_id message in
  match log_user_request tg_id (text_or_empty message) s with
  | None => (s, None)
  | Some s1 =>
    match scalar_one_or_none (users_by_telegram_id tg_id (main s1)) with
    | None => (s1, None)
    | Some user =>
      let s2 :=
        match user with
        | Some _ => s1
        | None =>
          mkStore
            (mkDB (users (main s1) ++ [new_user tg_id (users (main s1))])
               (notifications (main s1)) (log_events (main s1)))
            (user_requests s1)
        end in
      let auth_link :=
        PUBLIC_BASE_URL ++ u "/hh/auth/start?tg_id=" ++ str_of_Z tg_id in
      (s2, Some [start_text auth_link])
    end
  end.

(** [cmd_settings] *)
Definition cmd_settings (message : Message) (s : Store) : handled :=
  let tg_id := from_user_id message in
  match log_user_request tg_id (text_or_empty message) s with
  | None => (s, None)
  | Some s1 =>
    match scalar_one_or_none (users_by_telegram_id tg_id (main s1)) with
    | None => (s1, None)
    | Some None => (s1, Some [u "Сначала отправь /start."])
    | Some (Some user) =>
      let mute := negb (mute_rejections user) in
      let s2 :=
        mkStore
          (mkDB (map (fun x => if uid x =? uid user then set_mute mute x else x)
                   (users (main s1)))
             (notifications (main s1)) (log_events (main s1)))
          (user_requests s1) in
      (s2, Some [if mute then mute_on_text else mute_off_text])
    end
  end.

(** [any_message] *)
Definition any_message (message : Message) (s : Store) : handled :=
  let tg_id := from_user_id message in
  match log_user_request tg_id (text_or_empty message) s with
  | None => (s, None)
  | Some s1 => (s1, Some [not_recognized_text])
  end.

(** The row a handler logs for a message: the sender's user id is the one
    the table has when the message arrives. *)
Definition request_row (message : Message) (s : Store) : UserRequestLog :=
  mkUserRequestLog
    (option_map uid
       (hd_error (users_by_telegram_id (from_user_id message) (main s))))
    (from_user_id message) (text_or_empty message).

(** ** src/hh_web.py: the platform as the OAuth callback sees it *)

(** The columns of [users] that [User] leaves out, by user id. *)
Record Credentials := mkCredentials {
  cred_user : Z;
  hh_refresh_token : option pystr;
  hh_expires_at : option Z
}.

(** The database of the web service. *)
Record WebStore := mkWebStore {
  web_db : DB;
  credentials : list Credentials
}.

(** [POST /token]: the request raises, or it has a status and a body
    ([None]: the body is not JSON). *)
Inductive token_response :=
| TokenRequestFailed
| TokenStatus (status_code : Z) (body : option json).

(** [POST /webhook/subscriptions] *)
Inductive subscription_response :=
| SubscriptionRequestFailed
| SubscriptionStatus (status_code : Z).

Record OAuthUpstream := mkOAuthUpstream {
  post_token : pystr -> token_response;                (* by the code *)
  get_me : json -> response;                           (* by the access token *)
  post_subscriptions : json -> subscription_response   (* by the access token *)
}.

(** What the caller of a route gets: a response the handler returns, the
    response made from an [HTTPException] it raises, or the server's answer
    to any other exception. *)
Inductive web_result :=
| Response (status_code : Z) (body : pystr)
| HTTPException (status_code : Z) (detail : pystr)
| Unhandled.

Definition web_status (r : web_result) : Z :=
  match r with
  | Response status_code _ => status_code
  | HTTPException status_code _ => status_code
  | Unhandled => 500
  end.

(** [if x] for an optional query parameter. *)
Definition given (x : option pystr) : bool :=
  match x with
  | Some (_ :: _) => true
  | _ => false
  end.

(** [dt.datetime.now(dt.timezone.utc) + dt.timedelta(seconds=expires_in)],
    in whole seconds since the epoch; [None] when it raises: the value is
    no number, the delta or the date is out of range. *)
Definition expiry (now : Z) (expires_in : json) : option Z :=
  let seconds :=
    match expires_in with
    | JInt z => Some z
    | JBool b => Some (if b then 1 else 0)
    | _ => None
    end in
  match seconds with
  | None => None
  | Some z =>
    if (-86399999913600 <=? z) && (z <=? 86399999999999) &&
       (-62135596800 <=? now + z) && (now + z <=? 253402300799)
    then Some (now + z) else None
  end.

(** [user.hh_user_id = ...; user.hh_access_token = ...] *)
Definition set_link (hh_id : pystr) (token : option pystr) (usr : User) : User :=
  mkUser (uid usr) (telegram_id usr) (Some hh_id) token (mute_rejections usr).

(** [user.hh_refresh_token = ...] and, when given, [user.hh_expires_at = ...] *)
Definition set_credentials (usr : Z) (refresh : option pystr) (expires : option Z)
    (cs : list Credentials) : list Credentials :=
  let old := find (fun c => cred_user c =? usr) cs in
  let expires_at :=
    match expires with
    | Some t => Some t
    | None => match old with Some c => hh_expires_at c | None => None end
    end in
  filter (fun c => negb (cred_user c =? usr)) cs ++ [mkCredentials usr refresh expires_at].

(** ** A small database and a small platform to evaluate the model on *)

Definition alice : User :=
  mkUser 1 1001 (Some (u "hh-1")) (Some (u "token-a")) true.

Definition bob : User :=
  mkUser 2 1002 (Some (u "hh-2")) (Some (u "token-b")) false.

Definition rej_alice : Notification :=
  mkNotification 1 1 (u "state_change") (Some (u "t0")) (u "rejected") true false 10.

Definition rej_bob : Notification :=
  mkNotification 2 2 (u "state_change") (Some (u "t0")) (u "rejected") true false 20.

Definition inv_a : Notification :=
  mkNotification 3 1 (u "invitation") (Some (u "t1")) (u "first") false false 30.

Definition inv_b : Notification :=
  mkNotification 4 1 (u "invitation") (Some (u "t2")) (u "second") false false 40.

Definition inv_c : Notification :=
  mkNotification 5 1 (u "invitation") (Some (u "t3")) (u "third") false false 50.

Definition example_db : DB :=
  mkDB [alice; bob] [inv_c; rej_alice; inv_b; rej_bob; inv_a] [].

(** An endpoint that answers, and one that fails for bob's chat. *)
Definition send_ok : Messenger := fun _ _ _ => true.

Definition send_fail_bob : Messenger := fun _ chat_id _ => negb (chat_id =? 1002).

Definition msg_hello : json :=
  JDict [ (u "id", JStr (u "m1")); (u "text", JStr (u " Здравствуйте! "));
          (u "author", JDict [ (u "me", JBool false) ]) ].

Definition msg_refusal : json :=
  JDict [ (u "id", JStr (u "m2")); (u "text", JStr (u "К сожалению, отказ"));
          (u "author", JDict [ (u "me", JBool false) ]) ].

Definition msg_own : json :=
  JDict [ (u "id", JStr (u "m3")); (u "text", JStr (u "Спасибо"));
          (u "author", JDict [ (u "me", JBool true) ]) ].

Definition msg_no_id : list (pystr * json) :=
  [ (u "text", JStr (u "Добрый день")) ].

Definition example_thread : list (pystr * json) := [ (u "id", JStr (u "neg1")) ].

(** Alice has one thread with three messages; the request for bob fails. *)
Definition example_hh : Upstream :=
  mkUpstream
    (fun user =>
       if uid user =? 1 then Body (JDict [ (u "items", JList [JDict example_thread]) ])
       else RequestFailed)
    (fun user nid =>
       Body (JDict [ (u "items", JList [msg_hello; msg_refusal; msg_own]) ])).

Definition example_clock : Z -> Z := fun i => 100 + i.

(** A webhook body for a platform user nobody is linked to, and one
    without [payload]. *)
Definition event_unknown : list (pystr * json) :=
  [ (u "id", JStr (u "e1")); (u "subscription_id", JStr (u "s1"));
    (u "action_type", JStr (u "NEW_RESPONSE_OR_INVITATION_VACANCY"));
    (u "user_id", JStr (u "hh-9")); (u "payload", JDict []) ].

Definition event_without_payload : option json :=
  Some (JDict [ (u "id", JStr (u "e1")); (u "subscription_id", JStr (u "s1"));
                (u "action_type", JStr (u "NEW_RESPONSE_OR_INVITATION_VACANCY"));
                (u "user_id", JStr (u "hh-1")) ]).

(** More rows, events and messages for the examples. *)
Definition sent_row : Notification :=
  mkNotification 6 1 (u "invitation") (Some (u "t9")) (u "old") false true 5.

Definition orphan_row : Notification :=
  mkNotification 7 99 (u "invitation") None (u "lost") false false 6.

Definition settled_db : DB := mkDB [alice; bob] [sent_row; orphan_row] [].

Definition mixed_db : DB := mkDB [alice; bob] [sent_row; orphan_row; inv_a] [].

Definition discard_payload : list (pystr * json) :=
  [ (u "topic_id", JStr (u "t7")); (u "vacancy_id", JStr (u "1"));
    (u "resume_id", JStr (u "2")); (u "from_state", JStr (u "response"));
    (u "to_state", JStr (u "Discard_by_employer")) ].

Definition event_discard : list (pystr * json) :=
  [ (u "id", JStr (u "e3")); (u "subscription_id", JStr (u "s1"));
    (u "action_type", JStr (u "NEGOTIATION_EMPLOYER_STATE_CHANGE"));
    (u "user_id", JStr (u "hh-1")); (u "payload", JDict discard_payload) ].

Definition event_discard_parsed : WebhookEvent :=
  mkWebhookEvent (u "e3") (u "s1") (u "NEGOTIATION_EMPLOYER_STATE_CHANGE") (u "hh-1")
    discard_payload.

(** A message whose text is a number, and a platform that lists it. *)
Definition msg_bad : json := JDict [ (u "id", JStr (u "m9")); (u "text", JInt 5) ].

Definition bad_hh : Upstream :=
  mkUpstream
    (fun user => Body (JDict [ (u "items", JList [JDict example_thread]) ]))
    (fun user nid => Body (JDict [ (u "items", JList [msg_hello; msg_bad]) ])).

Definition example_store : Store := mkStore example_db [].

Definition settings_from_alice : Message := mkMessage 1001 (Some (u "/settings")).

Definition start_from_carol : Message := mkMessage 2000 (Some (u "/start")).


(** A store of the web application, a platform that accepts the code and
    the subscription, and the stores the callback's session leaves for two
    senders linking the platform identity of [event_unknown]. [state] is
    read as a string of decimal digits. *)
Definition example_web_store : WebStore := mkWebStore example_db [].

Definition example_token : list (pystr * json) :=
  [ (u "access_token", JStr (u "token-c"));
    (u "refresh_token", JStr (u "refresh-c"));
    (u "expires_in", JInt 3600) ].

Definition example_oauth : OAuthUpstream :=
  mkOAuthUpstream
    (fun _ => TokenStatus 200 (Some (JDict example_token)))
    (fun _ => Body (JDict [ (u "id", JStr (u "hh-9")) ]))
    (fun _ => SubscriptionStatus 201).

Definition int_of_digits (s : pystr) : option Z :=
  match s with
  | [] => None
  | _ =>
    fold_left
      (fun acc c =>
         match acc with
         | Some n => if (48 <=? c) && (c <=? 57) then Some (10 * n + (c - 48)) else None
         | None => None
         end) s (Some 0)
  end.

Definition carol_linked : User :=
  mkUser 3 2000 (Some (u "hh-9")) (Some (u "token-c")) true.

Definition dave_linked : User :=
  mkUser 4 3000 (Some (u "hh-9")) (Some (u "token-c")) true.

Definition linked_store : WebStore :=
  mkWebStore
    (mkDB (users example_db ++ [carol_linked]) (notifications example_db)
       (log_events example_db))
    [mkCredentials 3 (Some (u "refresh-c")) (Some 4600)].

Definition linked_twice : WebStore :=
  mkWebStore
    (mkDB (users example_db ++ [carol_linked; dave_linked]) (notifications example_db)
       (log_events example_db))
    [mkCredentials 3 (Some (u "refresh-c")) (Some 4600);
     mkCredentials 4 (Some (u "refresh-c")) (Some 5600)].


Section Pipeline.

Context {RT : Runtime}.

(** [str(x)], also what an f-string does with [{x}]. *)
Definition py_str (j : json) : pystr :=
  match j with
  | JNull => u "None"
  | JBool true => u "True"
  | JBool false => u "False"
  | JInt z => str_of_Z z
  | JStr s => s
  | _ => str_container j
  end.

(** ** src/bot.py: the rejection phrases and the text classifier *)

Definition REJECTION_PATTERNS : list pystr := Eval vm_compute in
  [ u "к сожалению";
    u "к сожелению";
    u "мы не готовы вас принять";
    u "вы нам не подходите";
    u "вынуждены отказать";
    u "отказ";
    u "не сможем продолжить" ].

(** bot.py, lines 253-254:
    [t_low = text.lower()]
    [is_rej = any(p in t_low for p in REJECTION_PATTERNS)] *)
Definition classify (text : pystr) : bool :=
  let t_low := lower text in
  any (fun p => contains p t_low) REJECTION_PATTERNS.

(** ** src/bot.py: [hh_messages_worker], one pass of the [while True] body *)

(** The body of [for msg in msgs]. The state is the [notifications] table as
    the open session sees it (a look-up flushes the added rows first);
    [None] is an exception, which leaves all the loops. [clock] is the time
    the server stamps on the row of a given id. *)
Definition poll_message (clock : Z -> Z) (user : User) (msg : json)
    (ns : list Notification) : option (list Notification) :=
  match msg with
  | JDict m =>
    let msg_id := py_str (dict_get (u "id") m) in
    match py_or (dict_get (u "text") m) (JStr []) with
    | JStr t =>
      let text := strip t in
      match (match dict_lookup (u "author") m with
             | Some a => a
             | None => JDict []
             end) with
      | JDict a =>
        let author_me :=
          match dict_lookup (u "me") a with
          | Some v => v
          | None => JBool false
          end in
        if truthy author_me || negb (truthy (JStr text)) then Some ns
        else
          match scalar_one_or_none
                  (filter (is_message_of (uid user) msg_id) ns) with
          | None => None
          | Some (Some existing) => Some ns
          | Some None =>
            let is_rej := classify text in
            Some (add_notification (clock (next_id ns)) (uid user) (u "message")
                    (Some msg_id)
                    (u "💬 Новое сообщение на hh.ru:" ++ nl ++ nl ++ text)
                    is_rej ns)
          end
      | _ => None
      end
    | _ => None
    end
  | _ => None
  end.

(** The body of [for neg in negotiations]. *)
Definition poll_negotiation (hh : Upstream) (clock : Z -> Z) (user : User)
    (neg : json) (ns : list Notification) : option (list Notification) :=
  match neg with
  | JDict n =>
    let nid := py_or (dict_get (u "id") n) (dict_get (u "topic_id") n) in
    if negb (truthy nid) then Some ns
    else
      match get_messages hh user nid with
      | RequestFailed => Some ns
      | r_msgs =>
        match items r_msgs with
        | None => None
        | Some v =>
          match py_iter v with
          | None => None
          | Some msgs => for_each (poll_message clock user) msgs ns
          end
        end
      end
  | _ => None
  end.

(** The body of [for user in users]; the result is the table after
    [session.commit()]. *)
Definition poll_user (hh : Upstream) (clock : Z -> Z) (user : User)
    (ns : list Notification) : option (list Notification) :=
  if negb (match hh_access_token user with
           | Some t => truthy (JStr t)
           | None => false
           end) then Some ns
  else
    match get_negotiations hh user with
    | RequestFailed => Some ns
    | resp =>
      match items resp with
      | None => None
      | Some v =>
        match py_iter v with
        | None => None
        | Some negotiations =>
          for_each (poll_negotiation hh clock user) negotiations ns
        end
      end
    end.

(** [for user in users], inside the [try]: an exception ends the pass and
    loses what the open session had added; what earlier users' sessions
    committed stays. The flag tells whether the pass came to its end. *)
Fixpoint poll_users (hh : Upstream) (clock : Z -> Z) (us : list User)
    (ns : list Notification) : list Notification * bool :=
  match us with
  | [] => (ns, true)
  | user :: rest =>
    match poll_user hh clock user ns with
    | Some ns' => poll_users hh clock rest ns'
    | None => (ns, false)
    end
  end.

Definition hh_messages_worker_cycle (hh : Upstream) (clock : Z -> Z) (db : DB)
    : DB * bool :=
  (* select(User).where(User.hh_access_token.is_not(None)) *)
  let users_ :=
    filter (fun usr => match hh_access_token usr with Some _ => true | None => false end)
      (users db) in
  let '(ns, finished) := poll_users hh clock users_ (notifications db) in
  (mkDB (users db) ns (log_events db), finished).

(** ** src/hh_web.py: [is_rejection_state] and [hh_webhook] *)

Definition is_rejection_state (to_state : pystr) : bool :=
  let s := lower to_state in
  let bad_keywords :=
    [u "discard"; u "rejected"; u "decline"; u "отказ"; u "закрыто"; u "завершено"] in
  any (fun k => contains k s) bad_keywords.

(** The construction of a [WebhookEvent] from the keys of the mapping
    [data]: every field is required; keys that are no field are ignored. *)
Definition WebhookEvent_validate (d : list (pystr * json)) : option WebhookEvent :=
  match dict_lookup (u "id") d, dict_lookup (u "subscription_id") d,
        dict_lookup (u "action_type") d, dict_lookup (u "user_id") d,
        dict_lookup (u "payload") d with
  | Some i, Some s, Some a, Some usr, Some p =>
    match validate_str i, validate_str s, validate_str a, validate_str usr,
          validate_dict p with
    | Some i', Some s', Some a', Some usr', Some p' =>
      Some (mkWebhookEvent i' s' a' usr' p')
    | _, _, _, _, _ => None
    end
  | _, _, _, _, _ => None
  end.

(** [select(User).where(User.hh_user_id == hh_id)] *)
Definition users_by_hh_user_id (hh_id : pystr) (db : DB) : list User :=
  filter (fun usr => match hh_user_id usr with
                     | Some h => pystr_eqb h hh_id
                     | None => false
                     end) (users db).

(** The tail of the handler: [Notification(...)], [session.add],
    [session.commit()], [return PlainTextResponse("ok", 200)]. The value for
    the [hh_object_id] column is bound by the driver. *)
Definition webhook_insert (now : Z) (user : User) (kind : pystr)
    (hh_object_id : json) (notif_text : pystr) (is_rej : bool) (db : DB)
    : DB * outcome :=
  let column :=
    match hh_object_id with
    | JNull => Some None
    | v => match bind_string v with Some s => Some (Some s) | None => None end
    end in
  match column with
  | None => (db, Raised StatementError)
  | Some o =>
    (mkDB (users db)
       (add_notification now (uid user) kind o notif_text is_rej (notifications db))
       (log_events db),
     PlainTextResponse (u "ok") 200)
  end.

(** [request] is the body as [request.json()] reads it ([None]: not JSON);
    [now] is the server time of the insertion. *)
Definition hh_webhook (now : Z) (request : option json) (db : DB) : DB * outcome :=
  match request with
  | None => (db, Raised JSONDecodeError)
  | Some (JDict data) =>
    match WebhookEvent_validate data with
    | None => (db, Raised ValidationError)
    | Some event =>
      let db := log_event (u "INFO") (u "Incoming HH webhook") db in
      match scalar_one_or_none (users_by_hh_user_id (ev_user_id event) db) with
      | None => (db, Raised MultipleResultsFound)
      | Some None =>
        (log_event (u "WARNING") (u "Webhook for unknown hh_user_id") db,
         PlainTextResponse (u "unknown user") 200)
      | Some (Some user) =>
        if pystr_eqb (action_type event) (u "NEW_RESPONSE_OR_INVITATION_VACANCY") then
          let kind := u "invitation" in
          let payload := payload event in
          let vacancy_id := dict_get (u "vacancy_id") payload in
          let resume_id := dict_get (u "resume_id") payload in
          let hh_object_id :=
            py_or (dict_get (u "topic_id") payload) (dict_get (u "chat_id") payload) in
          let notif_text :=
            u "📩 Новое приглашение / отклик на hh.ru" ++ nl ++
            u "vacancy_id: " ++ py_str vacancy_id ++ nl ++
            u "resume_id: " ++ py_str resume_id in
          let is_rej := false in
          webhook_insert now user kind hh_object_id notif_text is_rej db
        else if pystr_eqb (action_type event) (u "NEGOTIATION_EMPLOYER_STATE_CHANGE") then
          let kind := u "state_change" in
          let payload := payload event in
          let from_state := dict_get (u "from_state") payload in
          let to_state := dict_get (u "to_state") payload in
          let vacancy_id := dict_get (u "vacancy_id") payload in
          let resume_id := dict_get (u "resume_id") payload in
          let transferred_at := dict_get (u "transferred_at") payload in
          let hh_object_id := dict_get (u "topic_id") payload in
          let is_rej := is_rejection_state (py_str to_state) in
          let notif_text :=
            u "📂 Изменение этапа отклика на hh.ru" ++ nl ++
            u "vacancy_id: " ++ py_str vacancy_id ++ nl ++
            u "resume_id: " ++ py_str resume_id ++ nl ++
            py_str from_state ++ u " ➜ " ++ py_str to_state ++
            u " (" ++ py_str transferred_at ++ u ")" in
          webhook_insert now user kind hh_object_id notif_text is_rej db
        else
          (db, PlainTextResponse (u "ignored") 200)
      end
    end
  | Some _ => (db, Raised TypeError)
  end.

(** A body that is a JSON object in which a required field is absent. *)
Definition missing_field (request : option json) : Prop :=
  exists d f, request = Some (JDict d) /\ In f required_fields /\
              dict_lookup f d = None.

(** What an operation may do to the rows that exist: keep each where it is,
    changed at most in [sent], from [false] to [true]; rows are only added
    behind them. *)
Definition row_step (n n' : Notification) : Prop :=
  n' = n \/ (sent n = false /\ n' = set_sent n).

Definition table_step (ns ns' : list Notification) : Prop :=
  exists kept added, ns' = kept ++ added /\ Forall2 row_step ns kept.

Definition append_only (ns ns' : list Notification) : Prop :=
  exists added, ns' = ns ++ added /\ Forall (fun n => sent n = false) added.

(** The order of the selection. *)
Definition created_le (a b : Notification * User) : Prop :=
  created_at (fst a) <= created_at (fst b).

(** The event of a selected row: none but [Suppressed] for a muted
    rejection, a call with the owner's chat and the row's text otherwise. *)
Definition outcome_of (n : Notification) (usr : User) (e : event) : Prop :=
  if suppressed n usr then e = Suppressed (notif_id n)
  else exists ok, e = SendMessage (notif_id n) (telegram_id usr) (text n) ok.

(** The events after which [notif.sent = True] is executed. *)
Definition marks (e : event) : bool :=
  match e with
  | Suppressed _ => true
  | SendMessage _ _ _ ok => ok
  end.

(** The first half of the body of [for msg in msgs], up to the look-up:
    [None] when it raises, [Some None] when the message is skipped as
    outbound or without text, and the dedup key [msg_id] with the stripped
    text of an inbound message otherwise. *)
Definition inbound_message (msg : json) : option (option (pystr * pystr)) :=
  match msg with
  | JDict m =>
    match py_or (dict_get (u "text") m) (JStr []) with
    | JStr t =>
      match (match dict_lookup (u "author") m with
             | Some a => a
             | None => JDict []
             end) with
      | JDict a =>
        let author_me :=
          match dict_lookup (u "me") a with
          | Some v => v
          | None => JBool false
          end in
        if truthy author_me || negb (truthy (JStr (strip t))) then Some None
        else Some (Some (py_str (dict_get (u "id") m), strip t))
      | _ => None
      end
    | _ => None
    end
  | _ => None
  end.

(** [msg] is among the messages a pass reads for [user]: the user has a
    token, the list of threads is fetched, and [msg] is listed for a thread
    with an id. *)
Definition polled_message (hh : Upstream) (user : User) (msg : json) : Prop :=
  (exists t, hh_access_token user = Some t /\ t <> []) /\
  exists v negotiations n v' msgs,
    items (get_negotiations hh user) = Some v /\
    py_iter v = Some negotiations /\
    In (JDict n) negotiations /\
    truthy (py_or (dict_get (u "id") n) (dict_get (u "topic_id") n)) = true /\
    items (get_messages hh user
             (py_or (dict_get (u "id") n) (dict_get (u "topic_id") n))) = Some v' /\
    py_iter v' = Some msgs /\
    In msg msgs.

(** The table grows: rows are appended, the ids stay distinct, a dedup key
    with one row keeps one row, and a key with at most one row keeps at
    most one. *)
Definition grows (ns ns' : list Notification) : Prop :=
  append_only ns ns' /\
  (NoDup (map notif_id ns) -> NoDup (map notif_id ns')) /\
  forall usr msg_id,
    (count_message usr msg_id ns = 1%nat -> count_message usr msg_id ns' = 1%nat) /\
    (count_message usr msg_id ns <= 1 -> count_message usr msg_id ns' <= 1)%nat.

(** A block of the poll worker that finds nothing to do on [ns] nor on any
    table grown from it. *)
Definition settled (f : list Notification -> option (list Notification))
    (ns : list Notification) : Prop :=
  forall ns2, grows ns ns2 -> f ns2 = Some ns2.

Definition same_counts (ns ns' : list Notification) : Prop :=
  forall usr msg_id, count_message usr msg_id ns = count_message usr msg_id ns'.

Definition agree {S} (R : S -> S -> Prop) (a b : option S) : Prop :=
  match a, b with
  | Some x, Some y => R x y
  | None, None => True
  | _, _ => False
  end.

(** ** The end-to-end scenario *)

(** The event [NEW_RESPONSE_OR_INVITATION_VACANCY] with the payload
    [{vacancy_id: "1", resume_id: "2", topic_id: "t1"}], for a platform user
    [hh_id]. *)
Definition invitation_event (i s hh_id : pystr) : json :=
  JDict [ (u "id", JStr i);
          (u "subscription_id", JStr s);
          (u "action_type", JStr (u "NEW_RESPONSE_OR_INVITATION_VACANCY"));
          (u "user_id", JStr hh_id);
          (u "payload", JDict [ (u "vacancy_id", JStr (u "1"));
                                (u "resume_id", JStr (u "2"));
                                (u "topic_id", JStr (u "t1")) ]) ].

(** The row the scenario expects for it. *)
Definition invitation_row (now : Z) (usr : User) (db : DB) : Notification :=
  mkNotification (next_id (notifications db)) (uid usr) (u "invitation")
    (Some (u "t1"))
    (u "📩 Новое приглашение / отклик на hh.ru" ++ nl ++
     u "vacancy_id: 1" ++ nl ++ u "resume_id: 2")
    false false now.

(** ** The pipeline as a whole *)

(** The three components that write the table, each with what it takes
    from outside. *)
Inductive op :=
| Webhook (now : Z) (request : option json)
| Poll (hh : Upstream) (clock : Z -> Z)
| Deliver (send : Messenger).

Definition run_op (o : op) (db : DB) : DB :=
  match o with
  | Webhook now request => fst (hh_webhook now request db)
  | Poll hh clock => fst (hh_messages_worker_cycle hh clock db)
  | Deliver send => fst (notifications_worker_cycle send db)
  end.

Definition run_ops (ops : list op) (db : DB) : DB :=
  fold_left (fun db o => run_op o db) ops db.

(** ** More on the webhook handler *)

(** The keywords of [is_rejection_state]. *)
Definition bad_keywords : list pystr :=
  [u "discard"; u "rejected"; u "decline"; u "отказ"; u "закрыто"; u "завершено"].

(** The text the handler composes for a state change. *)
Definition state_change_text (payload : list (pystr * json)) : pystr :=
  u "📂 Изменение этапа отклика на hh.ru" ++ nl ++
  u "vacancy_id: " ++ py_str (dict_get (u "vacancy_id") payload) ++ nl ++
  u "resume_id: " ++ py_str (dict_get (u "resume_id") payload) ++ nl ++
  py_str (dict_get (u "from_state") payload) ++ u " ➜ " ++
  py_str (dict_get (u "to_state") payload) ++
  u " (" ++ py_str (dict_get (u "transferred_at") payload) ++ u ")".

(** The row a state change makes, for the thread id [topic] of the payload
    ([None]: no [topic_id]). *)
Definition state_change_row (now : Z) (usr : User) (event : WebhookEvent)
    (topic : option pystr) (db : DB) : Notification :=
  mkNotification (next_id (notifications db)) (uid usr) (u "state_change") topic
    (state_change_text (payload event))
    (is_rejection_state (py_str (dict_get (u "to_state") (payload event))))
    false now.

(** What the handler does beyond its answer: the row it adds, if any, given
    as the arguments of [add_notification] but the time. *)
Definition new_row := (Z * pystr * option pystr * pystr * bool)%type.

Definition with_row (now : Z) (row : option new_row) (ns : list Notification)
    : list Notification :=
  match row with
  | Some (usr, k, ob, txt, rej) => add_notification now usr k ob txt rej ns
  | None => ns
  end.

(** ** More on the poll pass *)

(** [n] is the row the poll worker makes for [user] from the message
    [msg]. *)
Definition row_of_message (user : User) (msg : json) (n : Notification) : Prop :=
  exists msg_id txt,
    inbound_message msg = Some (Some (msg_id, txt)) /\
    user_id n = uid user /\ kind n = u "message" /\ hh_object_id n = Some msg_id /\
    text n = u "💬 Новое сообщение на hh.ru:" ++ nl ++ nl ++ txt /\
    is_rejection n = classify txt /\ sent n = false.

(** [ns'] is [ns] followed by rows that all satisfy [P]. *)
Definition adds (P : Notification -> Prop) (ns ns' : list Notification) : Prop :=
  exists added, ns' = ns ++ added /\ Forall P added.

(** ** src/hh_web.py: [hh_oauth_callback] *)

(** The value of a nullable text column for a JSON value; the outer [None]
    is the driver refusing it. *)
Definition text_column (v : json) : option (option pystr) :=
  match v with
  | JNull => Some None
  | _ => match bind_string v with Some s => Some (Some s) | None => None end
  end.

Definition web_log (level message : pystr) (s : WebStore) : WebStore :=
  mkWebStore (log_event level message (web_db s)) (credentials s).

(** The session of the callback: look the user up by telegram id, make
    the row when there is none, set the link and commit. [None] when the
    look-up, the date arithmetic or the commit raises. *)
Definition store_link (now tg_id : Z) (hh_user_id : pystr)
    (access_token refresh_token expires_in : json) (s : WebStore) : option WebStore :=
  match scalar_one_or_none (users_by_telegram_id tg_id (web_db s)) with
  | None => None
  | Some found =>
    match (if truthy expires_in
           then match expiry now expires_in with
                | Some t => Some (Some t)
                | None => None
                end
           else Some None) with
    | None => None
    | Some expires =>
      match text_column access_token, text_column refresh_token with
      | Some token, Some refresh =>
        let us := users (web_db s) in
        let '(us', usr) :=
          match found with
          | Some user =>
            (map (fun x => if uid x =? uid user then set_link hh_user_id token x else x) us,
             uid user)
          | None =>
            (us ++ [set_link hh_user_id token (new_user tg_id us)], next_user_id us)
          end in
        Some (mkWebStore
                (mkDB us' (notifications (web_db s)) (log_events (web_db s)))
                (set_credentials usr refresh expires (credentials s)))
      | _, _ => None
      end
    end
  end.

(** [int_of_str] is [int(state)], [None] when it raises. *)
Definition hh_oauth_callback (int_of_str : pystr -> option Z) (hh : OAuthUpstream)
    (now : Z) (code error state : option pystr) (s : WebStore)
    : WebStore * web_result :=
  if given error then
    (web_log (u "ERROR") (u "HH OAuth error") s,
     Response 400 (u "HH authorization error: " ++
                   match error with Some e => e | None => [] end))
  else if negb (given code) || negb (given state) then
    (s, HTTPException 400 (u "Missing code or state"))
  else
    match int_of_str (match state with Some t => t | None => [] end) with
    | None => (s, Unhandled)
    | Some tg_id =>
      (* exchange_code_for_token *)
      match post_token hh (match code with Some c => c | None => [] end) with
      | TokenRequestFailed => (s, Unhandled)
      | TokenStatus status_code body =>
        if 400 <=? status_code then
          (web_log (u "ERROR") (u "Failed to exchange code for token") s,
           HTTPException 500 (u "Failed to exchange code for token"))
        else
          match body with
          | Some (JDict token_data) =>
            match dict_lookup (u "access_token") token_data with
            | None => (s, Unhandled)
            | Some access_token =>
              let refresh_token := dict_get (u "refresh_token") token_data in
              let expires_in := dict_get (u "expires_in") token_data in
              (* get_hh_me *)
              match get_me hh access_token with
              | Body (JDict me) =>
                let hh_user_id := py_str (dict_get (u "id") me) in
                match store_link now tg_id hh_user_id access_token refresh_token
                        expires_in s with
                | None => (s, Unhandled)
                | Some s1 =>
                  (* subscribe_webhooks *)
                  match post_subscriptions hh access_token with
                  | SubscriptionRequestFailed => (s1, Unhandled)
                  | SubscriptionStatus status =>
                    if 400 <=? status then
                      (web_log (u "ERROR") (u "Failed to subscribe webhooks") s1,
                       HTTPException 500 (u "Failed to subscribe webhooks"))
                    else
                      (web_log (u "INFO") (u "HH account linked") s1,
                       Response 200
                         (u "Ваш аккаунт hh.ru успешно привязан. Можно закрыть это окно и вернуться в бота."))
                  end
                end
              | _ => (s, Unhandled)
              end
            end
          | _ => (s, Unhandled)
          end
      end
    end.

(** ** Strings *)

Lemma pystr_eqb_eq (a b : pystr) : pystr_eqb a b = true <-> a = b.
Proof.
  revert b. induction a as [|x a IH]; intros [|y b]; simpl;
    try (split; [discriminate | discriminate]); [tauto|].
  rewrite andb_true_iff, Z.eqb_eq, IH. split.
  - now intros [-> ->].
  - intros H. now injection H.
Qed.

Lemma pystr_eqb_refl (a : pystr) : pystr_eqb a a = true.
Proof. now apply pystr_eqb_eq. Qed.

Lemma startswith_spec (p s : pystr) :
  startswith p s = true <-> exists suf, s = p ++ suf.
Proof.
  revert s. induction p as [|a p IH]; intros s; simpl.
  - split; [intros _; now exists s | reflexivity].
  - destruct s as [|b s].
    + split; [discriminate | intros [suf H]; discriminate].
    + rewrite andb_true_iff, Z.eqb_eq, IH. split.
      * intros [-> [suf ->]]. now exists suf.
      * intros [suf H]. injection H as -> ->. split; [reflexivity | now exists suf].
Qed.

Lemma contains_spec (p s : pystr) : contains p s = true <-> substring p s.
Proof.
  unfold substring. induction s as [|c s IH]; simpl.
  - rewrite orb_false_r, startswith_spec. split.
    + intros [suf H]. now exists [], suf.
    + intros [pre [suf H]]. destruct pre; [now exists suf | discriminate].
  - rewrite orb_true_iff, startswith_spec, IH. split.
    + intros [[suf H] | [pre [suf H]]].
      * now exists [], suf.
      * exists (c :: pre), suf. simpl. now rewrite H.
    + intros [[|c' pre] [suf H]].
      * left. now exists suf.
      * right. injection H as _ H. now exists pre, suf.
Qed.

Lemma classify_true_iff (text : pystr) :
  classify text = true <->
  exists p, In p REJECTION_PATTERNS /\ substring p (lower text).
Proof.
  unfold classify, any. rewrite existsb_exists.
  split; intros [p [Hin H]]; exists p; split; trivial; now apply contains_spec.
Qed.

(** C3. The classifier answers [true] on every text whose lower-cased form
    contains one of the rejection phrases, [false] on every text whose
    lower-cased form contains none of them, and [false] on the empty
    string. *)
Theorem classify_spec :
  (forall text,
     (exists p, In p REJECTION_PATTERNS /\ substring p (lower text)) ->
     classify text = true) /\
  (forall text,
     (forall p, In p REJECTION_PATTERNS -> ~ substring p (lower text)) ->
     classify text = false) /\
  classify [] = false.
Proof.
  split; [|split].
  - intros text H. now apply classify_true_iff.
  - intros text H. destruct (classify text) eqn:E; trivial.
    apply classify_true_iff in E. destruct E as [p [Hin Hs]].
    now elim (H p Hin).
  - unfold classify. rewrite lower_empty. reflexivity.
Qed.

(** ** The delivery pass: the selection *)

Lemma insert_by_created_at_perm r rows :
  Permutation (r :: rows) (insert_by_created_at r rows).
Proof.
  induction rows as [|r' rows IH]; simpl.
  - apply Permutation_refl.
  - destruct (created_at (fst r) <? created_at (fst r')).
    + apply Permutation_refl.
    + eapply perm_trans; [apply perm_swap|]. now apply perm_skip.
Qed.

Lemma order_by_created_at_perm rows :
  Permutation rows (order_by_created_at rows).
Proof.
  unfold order_by_created_at.
  assert (G : forall acc, Permutation (rows ++ acc)
            (fold_left (fun acc r => insert_by_created_at r acc) rows acc)).
  { induction rows as [|r rows IH]; intros acc; simpl.
    - apply Permutation_refl.
    - eapply perm_trans; [|apply IH].
      eapply perm_trans; [apply Permutation_middle|].
      apply Permutation_app_head. apply insert_by_created_at_perm. }
  specialize (G []). now rewrite app_nil_r in G.
Qed.

Lemma insert_by_created_at_sorted r rows :
  StronglySorted created_le rows ->
  StronglySorted created_le (insert_by_created_at r rows).
Proof.
  induction 1 as [|r' rows Hs IH Hall]; simpl.
  - constructor; constructor.
  - destruct (created_at (fst r) <? created_at (fst r')) eqn:E.
    + apply Z.ltb_lt in E. constructor; [now constructor|].
      constructor; [unfold created_le; lia|].
      eapply Forall_impl; [|exact Hall]. unfold created_le. intros; lia.
    + apply Z.ltb_ge in E. constructor; trivial.
      eapply Permutation_Forall; [apply insert_by_created_at_perm|].
      constructor; trivial.
Qed.

Lemma order_by_created_at_sorted rows :
  StronglySorted created_le (order_by_created_at rows).
Proof.
  unfold order_by_created_at.
  assert (G : forall acc, StronglySorted created_le acc ->
            StronglySorted created_le
              (fold_left (fun acc r => insert_by_created_at r acc) rows acc)).
  { induction rows as [|r rows IH]; intros acc Hacc; simpl; trivial.
    apply IH. now apply insert_by_created_at_sorted. }
  apply G. constructor.
Qed.

Lemma select_unsent_In db n usr :
  In (n, usr) (select_unsent db) <->
  In n (notifications db) /\ sent n = false /\ owner db n usr.
Proof.
  unfold select_unsent, owner. split.
  - intros H. eapply Permutation_in in H;
      [|apply Permutation_sym, order_by_created_at_perm].
    apply in_flat_map in H. destruct H as [n' [Hn' H]].
    apply in_map_iff in H. destruct H as [usr' [Heq Hu]].
    injection Heq as -> ->.
    apply filter_In in Hn'. apply filter_In in Hu.
    destruct Hn' as [? Hs], Hu as [? Hu].
    apply Z.eqb_eq in Hu. apply negb_true_iff in Hs. tauto.
  - intros [Hn [Hs [Hu Hid]]].
    eapply Permutation_in; [apply order_by_created_at_perm|].
    apply in_flat_map. exists n. split.
    + apply filter_In. now rewrite Hs.
    + apply in_map. apply filter_In. split; trivial. now apply Z.eqb_eq.
Qed.

Lemma select_unsent_sorted db : StronglySorted created_le (select_unsent db).
Proof. apply order_by_created_at_sorted. Qed.

Lemma filter_uid_unique (us : list User) (x : Z) :
  NoDup (map uid us) ->
  (List.length (filter (fun usr => (uid usr =? x)%Z) us) <= 1)%nat.
Proof.
  induction us as [|a us IH]; simpl; intros Hnd; [lia|].
  inversion Hnd as [|? ? Hnotin Hnd']; subst.
  destruct (uid a =? x) eqn:E; [|now apply IH].
  apply Z.eqb_eq in E. simpl.
  destruct (filter (fun usr => uid usr =? x) us) as [|b l] eqn:F; simpl; [lia|].
  exfalso. apply Hnotin.
  assert (Hb : In b (filter (fun usr => uid usr =? x) us)) by (rewrite F; now left).
  apply filter_In in Hb. destruct Hb as [Hb Hx]. apply Z.eqb_eq in Hx.
  apply in_map_iff. exists b. split; [congruence | trivial].
Qed.

Lemma select_unsent_NoDup db :
  wf_db db -> NoDup (map (fun r => notif_id (fst r)) (select_unsent db)).
Proof.
  intros [Hu Hn]. unfold select_unsent.
  eapply Permutation_NoDup;
    [apply Permutation_map, order_by_created_at_perm|].
  assert (Hsub : NoDup (map notif_id (filter (fun n => negb (sent n)) (notifications db)))).
  { revert Hn. generalize (notifications db) as ns.
    induction ns as [|a ns IH]; simpl; intros Hnd; [constructor|].
    inversion Hnd as [|? ? Hnotin Hnd']; subst.
    destruct (negb (sent a)); [|now apply IH].
    simpl. constructor; [|now apply IH].
    intros Hin. apply Hnotin. apply in_map_iff in Hin.
    destruct Hin as [b [Hb Hin]]. apply filter_In in Hin.
    apply in_map_iff. exists b. tauto. }
  revert Hsub. generalize (filter (fun n => negb (sent n)) (notifications db)) as ns.
  induction ns as [|a ns IH]; simpl; intros Hnd; [constructor|].
  inversion Hnd as [|? ? Hnotin Hnd']; subst.
  rewrite map_app, map_map. simpl.
  pose proof (filter_uid_unique (users db) (user_id a) Hu) as Hlen.
  destruct (filter (fun usr => uid usr =? user_id a) (users db)) as [|b [|c l]];
    simpl in *; try lia.
  - now apply IH.
  - constructor; [|now apply IH].
    intros Hin. apply Hnotin. apply in_map_iff in Hin.
    destruct Hin as [[n' usr'] [Hid Hin]]. simpl in Hid.
    apply in_flat_map in Hin. destruct Hin as [n'' [Hn'' Hin]].
    apply in_map_iff in Hin. destruct Hin as [? [Heq _]].
    injection Heq as -> _. apply in_map_iff. now exists n'.
Qed.

(** ** The delivery pass: the loop and the commit *)

Lemma outcome_of_notif n usr e : outcome_of n usr e -> event_notif e = notif_id n.
Proof.
  unfold outcome_of. destruct (suppressed n usr).
  - now intros ->.
  - now intros [ok ->].
Qed.

Lemma deliver_spec send rows : forall log marked log' marked',
  deliver send rows log marked = (log', marked') ->
  exists evs,
    log' = log ++ evs /\
    Forall2 (fun r e => outcome_of (fst r) (snd r) e) rows evs /\
    (forall i, In i marked' <->
       In i marked \/ exists e, In e evs /\ event_notif e = i /\ marks e = true).
Proof.
  induction rows as [|[notif user] rest IH]; simpl; intros log marked log' marked' H.
  - injection H as <- <-. exists []. rewrite app_nil_r.
    split; [reflexivity|]. split; [constructor|].
    intros i. split; [tauto|]. intros [Hi | [e [[] _]]]; trivial.
  - destruct (is_rejection notif && mute_rejections user) eqn:Hs.
    + apply IH in H. destruct H as [evs [-> [HF Hm]]].
      exists (Suppressed (notif_id notif) :: evs). rewrite <- app_assoc.
      split; [reflexivity|]. split.
      * constructor; trivial. unfold outcome_of, suppressed. simpl. now rewrite Hs.
      * intros i. rewrite Hm. simpl. split.
        -- intros [[<- | Hi] | [e [He Hr]]].
           ++ right. exists (Suppressed (notif_id notif)). simpl. tauto.
           ++ now left.
           ++ right. exists e. tauto.
        -- intros [Hi | [e [[<- | He] [Hid Hmk]]]].
           ++ tauto.
           ++ simpl in Hid. tauto.
           ++ right. exists e. tauto.
    + apply IH in H. destruct H as [evs [-> [HF Hm]]].
      set (ok := send log (telegram_id user) (text notif)) in *.
      exists (SendMessage (notif_id notif) (telegram_id user) (text notif) ok :: evs).
      rewrite <- app_assoc. split; [reflexivity|]. split.
      * constructor; trivial. unfold outcome_of, suppressed. simpl. rewrite Hs.
        now exists ok.
      * intros i. rewrite Hm. simpl. split.
        -- intros [Hi | [e [He Hr]]].
           ++ destruct ok eqn:Hok.
              ** destruct Hi as [<- | Hi]; [|now left].
                 right. eexists. split; [left; reflexivity|]. simpl. tauto.
              ** now left.
           ++ right. exists e. tauto.
        -- intros [Hi | [e [[<- | He] [Hid Hmk]]]].
           ++ left. destruct ok; simpl; tauto.
           ++ simpl in Hid, Hmk. left. rewrite Hmk. simpl. tauto.
           ++ right. exists e. tauto.
Qed.

Lemma Forall2_In_l {A B} (R : A -> B -> Prop) l l' x :
  Forall2 R l l' -> In x l -> exists y, In y l' /\ R x y.
Proof.
  induction 1 as [|a b l l' Hab HF IH]; simpl; [tauto|].
  intros [<- | Hx].
  - exists b. tauto.
  - destruct (IH Hx) as [y [Hy HR]]. exists y. tauto.
Qed.

Lemma outcome_ids rows evs :
  Forall2 (fun r e => outcome_of (fst r) (snd r) e) rows evs ->
  map event_notif evs = map (fun r => notif_id (fst r)) rows.
Proof.
  induction 1 as [|r e rows evs Hre HF IH]; simpl; [reflexivity|].
  now rewrite IH, (outcome_of_notif _ _ _ Hre).
Qed.

Lemma NoDup_map_eq {A B} (f : A -> B) l x y :
  NoDup (map f l) -> In x l -> In y l -> f x = f y -> x = y.
Proof.
  induction l as [|a l IH]; simpl; [tauto|].
  intros Hnd Hx Hy Hf. inversion Hnd as [|? ? Hnotin Hnd']; subst.
  destruct Hx as [<- | Hx], Hy as [<- | Hy]; trivial.
  - elim Hnotin. rewrite Hf. now apply in_map.
  - elim Hnotin. rewrite <- Hf. now apply in_map.
  - now apply IH.
Qed.

(** What one pass does with a row it selects: one event, the only one of
    the pass with the row's id, and [sent] set exactly when that event
    marks. *)
Lemma worker_row send db n usr :
  wf_db db -> In n (notifications db) -> sent n = false -> owner db n usr ->
  exists e,
    In e (snd (notifications_worker_cycle send db)) /\
    outcome_of n usr e /\
    (forall e', In e' (snd (notifications_worker_cycle send db)) ->
                event_notif e' = notif_id n -> e' = e) /\
    In (if marks e then set_sent n else n)
       (notifications (fst (notifications_worker_cycle send db))).
Proof.
  intros Hwf Hn Hs Ho. unfold notifications_worker_cycle.
  destruct (deliver send (select_unsent db) [] []) as [log marked] eqn:D.
  apply deliver_spec in D. destruct D as [evs [Hlog [HF Hm]]].
  simpl in Hlog. subst log. simpl.
  assert (Hrow : In (n, usr) (select_unsent db)) by now apply select_unsent_In.
  destruct (Forall2_In_l _ _ _ _ HF Hrow) as [e [He Hout]]. simpl in Hout.
  assert (Huniq : forall e', In e' evs -> event_notif e' = notif_id n -> e' = e).
  { intros e' He' Hid. apply (NoDup_map_eq event_notif evs); trivial.
    - rewrite (outcome_ids _ _ HF). now apply select_unsent_NoDup.
    - now rewrite (outcome_of_notif _ _ _ Hout). }
  exists e. repeat split; trivial.
  assert (Hmk : is_marked marked n = marks e).
  { unfold is_marked. destruct (marks e) eqn:Hme.
    - apply existsb_exists. exists (notif_id n). split; [|apply Z.eqb_refl].
      apply Hm. right. exists e. split; trivial. split; trivial.
      now apply (outcome_of_notif _ _ _ Hout).
    - destruct (existsb (Z.eqb (notif_id n)) marked) eqn:Hex; trivial.
      apply existsb_exists in Hex. destruct Hex as [i [Hi Heq]].
      apply Z.eqb_eq in Heq. subst i. apply Hm in Hi.
      destruct Hi as [[] | [e' [He' [Hid Hmk]]]].
      rewrite (Huniq e' He' Hid) in Hmk. congruence. }
  rewrite <- Hmk.
  apply (in_map (fun n0 => if is_marked marked n0 then set_sent n0 else n0)) in Hn.
  exact Hn.
Qed.

Lemma deliver_calls send rows : forall log marked log' marked',
  deliver send rows log marked = (log', marked') ->
  (forall n c t ok, In (SendMessage n c t ok) log -> exists h, ok = send h c t) ->
  forall n c t ok, In (SendMessage n c t ok) log' -> exists h, ok = send h c t.
Proof.
  induction rows as [|[notif user] rest IH]; simpl; intros log marked log' marked' H Hlog.
  - now injection H as <- <-.
  - destruct (is_rejection notif && mute_rejections user).
    + apply (IH _ _ _ _ H). intros n c t ok Hin.
      apply in_app_or in Hin. destruct Hin as [Hin | [Heq | []]]; [eauto | discriminate].
    + apply (IH _ _ _ _ H). intros n c t ok Hin.
      apply in_app_or in Hin. destruct Hin as [Hin | [Heq | []]]; [eauto|].
      injection Heq as <- <- <- <-. now exists log.
Qed.

(** The outcome a pass records for a call is what the endpoint did. *)
Lemma worker_calls send db n c t ok :
  In (SendMessage n c t ok) (snd (notifications_worker_cycle send db)) ->
  exists h, ok = send h c t.
Proof.
  unfold notifications_worker_cycle.
  destruct (deliver send (select_unsent db) [] []) as [log marked] eqn:D.
  simpl. apply (deliver_calls _ _ _ _ _ _ D). intros ? ? ? ? [].
Qed.

Lemma worker_events send db :
  Forall2 (fun r e => outcome_of (fst r) (snd r) e)
    (select_unsent db) (snd (notifications_worker_cycle send db)).
Proof.
  unfold notifications_worker_cycle.
  destruct (deliver send (select_unsent db) [] []) as [log marked] eqn:D.
  apply deliver_spec in D. destruct D as [evs [Hlog [HF _]]].
  simpl in *. now subst log.
Qed.

(** C1. A pending rejection whose owner mutes rejections is [sent = true]
    after one pass and no event of the pass for it is a call of the
    messaging endpoint; for a pending rejection whose owner does not mute,
    the pass calls the endpoint with the owner's chat and the row's text. *)
Theorem mute_semantics send db n usr :
  wf_db db ->
  In n (notifications db) -> sent n = false -> is_rejection n = true ->
  owner db n usr ->
  (mute_rejections usr = true ->
     In (set_sent n) (notifications (fst (notifications_worker_cycle send db))) /\
     forall e, In e (snd (notifications_worker_cycle send db)) ->
               event_notif e = notif_id n -> is_call e = false) /\
  (mute_rejections usr = false ->
     exists ok, In (SendMessage (notif_id n) (telegram_id usr) (text n) ok)
                   (snd (notifications_worker_cycle send db))).
Proof.
  intros Hwf Hn Hs Hrej Ho.
  destruct (worker_row send db n usr Hwf Hn Hs Ho) as [e [He [Hout [Huniq Hfin]]]].
  unfold outcome_of, suppressed in Hout. rewrite Hrej in Hout. simpl in Hout.
  split; intros Hmute; rewrite Hmute in Hout.
  - subst e. simpl in Hfin. split; trivial.
    intros e' He' Hid. now rewrite (Huniq e' He' Hid).
  - destruct Hout as [ok ->]. now exists ok.
Qed.

(** C5. When the call for a pending row [a] fails, [a] is still in the
    table with [sent = false] after the pass, and every other pending row
    [b] still gets its event in the same pass: a call of the endpoint unless
    it is a muted rejection, and [sent = true] when that call returns. *)
Theorem partial_failure_isolation send db a ua chat txt b ub :
  wf_db db ->
  In a (notifications db) -> sent a = false -> owner db a ua ->
  In b (notifications db) -> sent b = false -> owner db b ub ->
  In (SendMessage (notif_id a) chat txt false)
     (snd (notifications_worker_cycle send db)) ->
  (In a (notifications (fst (notifications_worker_cycle send db))) /\
   sent a = false) /\
  exists e,
    In e (snd (notifications_worker_cycle send db)) /\
    outcome_of b ub e /\
    In (if marks e then set_sent b else b)
       (notifications (fst (notifications_worker_cycle send db))).
Proof.
  intros Hwf Ha Hsa Hoa Hb Hsb Hob Hfail.
  destruct (worker_row send db a ua Hwf Ha Hsa Hoa) as [e [He [Hout [Huniq Hfin]]]].
  rewrite <- (Huniq _ Hfail eq_refl) in Hfin. simpl in Hfin.
  split; [now split|].
  destruct (worker_row send db b ub Hwf Hb Hsb Hob) as [e' [He' [Hout' [_ Hfin']]]].
  exists e'. tauto.
Qed.

(** ** The delivery pass: the order *)

Lemma sorted_app_r {A} (R : A -> A -> Prop) l0 l :
  StronglySorted R (l0 ++ l) -> StronglySorted R l.
Proof.
  induction l0 as [|x l0 IH]; simpl; trivial.
  intros H. inversion H; subst. now apply IH.
Qed.

Lemma sorted_before {A} (R : A -> A -> Prop) l0 a l x :
  StronglySorted R (l0 ++ a :: l) -> In x l0 -> R x a.
Proof.
  induction l0 as [|y l0 IH]; simpl; [tauto|].
  intros H [<- | Hx].
  - inversion H as [|? ? _ Hall]; subst.
    rewrite Forall_forall in Hall. apply Hall. apply in_or_app. right. now left.
  - inversion H; subst. now apply IH.
Qed.

Lemma sorted_split rows a b :
  StronglySorted created_le rows -> In a rows -> In b rows ->
  created_at (fst a) < created_at (fst b) ->
  exists l0 l1, rows = l0 ++ a :: l1 /\ In b l1.
Proof.
  intros Hs Ha Hb Hlt. apply in_split in Ha. destruct Ha as [l0 [l1 ->]].
  exists l0, l1. split; [reflexivity|].
  apply in_app_or in Hb. destruct Hb as [Hb | [<- | Hb]]; trivial.
  - pose proof (sorted_before _ _ _ _ _ Hs Hb) as Hle. unfold created_le in Hle. lia.
  - lia.
Qed.

Lemma sorted_in_order rows a b c :
  StronglySorted created_le rows -> In a rows -> In b rows -> In c rows ->
  created_at (fst a) < created_at (fst b) ->
  created_at (fst b) < created_at (fst c) ->
  in_order a b c rows.
Proof.
  intros Hs Ha Hb Hc Hab Hbc.
  destruct (sorted_split rows a b Hs Ha Hb Hab) as [l0 [l1 [-> Hb1]]].
  pose proof (sorted_app_r created_le (l0 ++ [a]) l1) as Hs1.
  rewrite <- app_assoc in Hs1. specialize (Hs1 Hs).
  assert (Hc1 : In c l1).
  { apply in_app_or in Hc. destruct Hc as [Hc | [<- | Hc]]; trivial.
    - pose proof (sorted_before _ _ _ _ _ Hs Hc) as Hle. unfold created_le in Hle. lia.
    - lia. }
  destruct (sorted_split l1 b c Hs1 Hb1 Hc1 Hbc) as [l2 [l3 [-> Hc3]]].
  apply in_split in Hc3. destruct Hc3 as [l4 [l5 ->]].
  now exists l0, l2, l4, l5.
Qed.

Lemma Forall2_in_order {A B} (R : A -> B -> Prop) l l' a b c :
  Forall2 R l l' -> in_order a b c l ->
  exists a' b' c', in_order a' b' c' l' /\ R a a' /\ R b b' /\ R c c'.
Proof.
  intros HF [l0 [l1 [l2 [l3 ->]]]].
  apply Forall2_app_inv_l in HF. destruct HF as [m0 [ma [_ [HFa ->]]]].
  inversion HFa as [|? a' ? ma' Ha HF1]; subst.
  apply Forall2_app_inv_l in HF1. destruct HF1 as [m1 [mb [_ [HFb ->]]]].
  inversion HFb as [|? b' ? mb' Hb HF2]; subst.
  apply Forall2_app_inv_l in HF2. destruct HF2 as [m2 [mc [_ [HFc ->]]]].
  inversion HFc as [|? c' ? m3 Hc _]; subst.
  exists a', b', c'. split; [now exists m0, m1, m2, m3 | tauto].
Qed.

(** C4. One pass processes the rows it selects, the unsent ones, in
    ascending order of [created_at]; for three unsent rows of one user made
    at times t1 < t2 < t3 the events of the pass, which are the calls of the
    endpoint for rows that are not muted rejections, come in that order. *)
Theorem delivery_order send db usr n1 n2 n3 :
  (forall n, In n [n1; n2; n3] ->
             In n (notifications db) /\ sent n = false /\ owner db n usr) ->
  created_at n1 < created_at n2 -> created_at n2 < created_at n3 ->
  StronglySorted created_le (select_unsent db) /\
  map event_notif (snd (notifications_worker_cycle send db)) =
    map (fun r => notif_id (fst r)) (select_unsent db) /\
  exists e1 e2 e3,
    in_order e1 e2 e3 (snd (notifications_worker_cycle send db)) /\
    outcome_of n1 usr e1 /\ outcome_of n2 usr e2 /\ outcome_of n3 usr e3.
Proof.
  intros H H12 H23.
  split; [apply select_unsent_sorted|].
  split; [apply outcome_ids, worker_events|].
  assert (Hin : forall n, In n [n1; n2; n3] -> In (n, usr) (select_unsent db)).
  { intros n Hn. apply select_unsent_In. now apply H. }
  pose proof (sorted_in_order (select_unsent db) (n1, usr) (n2, usr) (n3, usr)
                (select_unsent_sorted db)) as Hord.
  simpl in Hord.
  assert (Ho : in_order (n1, usr) (n2, usr) (n3, usr) (select_unsent db)).
  { apply Hord; trivial; apply Hin; simpl; tauto. }
  destruct (Forall2_in_order _ _ _ _ _ _ (worker_events send db) Ho)
    as [e1 [e2 [e3 [Hio [H1 [H2 H3]]]]]].
  exists e1, e2, e3. tauto.
Qed.

(** ** The poll pass: one message *)

Lemma poll_message_eq clock user msg ns :
  poll_message clock user msg ns =
  match inbound_message msg with
  | None => None
  | Some None => Some ns
  | Some (Some (msg_id, text)) =>
    match scalar_one_or_none (filter (is_message_of (uid user) msg_id) ns) with
    | None => None
    | Some (Some _) => Some ns
    | Some None =>
      Some (add_notification (clock (next_id ns)) (uid user) (u "message")
              (Some msg_id)
              (u "💬 Новое сообщение на hh.ru:" ++ nl ++ nl ++ text)
              (classify text) ns)
    end
  end.
Proof.
  unfold poll_message, inbound_message.
  destruct msg as [| | | | |m]; trivial.
  destruct (py_or (dict_get (u "text") m) (JStr [])); trivial.
  destruct (dict_lookup (u "author") m) as [[| | | | |a]|]; trivial.
  - destruct (truthy _ || negb _); trivial.
  - destruct (truthy _ || negb _); trivial.
Qed.

Lemma count_message_add usr msg_id now usr0 id0 txt rej ns :
  count_message usr msg_id
    (add_notification now usr0 (u "message") (Some id0) txt rej ns) =
  (count_message usr msg_id ns +
   if ((usr0 =? usr)%Z && pystr_eqb id0 msg_id)%bool then 1 else 0)%nat.
Proof.
  unfold count_message, add_notification.
  rewrite filter_app, length_app. f_equal.
  simpl. unfold is_message_of. simpl.
  rewrite ?andb_true_r.
  now destruct ((usr0 =? usr) && pystr_eqb id0 msg_id).
Qed.

Lemma append_only_refl ns : append_only ns ns.
Proof. exists []. rewrite app_nil_r. split; [reflexivity | constructor]. Qed.

Lemma append_only_trans a b c : append_only a b -> append_only b c -> append_only a c.
Proof.
  intros [x [-> Hx]] [y [-> Hy]]. exists (x ++ y). rewrite app_assoc.
  split; [reflexivity|]. apply Forall_app. tauto.
Qed.

Lemma grows_refl ns : grows ns ns.
Proof. split; [apply append_only_refl | tauto]. Qed.

Lemma grows_trans a b c : grows a b -> grows b c -> grows a c.
Proof.
  intros [Hab [Nab Cab]] [Hbc [Nbc Cbc]].
  split; [eapply append_only_trans; eassumption|]. split; [tauto|].
  intros usr msg_id. destruct (Cab usr msg_id), (Cbc usr msg_id). split; auto.
Qed.

Lemma grows_count a b : grows a b ->
  forall usr msg_id,
    (count_message usr msg_id a = 1%nat -> count_message usr msg_id b = 1%nat) /\
    (count_message usr msg_id a <= 1 -> count_message usr msg_id b <= 1)%nat.
Proof. intros H. apply H. Qed.

Lemma next_id_fresh ns n : In n ns -> notif_id n < next_id ns.
Proof.
  unfold next_id. induction ns as [|a ns IH]; cbn [In map fold_right]; [tauto|].
  intros [<- | H]; [|specialize (IH H)]; lia.
Qed.

Lemma add_notification_NoDup now usr k o txt rej ns :
  NoDup (map notif_id ns) ->
  NoDup (map notif_id (add_notification now usr k o txt rej ns)).
Proof.
  intros Hn. unfold add_notification. rewrite map_app. cbn [map notif_id].
  apply NoDup_app; trivial.
  - repeat constructor. tauto.
  - intros x Hx [<- | []]. apply in_map_iff in Hx. destruct Hx as [m [Hm Hin]].
    apply next_id_fresh in Hin. lia.
Qed.

Lemma grows_add now usr0 id0 txt rej ns :
  count_message usr0 id0 ns = 0%nat ->
  grows ns (add_notification now usr0 (u "message") (Some id0) txt rej ns).
Proof.
  intros H0. split; [|split].
  - eexists. split; [reflexivity|]. repeat constructor.
  - apply add_notification_NoDup.
  - intros usr msg_id. rewrite count_message_add.
    destruct ((usr0 =? usr) && pystr_eqb id0 msg_id) eqn:E.
    + apply andb_true_iff in E. destruct E as [E1 E2].
      apply Z.eqb_eq in E1. apply pystr_eqb_eq in E2. subst. rewrite H0.
      split; [discriminate | simpl; lia].
    + rewrite Nat.add_0_r. tauto.
Qed.

Lemma poll_message_ok clock user msg ns ns' :
  poll_message clock user msg ns = Some ns' ->
  grows ns ns' /\
  forall msg_id txt, inbound_message msg = Some (Some (msg_id, txt)) ->
                     count_message (uid user) msg_id ns' = 1%nat.
Proof.
  rewrite poll_message_eq.
  destruct (inbound_message msg) as [[[id0 txt0]|]|]; [| |discriminate].
  - destruct (filter (is_message_of (uid user) id0) ns) as [|x [|y l]] eqn:F;
      simpl; intros H; [| |discriminate]; injection H as <-.
    + assert (H0 : count_message (uid user) id0 ns = 0%nat)
        by (unfold count_message; now rewrite F).
      split; [now apply grows_add|].
      intros msg_id txt Heq. injection Heq as <- <-.
      rewrite count_message_add, H0, Z.eqb_refl, pystr_eqb_refl. reflexivity.
    + split; [apply grows_refl|].
      intros msg_id txt Heq. injection Heq as <- <-.
      unfold count_message. now rewrite F.
  - intros H. injection H as <-. split; [apply grows_refl | discriminate].
Qed.

Lemma poll_message_settled clock user msg ns ns' :
  poll_message clock user msg ns = Some ns' ->
  forall clock2, settled (poll_message clock2 user msg) ns'.
Proof.
  intros H clock2 ns2 Hg.
  destruct (poll_message_ok _ _ _ _ _ H) as [_ Hone].
  rewrite poll_message_eq in H. rewrite poll_message_eq.
  destruct (inbound_message msg) as [[[id0 txt0]|]|]; [| reflexivity | discriminate].
  specialize (Hone id0 txt0 eq_refl).
  apply (grows_count _ _ Hg) in Hone. unfold count_message in Hone.
  destruct (filter (is_message_of (uid user) id0) ns2) as [|x [|y l]];
    simpl in *; try discriminate. reflexivity.
Qed.

Lemma poll_message_agree c1 c2 user msg s t :
  same_counts s t ->
  agree same_counts (poll_message c1 user msg s) (poll_message c2 user msg t).
Proof.
  intros Hst. rewrite !poll_message_eq.
  destruct (inbound_message msg) as [[[id0 txt0]|]|]; simpl; trivial.
  pose proof (Hst (uid user) id0) as Hc. unfold count_message in Hc.
  destruct (filter (is_message_of (uid user) id0) s) as [|x [|y l]];
    destruct (filter (is_message_of (uid user) id0) t) as [|x' [|y' l']];
    simpl in *; try discriminate; trivial.
  intros usr msg_id. rewrite !count_message_add. now rewrite Hst.
Qed.

(** ** The poll pass: the loops *)

Lemma settled_grows f ns ns' : settled f ns -> grows ns ns' -> settled f ns'.
Proof. intros H Hg ns2 Hg2. apply H. eapply grows_trans; eassumption. Qed.

Lemma for_each_grows {A} (body : A -> list Notification -> option (list Notification))
    (Q : A -> list Notification -> Prop) (l : list A) :
  (forall x s s', Q x s -> grows s s' -> Q x s') ->
  (forall x s s', In x l -> body x s = Some s' -> grows s s' /\ Q x s') ->
  forall s s', for_each body l s = Some s' ->
               grows s s' /\ forall x, In x l -> Q x s'.
Proof.
  intros Hmono. induction l as [|a l IH]; intros Hstep s s' H; simpl in *.
  - injection H as <-. split; [apply grows_refl | tauto].
  - destruct (body a s) as [s1|] eqn:B; [|discriminate].
    destruct (Hstep a s s1 (or_introl eq_refl) B) as [Hg HQ].
    destruct (IH (fun x t t' Hin => Hstep x t t' (or_intror Hin)) _ _ H) as [Hg' HQ'].
    split; [eapply grows_trans; eassumption|].
    intros x [<- | Hx]; [eapply Hmono; eassumption | now apply HQ'].
Qed.

Lemma for_each_settled {A S} (body : A -> S -> option S) l s :
  (forall x, In x l -> body x s = Some s) -> for_each body l s = Some s.
Proof.
  induction l as [|a l IH]; simpl; intros H; trivial.
  rewrite (H a (or_introl eq_refl)). apply IH. intros x Hx. apply H. now right.
Qed.

Lemma for_each_agree {A S} (R : S -> S -> Prop) (body1 body2 : A -> S -> option S) l :
  (forall x s t, R s t -> agree R (body1 x s) (body2 x t)) ->
  forall s t, R s t -> agree R (for_each body1 l s) (for_each body2 l t).
Proof.
  intros Hb. induction l as [|a l IH]; simpl; intros s t Hst; trivial.
  specialize (Hb a s t Hst).
  destruct (body1 a s), (body2 a t); simpl in Hb; try contradiction; trivial.
  now apply IH.
Qed.

(** The property of a message that the loops carry: its key has one row,
    and the body of the loop has nothing more to do for it. *)
Lemma poll_message_step clock user msg ns ns' :
  poll_message clock user msg ns = Some ns' ->
  grows ns ns' /\
  ((forall msg_id txt, inbound_message msg = Some (Some (msg_id, txt)) ->
                       count_message (uid user) msg_id ns' = 1%nat) /\
   forall clock2, settled (poll_message clock2 user msg) ns').
Proof.
  intros H. destruct (poll_message_ok _ _ _ _ _ H) as [Hg Hone].
  split; trivial. split; trivial. now apply (poll_message_settled _ _ _ _ _ H).
Qed.

Lemma poll_negotiation_ok hh clock user neg ns ns' :
  poll_negotiation hh clock user neg ns = Some ns' ->
  grows ns ns' /\
  (forall clock2, settled (poll_negotiation hh clock2 user neg) ns') /\
  (forall n v' msgs msg msg_id txt,
     neg = JDict n ->
     truthy (py_or (dict_get (u "id") n) (dict_get (u "topic_id") n)) = true ->
     items (get_messages hh user
              (py_or (dict_get (u "id") n) (dict_get (u "topic_id") n))) = Some v' ->
     py_iter v' = Some msgs -> In msg msgs ->
     inbound_message msg = Some (Some (msg_id, txt)) ->
     count_message (uid user) msg_id ns' = 1%nat).
Proof.
  unfold poll_negotiation; cbv zeta. destruct neg as [| | | | |n]; try discriminate.
  set (nid := py_or (dict_get (u "id") n) (dict_get (u "topic_id") n)).
  destruct (truthy nid) eqn:Ht; cbn [negb].
  2:{ intros H. injection H as <-. split; [apply grows_refl|]. split.
      - intros clock2 ns2 _. reflexivity.
      - intros n0 v' msgs msg msg_id txt Heq. injection Heq as <-. fold nid. congruence. }
  destruct (get_messages hh user nid) as [| |j] eqn:G.
  - intros H. injection H as <-. split; [apply grows_refl|]. split.
    + intros clock2 ns2 _. reflexivity.
    + intros n0 v' msgs msg msg_id txt Heq. injection Heq as <-. fold nid.
      rewrite G. discriminate.
  - discriminate.
  - destruct (items (Body j)) as [v|] eqn:I; [|discriminate].
    destruct (py_iter v) as [msgs|] eqn:P; [|discriminate].
    intros H.
    apply (for_each_grows (poll_message clock user)
             (fun msg s =>
                (forall msg_id txt, inbound_message msg = Some (Some (msg_id, txt)) ->
                                    count_message (uid user) msg_id s = 1%nat) /\
                forall clock2, settled (poll_message clock2 user msg) s)) in H.
    + destruct H as [Hg HQ]. split; trivial. split.
      * intros clock2 ns2 Hg2. apply for_each_settled.
        intros msg Hmsg. now apply (proj2 (HQ msg Hmsg)).
      * intros n0 v' msgs' msg msg_id txt Heq _. injection Heq as <-. fold nid.
        rewrite G, I. intros Hv. injection Hv as <-. rewrite P.
        intros Hm. injection Hm as <-. intros Hin. now apply (proj1 (HQ msg Hin)).
    + intros msg s s' [Hone Hset] Hg. split.
      * intros msg_id txt Hib. now apply (grows_count _ _ Hg), Hone with (txt := txt).
      * intros clock2. eapply settled_grows; [apply Hset | exact Hg].
    + intros msg s s' _. apply poll_message_step.
Qed.

Lemma poll_negotiation_agree hh c1 c2 user neg s t :
  same_counts s t ->
  agree same_counts (poll_negotiation hh c1 user neg s)
    (poll_negotiation hh c2 user neg t).
Proof.
  intros Hst. unfold poll_negotiation; cbv zeta.
  destruct neg as [| | | | |n]; try exact I.
  destruct (truthy _); cbn [negb]; [|exact Hst].
  destruct (get_messages hh user _) as [| |j]; [exact Hst | exact I |].
  destruct (items (Body j)) as [v|]; [|exact I].
  destruct (py_iter v) as [msgs|]; [|exact I].
  apply for_each_agree; trivial.
  intros msg s0 t0. apply poll_message_agree.
Qed.

Lemma poll_user_ok hh clock user ns ns' :
  poll_user hh clock user ns = Some ns' ->
  grows ns ns' /\
  (forall clock2, settled (poll_user hh clock2 user) ns') /\
  (forall msg msg_id txt,
     polled_message hh user msg ->
     inbound_message msg = Some (Some (msg_id, txt)) ->
     count_message (uid user) msg_id ns' = 1%nat).
Proof.
  unfold poll_user, polled_message.
  destruct (hh_access_token user) as [[|c tok]|] eqn:T; cbn [truthy negb].
  - intros H. injection H as <-. split; [apply grows_refl|]. split.
    + intros clock2 ns2 _. reflexivity.
    + intros msg msg_id txt [[t [Ht Hne]] _]. injection Ht as <-. now elim Hne.
  - destruct (get_negotiations hh user) as [| |j] eqn:G.
    + intros H. injection H as <-. split; [apply grows_refl|]. split.
      * intros clock2 ns2 _. reflexivity.
      * intros msg msg_id txt [_ [v [negs [n [v' [msgs [Hi _]]]]]]]. discriminate.
    + discriminate.
    + destruct (items (Body j)) as [v|] eqn:I; [|discriminate].
      destruct (py_iter v) as [negotiations|] eqn:P; [|discriminate].
      intros H.
      apply (for_each_grows (poll_negotiation hh clock user)
               (fun neg s =>
                  (forall clock2, settled (poll_negotiation hh clock2 user neg) s) /\
                  (forall n v' msgs msg msg_id txt,
                     neg = JDict n ->
                     truthy (py_or (dict_get (u "id") n) (dict_get (u "topic_id") n)) = true ->
                     items (get_messages hh user
                              (py_or (dict_get (u "id") n) (dict_get (u "topic_id") n)))
                       = Some v' ->
                     py_iter v' = Some msgs -> In msg msgs ->
                     inbound_message msg = Some (Some (msg_id, txt)) ->
                     count_message (uid user) msg_id s = 1%nat))) in H.
      * destruct H as [Hg HQ]. split; trivial. split.
        -- intros clock2 ns2 Hg2. apply for_each_settled.
           intros neg Hneg. now apply (proj1 (HQ neg Hneg)).
        -- intros msg msg_id txt [_ [v0 [negs [n [v' [msgs [Hi [Hp [Hn [Ht [Hi' [Hp' Hm]]]]]]]]]]]] Hib.
           injection Hi as <-. rewrite P in Hp. injection Hp as <-.
           now apply (proj2 (HQ _ Hn) n v' msgs msg msg_id txt).
      * intros neg s s' [Hset Hone] Hg. split.
        -- intros clock2. eapply settled_grows; [apply Hset | exact Hg].
        -- intros n v' msgs msg msg_id txt E1 E2 E3 E4 E5 E6.
           apply (grows_count _ _ Hg). now apply (Hone n v' msgs msg msg_id txt).
      * intros neg s s' _ Hn. apply poll_negotiation_ok in Hn. tauto.
  - intros H. injection H as <-. split; [apply grows_refl|]. split.
    + intros clock2 ns2 _. reflexivity.
    + intros msg msg_id txt [[t [Ht _]] _]. discriminate.
Qed.

Lemma poll_user_agree hh c1 c2 user s t :
  same_counts s t ->
  agree same_counts (poll_user hh c1 user s) (poll_user hh c2 user t).
Proof.
  intros Hst. unfold poll_user.
  destruct (negb _); [exact Hst|].
  destruct (get_negotiations hh user) as [| |j]; [exact Hst | exact I |].
  destruct (items (Body j)) as [v|]; [|exact I].
  destruct (py_iter v) as [negotiations|]; [|exact I].
  apply for_each_agree; trivial.
  intros neg s0 t0. apply poll_negotiation_agree.
Qed.

Lemma poll_users_grows hh clock us : forall ns ns' fin,
  poll_users hh clock us ns = (ns', fin) -> grows ns ns'.
Proof.
  induction us as [|user us IH]; simpl; intros ns ns' fin H.
  - injection H as <- _. apply grows_refl.
  - destruct (poll_user hh clock user ns) as [ns1|] eqn:PU.
    + eapply grows_trans; [apply (poll_user_ok _ _ _ _ _ PU) | eapply IH; eassumption].
    + injection H as <- _. apply grows_refl.
Qed.

Lemma poll_users_noop hh c1 c2 us : forall ns ns1 fin,
  poll_users hh c1 us ns = (ns1, fin) ->
  poll_users hh c2 us ns1 = (ns1, fin).
Proof.
  induction us as [|user us IH]; simpl; intros ns ns1 fin H.
  - now injection H as <- <-.
  - destruct (poll_user hh c1 user ns) as [ns'|] eqn:PU.
    + destruct (poll_user_ok _ _ _ _ _ PU) as [_ [Hset _]].
      rewrite (Hset c2 ns1 (poll_users_grows _ _ _ _ _ _ H)).
      eapply IH; eassumption.
    + injection H as <- <-.
      pose proof (poll_user_agree hh c1 c2 user ns ns (fun _ _ => eq_refl)) as Ha.
      rewrite PU in Ha. destruct (poll_user hh c2 user ns); [contradiction | reflexivity].
Qed.

Lemma poll_users_exactly_one hh clock us : forall ns ns',
  poll_users hh clock us ns = (ns', true) ->
  forall user msg msg_id txt,
    In user us -> polled_message hh user msg ->
    inbound_message msg = Some (Some (msg_id, txt)) ->
    count_message (uid user) msg_id ns' = 1%nat.
Proof.
  induction us as [|usr us IH]; simpl; intros ns ns' H user msg msg_id txt Hin Hp Hib.
  - contradiction.
  - destruct (poll_user hh clock usr ns) as [ns1|] eqn:PU; [|discriminate].
    destruct Hin as [<- | Hin].
    + destruct (poll_user_ok _ _ _ _ _ PU) as [_ [_ Hone]].
      apply (grows_count _ _ (poll_users_grows _ _ _ _ _ _ H)).
      now apply Hone with (msg := msg) (txt := txt).
    + eapply IH; eassumption.
Qed.

(** C2. A second pass of the poll worker over the same answers of the
    platform leaves the table as the first pass left it; after a pass that
    came to its end every inbound message with text that the pass read has
    exactly one [kind = "message"] row with its id for its user; and no pass
    makes a second row for a key that had at most one. *)
Theorem poll_dedup hh clock clock2 db :
  hh_messages_worker_cycle hh clock2 (fst (hh_messages_worker_cycle hh clock db)) =
    hh_messages_worker_cycle hh clock db /\
  (snd (hh_messages_worker_cycle hh clock db) = true ->
   forall user msg msg_id txt,
     In user (users db) -> polled_message hh user msg ->
     inbound_message msg = Some (Some (msg_id, txt)) ->
     count_message (uid user) msg_id
       (notifications (fst (hh_messages_worker_cycle hh clock db))) = 1%nat) /\
  (forall usr msg_id,
     (count_message usr msg_id (notifications db) <= 1)%nat ->
     (count_message usr msg_id
        (notifications (fst (hh_messages_worker_cycle hh clock db))) <= 1)%nat).
Proof.
  unfold hh_messages_worker_cycle.
  set (us := filter _ (users db)).
  destruct (poll_users hh clock us (notifications db)) as [ns1 fin] eqn:PU.
  simpl. fold us. split; [|split].
  - now rewrite (poll_users_noop hh clock clock2 us _ _ _ PU).
  - intros -> user msg msg_id txt Hin Hp Hib.
    apply (poll_users_exactly_one hh clock us _ _ PU user msg msg_id txt); trivial.
    apply filter_In. split; trivial.
    destruct Hp as [[t [-> _]] _]. reflexivity.
  - intros usr msg_id. apply (grows_count _ _ (poll_users_grows _ _ _ _ _ _ PU)).
Qed.

(** ** The webhook handler *)

Lemma webhook_insert_table now user k v txt rej db :
  users (fst (webhook_insert now user k v txt rej db)) = users db /\
  (notifications (fst (webhook_insert now user k v txt rej db)) = notifications db \/
   exists o,
     notifications (fst (webhook_insert now user k v txt rej db)) =
     add_notification now (uid user) k o txt rej (notifications db)).
Proof.
  unfold webhook_insert.
  destruct v; try (destruct (bind_string _)); cbn [fst users notifications];
    split; trivial; try (now left); right; eexists; reflexivity.
Qed.

Lemma hh_webhook_table now request db :
  users (fst (hh_webhook now request db)) = users db /\
  (notifications (fst (hh_webhook now request db)) = notifications db \/
   exists usr k o txt rej,
     (k = u "invitation" \/ k = u "state_change") /\
     notifications (fst (hh_webhook now request db)) =
     add_notification now usr k o txt rej (notifications db)).
Proof.
  unfold hh_webhook.
  destruct request as [[| | | | |d]|]; cbn [fst];
    try (split; [reflexivity | left; reflexivity]).
  destruct (WebhookEvent_validate d) as [event|]; cbn [fst];
    [|split; [reflexivity | left; reflexivity]].
  destruct (scalar_one_or_none _) as [[user|]|]; cbn [fst];
    try (split; [reflexivity | left; reflexivity]).
  destruct (pystr_eqb (action_type event) (u "NEW_RESPONSE_OR_INVITATION_VACANCY")).
  - match goal with
    | |- context [webhook_insert ?a ?b ?c ?d ?e ?f ?g] =>
      destruct (webhook_insert_table a b c d e f g) as [Hu [Hn | [o Hn]]];
        rewrite Hu, Hn
    end.
    + split; [reflexivity | left; reflexivity].
    + split; [reflexivity|]. right. do 5 eexists.
      split; [left; reflexivity | reflexivity].
  - destruct (pystr_eqb (action_type event) (u "NEGOTIATION_EMPLOYER_STATE_CHANGE"));
      [|split; [reflexivity | left; reflexivity]].
    match goal with
    | |- context [webhook_insert ?a ?b ?c ?d ?e ?f ?g] =>
      destruct (webhook_insert_table a b c d e f g) as [Hu [Hn | [o Hn]]];
        rewrite Hu, Hn
    end.
    + split; [reflexivity | left; reflexivity].
    + split; [reflexivity|]. right. do 5 eexists.
      split; [right; reflexivity | reflexivity].
Qed.

Lemma hh_webhook_append_only now request db :
  append_only (notifications db) (notifications (fst (hh_webhook now request db))).
Proof.
  destruct (hh_webhook_table now request db)
    as [_ [-> | [usr [k [o [txt [rej [_ ->]]]]]]]].
  - apply append_only_refl.
  - eexists. split; [reflexivity|]. repeat constructor.
Qed.

Lemma count_message_add_other usr msg_id now usr0 k o txt rej ns :
  pystr_eqb k (u "message") = false ->
  count_message usr msg_id (add_notification now usr0 k o txt rej ns) =
  count_message usr msg_id ns.
Proof.
  intros Hk. unfold count_message, add_notification.
  rewrite filter_app, length_app. cbn [filter]. unfold is_message_of at 2.
  cbn [kind]. rewrite Hk, andb_false_r. simpl. lia.
Qed.

Lemma hh_webhook_count now request db usr msg_id :
  count_message usr msg_id (notifications (fst (hh_webhook now request db))) =
  count_message usr msg_id (notifications db).
Proof.
  destruct (hh_webhook_table now request db)
    as [_ [-> | [usr0 [k [o [txt [rej [Hk ->]]]]]]]]; trivial.
  apply count_message_add_other. now destruct Hk as [-> | ->].
Qed.

Lemma commit_sent_count marked db usr msg_id :
  count_message usr msg_id (notifications (commit_sent marked db)) =
  count_message usr msg_id (notifications db).
Proof.
  unfold commit_sent, count_message. cbn [notifications].
  induction (notifications db) as [|n ns IH]; simpl; trivial.
  assert (E : is_message_of usr msg_id (if is_marked marked n then set_sent n else n)
              = is_message_of usr msg_id n) by now destruct (is_marked marked n).
  rewrite E. destruct (is_message_of usr msg_id n); simpl; now rewrite IH.
Qed.

Lemma worker_count send db usr msg_id :
  count_message usr msg_id (notifications (fst (notifications_worker_cycle send db))) =
  count_message usr msg_id (notifications db).
Proof.
  unfold notifications_worker_cycle.
  destruct (deliver send (select_unsent db) [] []) as [log marked].
  apply commit_sent_count.
Qed.

Lemma poll_cycle_grows hh clock db :
  grows (notifications db) (notifications (fst (hh_messages_worker_cycle hh clock db))).
Proof.
  unfold hh_messages_worker_cycle.
  destruct (poll_users hh clock _ (notifications db)) as [ns1 fin] eqn:PU.
  cbn [fst notifications]. eapply poll_users_grows; eassumption.
Qed.

Lemma run_op_count o db usr msg_id :
  (count_message usr msg_id (notifications db) <= 1)%nat ->
  (count_message usr msg_id (notifications (run_op o db)) <= 1)%nat.
Proof.
  destruct o as [now request | hh clock | send]; cbn [run_op].
  - now rewrite hh_webhook_count.
  - apply (grows_count _ _ (poll_cycle_grows hh clock db)).
  - now rewrite worker_count.
Qed.

Lemma run_ops_count ops : forall db usr msg_id,
  (count_message usr msg_id (notifications db) <= 1)%nat ->
  (count_message usr msg_id (notifications (run_ops ops db)) <= 1)%nat.
Proof.
  unfold run_ops. induction ops as [|o ops IH]; simpl; intros db usr msg_id H; trivial.
  apply IH. now apply run_op_count.
Qed.

(** The hypothesis [wf_db] of the theorems is an invariant of the
    pipeline. *)
Lemma run_op_wf o db : wf_db db -> wf_db (run_op o db).
Proof.
  intros [Hu Hn]. destruct o as [now request | hh clock | send]; cbn [run_op].
  - destruct (hh_webhook_table now request db)
      as [Eu [En | [usr [k [o [txt [rej [_ En]]]]]]]];
      split; rewrite ?Eu, ?En; trivial.
    now apply add_notification_NoDup.
  - pose proof (poll_cycle_grows hh clock db) as [_ [Hg _]].
    split; [|now apply Hg].
    unfold hh_messages_worker_cycle.
    now destruct (poll_users hh clock _ (notifications db)).
  - unfold notifications_worker_cycle.
    destruct (deliver send (select_unsent db) [] []) as [log marked].
    split; trivial. unfold commit_sent. cbn [fst notifications].
    rewrite map_map.
    erewrite map_ext; [exact Hn|].
    intros n. now destruct (is_marked marked n).
Qed.

Lemma run_ops_wf ops : forall db, wf_db db -> wf_db (run_ops ops db).
Proof.
  unfold run_ops. induction ops as [|o ops IH]; simpl; intros db H; trivial.
  apply IH. now apply run_op_wf.
Qed.

Lemma users_by_hh_user_id_none hh_id db :
  (forall usr, In usr (users db) -> hh_user_id usr <> Some hh_id) ->
  users_by_hh_user_id hh_id db = [].
Proof.
  unfold users_by_hh_user_id. induction (users db) as [|a l IH]; simpl; intros H; trivial.
  destruct (hh_user_id a) as [h|] eqn:E.
  - destruct (pystr_eqb h hh_id) eqn:Eq.
    + apply pystr_eqb_eq in Eq. subst. elim (H a); tauto.
    + apply IH. intros usr Hu. apply H. tauto.
  - apply IH. intros usr Hu. apply H. tauto.
Qed.

(** C6. For a body that validates as an event whose [user_id] is the
    [hh_user_id] of no user, the handler answers 200 ("unknown user") and
    the notifications table is as before. *)
Theorem webhook_unknown_user now d event db :
  WebhookEvent_validate d = Some event ->
  (forall usr, In usr (users db) -> hh_user_id usr <> Some (ev_user_id event)) ->
  snd (hh_webhook now (Some (JDict d)) db) = PlainTextResponse (u "unknown user") 200 /\
  http_status (snd (hh_webhook now (Some (JDict d)) db)) = 200 /\
  notifications (fst (hh_webhook now (Some (JDict d)) db)) = notifications db.
Proof.
  intros Hv Hnone. unfold hh_webhook. rewrite Hv.
  replace (users_by_hh_user_id (ev_user_id event)
             (log_event (u "INFO") (u "Incoming HH webhook") db))
    with (@nil User) by (symmetry; now apply users_by_hh_user_id_none).
  cbn [scalar_one_or_none fst snd http_status]. repeat split.
Qed.

Lemma validate_missing d f :
  In f required_fields -> dict_lookup f d = None -> WebhookEvent_validate d = None.
Proof.
  unfold required_fields. cbn [In].
  intros [<- | [<- | [<- | [<- | [<- | []]]]]] Hf;
    unfold WebhookEvent_validate; rewrite Hf;
    repeat match goal with
           | |- context [dict_lookup ?k d] => destruct (dict_lookup k d)
           end; reflexivity.
Qed.

(** C8, as the code has it. A body that is a JSON object without one of
    the required fields makes the validation raise inside the handler,
    which catches nothing: the database is left as it was, no notification
    is created, and the caller is answered with the server's 500. *)
Theorem webhook_missing_field now request db :
  missing_field request ->
  hh_webhook now request db = (db, Raised ValidationError) /\
  notifications (fst (hh_webhook now request db)) = notifications db /\
  http_status (snd (hh_webhook now request db)) = 500.
Proof.
  intros [d [f [-> [Hf Hl]]]]. unfold hh_webhook.
  rewrite (validate_missing d f Hf Hl). repeat split.
Qed.

(** ** The end-to-end scenario *)

Lemma wf_db_add db n logs :
  wf_db db -> notif_id n = next_id (notifications db) ->
  wf_db (mkDB (users db) (notifications db ++ [n]) logs).
Proof.
  intros [Hu Hn] Hid. split; trivial. cbn [notifications].
  rewrite map_app. simpl.
  apply NoDup_app; trivial.
  - repeat constructor. tauto.
  - intros x Hx [<- | []]. apply in_map_iff in Hx. destruct Hx as [m [Hm Hin]].
    apply next_id_fresh in Hin. lia.
Qed.

Lemma hh_webhook_invitation now db usr i s hh_id :
  users_by_hh_user_id hh_id db = [usr] ->
  hh_webhook now (Some (invitation_event i s hh_id)) db =
  (mkDB (users db) (notifications db ++ [invitation_row now usr db])
     (log_events db ++ [mkLogEvent (u "INFO") (u "Incoming HH webhook")]),
   PlainTextResponse (u "ok") 200).
Proof.
  intros Hu. unfold hh_webhook, invitation_event.
  assert (Hv : WebhookEvent_validate
                 [ (u "id", JStr i); (u "subscription_id", JStr s);
                   (u "action_type", JStr (u "NEW_RESPONSE_OR_INVITATION_VACANCY"));
                   (u "user_id", JStr hh_id);
                   (u "payload", JDict [ (u "vacancy_id", JStr (u "1"));
                                         (u "resume_id", JStr (u "2"));
                                         (u "topic_id", JStr (u "t1")) ]) ]
               = Some (mkWebhookEvent i s (u "NEW_RESPONSE_OR_INVITATION_VACANCY") hh_id
                         [ (u "vacancy_id", JStr (u "1"));
                           (u "resume_id", JStr (u "2"));
                           (u "topic_id", JStr (u "t1")) ])).
  { unfold WebhookEvent_validate.
    repeat match goal with
           | |- context [dict_lookup ?k ?d] =>
             let v := eval vm_compute in (dict_lookup k d) in
             change (dict_lookup k d) with v
           end.
    cbv beta iota.
    now rewrite !validate_str_str, validate_dict_dict. }
  rewrite Hv. cbv zeta. cbn [ev_user_id action_type payload].
  change (users_by_hh_user_id hh_id
            (log_event (u "INFO") (u "Incoming HH webhook") db))
    with (users_by_hh_user_id hh_id db).
  rewrite Hu. cbn [scalar_one_or_none]. rewrite pystr_eqb_refl.
  unfold webhook_insert.
  change (py_or (dict_get (u "topic_id")
                   [ (u "vacancy_id", JStr (u "1")); (u "resume_id", JStr (u "2"));
                     (u "topic_id", JStr (u "t1")) ])
                (dict_get (u "chat_id")
                   [ (u "vacancy_id", JStr (u "1")); (u "resume_id", JStr (u "2"));
                     (u "topic_id", JStr (u "t1")) ]))
    with (JStr (u "t1")).
  rewrite bind_string_str.
  f_equal.
Qed.

(** C7. For the one user linked to the platform identity of the event,
    the handler answers "ok" and appends exactly the row of kind
    [invitation] with [is_rejection = false] and [hh_object_id = "t1"];
    the next pass of the delivery worker calls the messaging endpoint for
    it with the user's chat and the row's text, and the row is
    [sent = true] afterwards when that call returns, which it does with an
    endpoint that accepts the message. *)
Theorem webhook_invitation_end_to_end now send db usr i s hh_id :
  wf_db db ->
  users_by_hh_user_id hh_id db = [usr] ->
  snd (hh_webhook now (Some (invitation_event i s hh_id)) db) =
    PlainTextResponse (u "ok") 200 /\
  notifications (fst (hh_webhook now (Some (invitation_event i s hh_id)) db)) =
    notifications db ++ [invitation_row now usr db] /\
  exists ok,
    In (SendMessage (notif_id (invitation_row now usr db)) (telegram_id usr)
          (text (invitation_row now usr db)) ok)
       (snd (notifications_worker_cycle send
               (fst (hh_webhook now (Some (invitation_event i s hh_id)) db)))) /\
    In (if ok then set_sent (invitation_row now usr db) else invitation_row now usr db)
       (notifications
          (fst (notifications_worker_cycle send
                  (fst (hh_webhook now (Some (invitation_event i s hh_id)) db))))) /\
    ((forall h, send h (telegram_id usr) (text (invitation_row now usr db)) = true) ->
     ok = true).
Proof.
  intros Hwf Hu. rewrite (hh_webhook_invitation now db usr i s hh_id Hu).
  cbn [fst snd notifications]. split; [reflexivity|]. split; [reflexivity|].
  set (n := invitation_row now usr db).
  set (db1 := mkDB (users db) (notifications db ++ [n]) _).
  assert (Hwf1 : wf_db db1) by now apply wf_db_add.
  assert (Hin : In n (notifications db1)) by (apply in_or_app; right; now left).
  assert (Hown : owner db1 n usr).
  { split; [|reflexivity]. cbn [users db1].
    assert (H : In usr (users_by_hh_user_id hh_id db)) by (rewrite Hu; now left).
    unfold users_by_hh_user_id in H. now apply filter_In in H. }
  destruct (worker_row send db1 n usr Hwf1 Hin eq_refl Hown)
    as [e [He [Hout [_ Hfin]]]].
  unfold outcome_of, suppressed in Hout. cbn [is_rejection n invitation_row andb] in Hout.
  destruct Hout as [ok ->]. exists ok. split; trivial. split; trivial.
  intros Hsend. destruct (worker_calls _ _ _ _ _ _ He) as [h ->]. apply Hsend.
Qed.

(** ** The life of a row *)

Lemma append_only_table_step ns ns' : append_only ns ns' -> table_step ns ns'.
Proof.
  intros [added [-> _]]. exists ns, added. split; [reflexivity|].
  induction ns; constructor; trivial. now left.
Qed.

Lemma set_sent_id n : sent n = true -> set_sent n = n.
Proof. destruct n. simpl. now intros ->. Qed.

Lemma commit_sent_table_step marked db :
  table_step (notifications db) (notifications (commit_sent marked db)).
Proof.
  exists (notifications (commit_sent marked db)), []. rewrite app_nil_r.
  split; [reflexivity|]. unfold commit_sent. cbn [notifications].
  induction (notifications db) as [|n ns IH]; simpl; constructor; trivial.
  destruct (is_marked marked n); [|now left].
  destruct (sent n) eqn:E.
  - left. now apply set_sent_id.
  - now right.
Qed.

(** C9. No operation of the webhook handler, the poll worker or the
    delivery worker removes or moves a row, and the only change to a row
    that exists is [sent] going from [false] to [true]: [text],
    [is_rejection] and the other columns stay, [sent = true] stays. The
    webhook handler and the poll worker change no existing row at all:
    they only append unsent rows. *)
Theorem notification_lifecycle o db :
  table_step (notifications db) (notifications (run_op o db)) /\
  (match o with
   | Deliver _ => True
   | _ => append_only (notifications db) (notifications (run_op o db))
   end) /\
  (forall n n', row_step n n' ->
     notif_id n' = notif_id n /\ user_id n' = user_id n /\ kind n' = kind n /\
     hh_object_id n' = hh_object_id n /\ text n' = text n /\
     is_rejection n' = is_rejection n /\ created_at n' = created_at n /\
     (sent n = true -> sent n' = true)).
Proof.
  split; [|split].
  - destruct o as [now request | hh clock | send]; cbn [run_op].
    + apply append_only_table_step, hh_webhook_append_only.
    + apply append_only_table_step, poll_cycle_grows.
    + unfold notifications_worker_cycle.
      destruct (deliver send (select_unsent db) [] []) as [log marked].
      apply commit_sent_table_step.
  - destruct o as [now request | hh clock | send]; cbn [run_op]; trivial.
    + apply hh_webhook_append_only.
    + apply poll_cycle_grows.
  - intros n n' [-> | [Hs ->]]; [tauto|]. simpl. repeat split.
Qed.

(** ** Messages without an id *)

(** C10. A message without an ["id"] field gets the dedup key ["None"];
    once the user has the row with that key, every inbound message with
    text and without id is skipped by the look-up, whatever its text; and
    over any sequence of operations of the pipeline a user who has at
    most one [kind = "message"] row with the key ["None"] never gets a
    second one. *)
Theorem idless_message_key user m :
  dict_lookup (u "id") m = None ->
  py_str (dict_get (u "id") m) = u "None" /\
  (forall clock msg_id txt ns,
     inbound_message (JDict m) = Some (Some (msg_id, txt)) ->
     msg_id = u "None" /\
     (count_message (uid user) (u "None") ns = 1%nat ->
      poll_message clock user (JDict m) ns = Some ns)) /\
  (forall ops db,
     (count_message (uid user) (u "None") (notifications db) <= 1)%nat ->
     (count_message (uid user) (u "None") (notifications (run_ops ops db)) <= 1)%nat).
Proof.
  intros Hid.
  assert (Hkey : py_str (dict_get (u "id") m) = u "None")
    by (unfold dict_get; now rewrite Hid).
  split; trivial. split.
  - intros clock msg_id txt ns Hib.
    assert (Hm : msg_id = u "None").
    { unfold inbound_message in Hib. rewrite Hkey in Hib.
      destruct (py_or (dict_get (u "text") m) (JStr [])); try discriminate.
      destruct (dict_lookup (u "author") m) as [[| | | | |a]|]; try discriminate;
        match type of Hib with
        | (if ?c then _ else _) = _ => destruct c
        end; try discriminate; now injection Hib as <- _. }
    split; trivial. subst msg_id. intros Hc.
    rewrite poll_message_eq, Hib. unfold count_message in Hc.
    destruct (filter (is_message_of (uid user) (u "None")) ns) as [|x [|y l]];
      simpl in Hc; try discriminate. reflexivity.
  - intros ops db. apply run_ops_count.
Qed.

(** ** More on the delivery pass *)

Lemma Forall2_In_r {A B} (R : A -> B -> Prop) l l' y :
  Forall2 R l l' -> In y l' -> exists x, In x l /\ R x y.
Proof.
  induction 1 as [|a b l l' Hab HF IH]; simpl; [tauto|].
  intros [<- | Hy].
  - exists a. tauto.
  - destruct (IH Hy) as [x [Hx HR]]. exists x. tauto.
Qed.

Lemma worker_event_row send db e :
  In e (snd (notifications_worker_cycle send db)) ->
  exists n usr,
    In n (notifications db) /\ sent n = false /\ owner db n usr /\ outcome_of n usr e.
Proof.
  intros He.
  destruct (Forall2_In_r _ _ _ _ (worker_events send db) He) as [[n usr] [Hin Hout]].
  apply select_unsent_In in Hin. exists n, usr. tauto.
Qed.

Lemma worker_commit send db :
  exists marked,
    fst (notifications_worker_cycle send db) = commit_sent marked db /\
    forall n, is_marked marked n = true <->
              exists e, In e (snd (notifications_worker_cycle send db)) /\
                        event_notif e = notif_id n /\ marks e = true.
Proof.
  unfold notifications_worker_cycle.
  destruct (deliver send (select_unsent db) [] []) as [log marked] eqn:D.
  apply deliver_spec in D. destruct D as [evs [Hlog [_ Hm]]].
  simpl in Hlog. subst log. exists marked. split; [reflexivity|].
  intros n. cbn [snd]. unfold is_marked. rewrite existsb_exists. split.
  - intros [i [Hi Heq]]. apply Z.eqb_eq in Heq. subst i.
    apply Hm in Hi. destruct Hi as [[] | H]. exact H.
  - intros H. exists (notif_id n). split; [|apply Z.eqb_refl].
    apply Hm. now right.
Qed.

Lemma commit_sent_nil db : commit_sent [] db = db.
Proof.
  destruct db as [us ns logs]. unfold commit_sent. cbn [users notifications log_events].
  f_equal. erewrite map_ext; [apply map_id|]. intros n. reflexivity.
Qed.

Lemma worker_of_no_row send db :
  select_unsent db = [] -> notifications_worker_cycle send db = (db, []).
Proof.
  intros H. unfold notifications_worker_cycle. rewrite H. simpl.
  now rewrite commit_sent_nil.
Qed.

Lemma select_unsent_nil db :
  (forall n usr, In n (notifications db) -> sent n = false -> owner db n usr -> False) ->
  select_unsent db = [].
Proof.
  intros H. destruct (select_unsent db) as [|[n usr] rows] eqn:E; trivial.
  exfalso. assert (Hin : In (n, usr) (select_unsent db)) by (rewrite E; now left).
  apply select_unsent_In in Hin. destruct Hin as [Hn [Hs Ho]]. eapply H; eassumption.
Qed.

(** X1. Every event of a pass belongs to a row that was unsent and has its
    owner in [users], and is that row's outcome: a call goes to the owner's
    chat with the row's text. With distinct ids no row gets two events in
    one pass. *)
Theorem delivery_events_sound send db :
  (forall e, In e (snd (notifications_worker_cycle send db)) ->
     exists n usr,
       In n (notifications db) /\ sent n = false /\ owner db n usr /\
       outcome_of n usr e) /\
  (wf_db db -> NoDup (map event_notif (snd (notifications_worker_cycle send db)))).
Proof.
  split.
  - intros e. apply worker_event_row.
  - intros Hwf. rewrite (outcome_ids _ _ (worker_events send db)).
    now apply select_unsent_NoDup.
Qed.

(** X2. A row the selection leaves out, because it is already sent or
    because no user has its [user_id], is in the table unchanged after the
    pass and no event of the pass carries its id: a sent row is never sent
    again. *)
Theorem unselected_rows_untouched send db n :
  wf_db db -> In n (notifications db) ->
  (sent n = true \/ forall usr, In usr (users db) -> uid usr <> user_id n) ->
  In n (notifications (fst (notifications_worker_cycle send db))) /\
  forall e, In e (snd (notifications_worker_cycle send db)) ->
            event_notif e <> notif_id n.
Proof.
  intros Hwf Hn Hout.
  assert (Hno : forall e, In e (snd (notifications_worker_cycle send db)) ->
                          event_notif e <> notif_id n).
  { intros e He Hid.
    destruct (worker_event_row send db e He) as [n' [usr [Hn' [Hs [Ho Hoc]]]]].
    assert (n' = n).
    { apply (NoDup_map_eq notif_id (notifications db)); trivial; [apply Hwf|].
      now rewrite <- (outcome_of_notif _ _ _ Hoc). }
    subst n'. destruct Hout as [Hsent | Horph]; [congruence|].
    destruct Ho as [Hu Hid']. now apply (Horph usr). }
  split; trivial.
  destruct (worker_commit send db) as [marked [-> Hm]].
  unfold commit_sent. cbn [notifications].
  apply (in_map (fun n0 => if is_marked marked n0 then set_sent n0 else n0)) in Hn.
  destruct (is_marked marked n) eqn:E; trivial.
  apply Hm in E. destruct E as [e [He [Hid _]]]. now elim (Hno e He).
Qed.

(** X3. When no unsent row has an owner, a pass makes no call and leaves
    the database as it is. *)
Theorem delivery_nothing_pending send db :
  (forall n, In n (notifications db) -> sent n = false ->
             forall usr, In usr (users db) -> uid usr <> user_id n) ->
  notifications_worker_cycle send db = (db, []).
Proof.
  intros H. apply worker_of_no_row, select_unsent_nil.
  intros n usr Hn Hs [Hu Hid]. now apply (H n Hn Hs usr).
Qed.

(** X4. After a pass with an endpoint that accepts every message nothing
    is left to deliver: the next pass, with any endpoint, makes no call and
    changes nothing. *)
Theorem delivery_drains send send2 db :
  (forall h c t, send h c t = true) ->
  notifications_worker_cycle send2 (fst (notifications_worker_cycle send db)) =
  (fst (notifications_worker_cycle send db), []).
Proof.
  intros Hsend. apply worker_of_no_row, select_unsent_nil.
  destruct (worker_commit send db) as [marked [-> Hm]].
  unfold commit_sent, owner. cbn [users notifications].
  intros n1 usr Hn1 Hs Ho. apply in_map_iff in Hn1. destruct Hn1 as [n [Heq Hn]].
  destruct (is_marked marked n) eqn:E.
  - subst n1. discriminate Hs.
  - subst n1.
    assert (Hrow : In (n, usr) (select_unsent db)) by now apply select_unsent_In.
    destruct (Forall2_In_l _ _ _ _ (worker_events send db) Hrow) as [e [He Hout]].
    assert (Hmk : marks e = true).
    { cbn [fst snd] in Hout. unfold outcome_of in Hout.
      destruct (suppressed n usr); [now subst e|].
      destruct Hout as [ok ->]. simpl.
      destruct (worker_calls _ _ _ _ _ _ He) as [h ->]. apply Hsend. }
    assert (is_marked marked n = true).
    { apply Hm. exists e. split; trivial. split; trivial.
      now apply (outcome_of_notif _ _ _ Hout). }
    congruence.
Qed.

(** X5. A row whose call failed is selected again by the next pass, which
    calls the endpoint for it with the same chat and text. *)
Theorem failed_delivery_retried send send2 db n usr :
  wf_db db ->
  In n (notifications db) -> sent n = false -> owner db n usr ->
  In (SendMessage (notif_id n) (telegram_id usr) (text n) false)
     (snd (notifications_worker_cycle send db)) ->
  exists ok,
    In (SendMessage (notif_id n) (telegram_id usr) (text n) ok)
       (snd (notifications_worker_cycle send2
               (fst (notifications_worker_cycle send db)))).
Proof.
  intros Hwf Hn Hs Ho Hfail.
  destruct (worker_row send db n usr Hwf Hn Hs Ho) as [e [He [Hout [Huniq Hfin]]]].
  rewrite <- (Huniq _ Hfail eq_refl) in Hfin, Hout. simpl in Hfin.
  assert (Hsup : suppressed n usr = false).
  { unfold outcome_of in Hout. destruct (suppressed n usr); [discriminate | reflexivity]. }
  assert (Hwf1 : wf_db (fst (notifications_worker_cycle send db)))
    by apply (run_op_wf (Deliver send) db Hwf).
  assert (Ho1 : owner (fst (notifications_worker_cycle send db)) n usr).
  { destruct (worker_commit send db) as [marked [-> _]]. exact Ho. }
  destruct (worker_row send2 _ n usr Hwf1 Hfin Hs Ho1) as [e2 [He2 [Hout2 _]]].
  unfold outcome_of in Hout2. rewrite Hsup in Hout2.
  destruct Hout2 as [ok ->]. now exists ok.
Qed.

(** X6. A pass writes nothing but [sent]: [users] and [log_events] are as
    before, the notifications keep their number and order, and a row
    differs from what it was only by [sent = true], and only when the pass
    has a marking event for it (a suppression or a call that returned). *)
Theorem delivery_frame send db :
  users (fst (notifications_worker_cycle send db)) = users db /\
  log_events (fst (notifications_worker_cycle send db)) = log_events db /\
  Forall2
    (fun n n' =>
       n' = n \/
       (n' = set_sent n /\
        exists e, In e (snd (notifications_worker_cycle send db)) /\
                  event_notif e = notif_id n /\ marks e = true))
    (notifications db)
    (notifications (fst (notifications_worker_cycle send db))).
Proof.
  destruct (worker_commit send db) as [marked [-> Hm]].
  split; [reflexivity|]. split; [reflexivity|].
  unfold commit_sent. cbn [notifications].
  induction (notifications db) as [|n ns IH]; simpl; constructor; trivial.
  destruct (is_marked marked n) eqn:E; [|now left].
  right. split; [reflexivity|]. now apply Hm.
Qed.

(** ** More on the webhook handler *)

Lemma webhook_insert_decide v :
  (exists ob, forall now user k txt rej db,
      webhook_insert now user k v txt rej db =
      (mkDB (users db)
         (add_notification now (uid user) k ob txt rej (notifications db))
         (log_events db),
       PlainTextResponse (u "ok") 200)) \/
  (forall now user k txt rej db,
      webhook_insert now user k v txt rej db = (db, Raised StatementError)).
Proof.
  unfold webhook_insert.
  destruct v; try (destruct (bind_string _));
    try (left; eexists; reflexivity); right; reflexivity.
Qed.

Lemma scalar_one_some {A} (l : list A) x :
  scalar_one_or_none l = Some (Some x) -> l = [x].
Proof. destruct l as [|a [|b l]]; simpl; congruence. Qed.

Lemma db_eta db : mkDB (users db) (notifications db) (log_events db) = db.
Proof. now destruct db. Qed.

(** The handler reads the database only through [users]: for given users
    the answer, the added row and the log rows are fixed. *)
Lemma hh_webhook_decide request users0 :
  exists (o : outcome) (row : option new_row) (logs : list LogEvent),
    (forall now db, users db = users0 ->
       hh_webhook now request db =
       (mkDB (users db) (with_row now row (notifications db)) (log_events db ++ logs),
        o)) /\
    match row with
    | Some (usr, k, ob, txt, rej) =>
      o = PlainTextResponse (u "ok") 200 /\
      (k = u "invitation" \/ k = u "state_change") /\
      exists user, In user users0 /\ uid user = usr
    | None =>
      (exists e, o = Raised e) \/
      o = PlainTextResponse (u "unknown user") 200 \/
      o = PlainTextResponse (u "ignored") 200
    end.
Proof.
  destruct request as [[| | | | |d]|];
    try (exists (Raised TypeError), None, []; split;
         [intros now db _; cbn [with_row]; now rewrite app_nil_r, db_eta
         | left; now eexists]).
  2:{ exists (Raised JSONDecodeError), None, []. split;
        [intros now db _; cbn [with_row]; now rewrite app_nil_r, db_eta
        | left; now eexists]. }
  destruct (WebhookEvent_validate d) as [event|] eqn:V.
  2:{ exists (Raised ValidationError), None, []. split;
        [intros now db _; unfold hh_webhook; rewrite V; cbn [with_row];
         now rewrite app_nil_r, db_eta
        | left; now eexists]. }
  set (f := fun usr => match hh_user_id usr with
                       | Some h => pystr_eqb h (ev_user_id event)
                       | None => false
                       end).
  assert (Hf : forall db l m, users db = users0 ->
             users_by_hh_user_id (ev_user_id event) (log_event l m db) = filter f users0).
  { intros db l m Hu. unfold users_by_hh_user_id. cbn [users log_event]. now rewrite Hu. }
  destruct (scalar_one_or_none (filter f users0)) as [[user|]|] eqn:S.
  - assert (Huser : In user users0).
    { apply scalar_one_some in S.
      assert (H : In user (filter f users0)) by (rewrite S; now left).
      now apply filter_In in H. }
    destruct (pystr_eqb (action_type event) (u "NEW_RESPONSE_OR_INVITATION_VACANCY")) eqn:A1.
    + match goal with
      | |- _ =>
        destruct (webhook_insert_decide
                    (py_or (dict_get (u "topic_id") (payload event))
                       (dict_get (u "chat_id") (payload event)))) as [[ob Hi] | Hi]
      end.
      * eexists (PlainTextResponse (u "ok") 200),
          (Some (uid user, u "invitation", ob, _, false)), _.
        split.
        -- intros now db Hu. unfold hh_webhook. rewrite V. cbv zeta.
           rewrite (Hf db _ _ Hu), S. cbn [scalar_one_or_none]. rewrite A1, Hi.
           reflexivity.
        -- split; [reflexivity|]. split; [now left|]. now exists user.
      * exists (Raised StatementError), None, [mkLogEvent (u "INFO") (u "Incoming HH webhook")].
        split; [|left; now eexists].
        intros now db Hu. unfold hh_webhook. rewrite V. cbv zeta.
        rewrite (Hf db _ _ Hu), S. cbn [scalar_one_or_none]. rewrite A1, Hi.
        reflexivity.
    + destruct (pystr_eqb (action_type event) (u "NEGOTIATION_EMPLOYER_STATE_CHANGE")) eqn:A2.
      * destruct (webhook_insert_decide (dict_get (u "topic_id") (payload event)))
          as [[ob Hi] | Hi].
        -- eexists (PlainTextResponse (u "ok") 200),
             (Some (uid user, u "state_change", ob, _, _)), _.
           split.
           ++ intros now db Hu. unfold hh_webhook. rewrite V. cbv zeta.
              rewrite (Hf db _ _ Hu), S. cbn [scalar_one_or_none]. rewrite A1, A2, Hi.
              reflexivity.
           ++ split; [reflexivity|]. split; [now right|]. now exists user.
        -- exists (Raised StatementError), None,
             [mkLogEvent (u "INFO") (u "Incoming HH webhook")].
           split; [|left; now eexists].
           intros now db Hu. unfold hh_webhook. rewrite V. cbv zeta.
           rewrite (Hf db _ _ Hu), S. cbn [scalar_one_or_none]. rewrite A1, A2, Hi.
           reflexivity.
      * exists (PlainTextResponse (u "ignored") 200), None,
          [mkLogEvent (u "INFO") (u "Incoming HH webhook")].
        split; [|now right; right].
        intros now db Hu. unfold hh_webhook. rewrite V. cbv zeta.
        rewrite (Hf db _ _ Hu), S. cbn [scalar_one_or_none]. rewrite A1, A2.
        reflexivity.
  - exists (PlainTextResponse (u "unknown user") 200), None,
      [mkLogEvent (u "INFO") (u "Incoming HH webhook");
       mkLogEvent (u "WARNING") (u "Webhook for unknown hh_user_id")].
    split; [|now right; left].
    intros now db Hu. unfold hh_webhook. rewrite V. cbv zeta.
    rewrite (Hf db _ _ Hu), S. cbn [scalar_one_or_none with_row].
    unfold log_event. cbn [users notifications log_events].
    now rewrite <- app_assoc.
  - exists (Raised MultipleResultsFound), None,
      [mkLogEvent (u "INFO") (u "Incoming HH webhook")].
    split; [|left; now eexists].
    intros now db Hu. unfold hh_webhook. rewrite V. cbv zeta.
    rewrite (Hf db _ _ Hu), S. reflexivity.
Qed.

Lemma is_rejection_state_spec s :
  is_rejection_state s = true <->
  exists k, In k bad_keywords /\ substring k (lower s).
Proof.
  unfold is_rejection_state, any, bad_keywords. rewrite existsb_exists.
  split; intros [k [Hin H]]; exists k; split; trivial; now apply contains_spec.
Qed.

Lemma answer_not_ok body :
  List.length body <> 2%nat ->
  PlainTextResponse body 200 <> PlainTextResponse (u "ok") 200.
Proof. intros H E. injection E as ->. now apply H. Qed.

(** X7. Whatever the request and the database, the handler touches no
    user, every response it returns has status 200, and it adds a
    notification only together with the answer "ok": then exactly one
    unsent row, stamped [now], of kind [invitation] or [state_change], for
    a user of the table. In every other case, an exception included, the
    notifications are as before. *)
Theorem webhook_outcomes now request db :
  users (fst (hh_webhook now request db)) = users db /\
  match snd (hh_webhook now request db) with
  | PlainTextResponse body status_code =>
    status_code = 200 /\
    ((body = u "ok" /\
      exists row,
        notifications (fst (hh_webhook now request db)) = notifications db ++ [row] /\
        notif_id row = next_id (notifications db) /\
        sent row = false /\ created_at row = now /\
        (kind row = u "invitation" \/ kind row = u "state_change") /\
        exists usr, In usr (users db) /\ user_id row = uid usr) \/
     ((body = u "unknown user" \/ body = u "ignored") /\
      notifications (fst (hh_webhook now request db)) = notifications db))
  | Raised _ => notifications (fst (hh_webhook now request db)) = notifications db
  end.
Proof.
  destruct (hh_webhook_decide request (users db)) as [o [row [logs [H Hrow]]]].
  rewrite (H now db eq_refl). cbn [fst snd users notifications].
  split; [reflexivity|].
  destruct row as [[[[[usr k] ob] txt] rej]|].
  - destruct Hrow as [-> [Hk [user [Hu Hid]]]]. split; [reflexivity|]. left.
    split; [reflexivity|]. eexists. split; [reflexivity|].
    cbn [notif_id sent created_at kind user_id]. repeat split; trivial.
    now exists user.
  - destruct Hrow as [[e ->] | [-> | ->]]; cbn [with_row].
    + reflexivity.
    + split; [reflexivity|]. right. split; [now left | reflexivity].
    + split; [reflexivity|]. right. split; [now right | reflexivity].
Qed.

(** X8. The handler has no dedup check: a request answered "ok" is
    answered "ok" again when it is posted a second time, and the table then
    holds two rows for it, equal in user, kind, [hh_object_id], text and
    [is_rejection], both unsent, under different ids. *)
Theorem webhook_no_dedup now now2 request db :
  snd (hh_webhook now request db) = PlainTextResponse (u "ok") 200 ->
  snd (hh_webhook now2 request (fst (hh_webhook now request db))) =
    PlainTextResponse (u "ok") 200 /\
  exists r1 r2,
    notifications (fst (hh_webhook now2 request (fst (hh_webhook now request db)))) =
      notifications db ++ [r1; r2] /\
    user_id r2 = user_id r1 /\ kind r2 = kind r1 /\
    hh_object_id r2 = hh_object_id r1 /\ text r2 = text r1 /\
    is_rejection r2 = is_rejection r1 /\
    sent r1 = false /\ sent r2 = false /\ notif_id r1 < notif_id r2.
Proof.
  destruct (hh_webhook_decide request (users db)) as [o [row [logs [H Hrow]]]].
  rewrite (H now db eq_refl). cbn [fst snd]. intros Ho. subst o.
  rewrite (H now2 (mkDB (users db) (with_row now row (notifications db))
                     (log_events db ++ logs)) eq_refl).
  cbn [fst snd users notifications].
  split; [reflexivity|].
  destruct row as [[[[[usr k] ob] txt] rej]|].
  - cbn [with_row]. unfold add_notification at 1 2.
    eexists. eexists. rewrite <- app_assoc. split; [reflexivity|].
    cbn [user_id kind hh_object_id text is_rejection sent notif_id].
    repeat split.
    match goal with
    | |- _ < next_id (?ns ++ [?r]) =>
      apply (next_id_fresh (ns ++ [r]) r); apply in_or_app; right; now left
    end.
  - exfalso. destruct Hrow as [[e He] | [He | He]]; [discriminate He| |];
      revert He; apply not_eq_sym, answer_not_ok; vm_compute; discriminate.
Qed.

Lemma hh_webhook_state_change now d event db usr topic :
  WebhookEvent_validate d = Some event ->
  users_by_hh_user_id (ev_user_id event) db = [usr] ->
  action_type event = u "NEGOTIATION_EMPLOYER_STATE_CHANGE" ->
  dict_get (u "topic_id") (payload event) =
    match topic with Some t => JStr t | None => JNull end ->
  hh_webhook now (Some (JDict d)) db =
    (mkDB (users db)
       (notifications db ++ [state_change_row now usr event topic db])
       (log_events db ++ [mkLogEvent (u "INFO") (u "Incoming HH webhook")]),
     PlainTextResponse (u "ok") 200).
Proof.
  intros V Hu Ha Ht.
  unfold hh_webhook. rewrite V. cbv zeta.
  change (users_by_hh_user_id (ev_user_id event)
            (log_event (u "INFO") (u "Incoming HH webhook") db))
    with (users_by_hh_user_id (ev_user_id event) db).
  rewrite Hu. cbn [scalar_one_or_none]. rewrite Ha.
  assert (E : pystr_eqb (u "NEGOTIATION_EMPLOYER_STATE_CHANGE")
                (u "NEW_RESPONSE_OR_INVITATION_VACANCY") = false)
    by (vm_compute; reflexivity).
  rewrite E, pystr_eqb_refl. unfold webhook_insert. rewrite Ht. cbv beta iota.
  destruct topic as [t|]; rewrite ?bind_string_str;
    unfold state_change_row, state_change_text, add_notification, log_event;
    cbn [users notifications log_events]; reflexivity.
Qed.

(** X9. A state change for the one user linked to the identity, with a
    string or no [topic_id], is answered "ok" and appends exactly the row
    of kind [state_change] with that thread id and the text composed from
    the payload; its [is_rejection] is true exactly when one of the
    keywords occurs in the lower-cased [str(to_state)]. *)
Theorem webhook_state_change now d event db usr topic :
  WebhookEvent_validate d = Some event ->
  users_by_hh_user_id (ev_user_id event) db = [usr] ->
  action_type event = u "NEGOTIATION_EMPLOYER_STATE_CHANGE" ->
  dict_get (u "topic_id") (payload event) =
    match topic with Some t => JStr t | None => JNull end ->
  hh_webhook now (Some (JDict d)) db =
    (mkDB (users db)
       (notifications db ++ [state_change_row now usr event topic db])
       (log_events db ++ [mkLogEvent (u "INFO") (u "Incoming HH webhook")]),
     PlainTextResponse (u "ok") 200) /\
  (is_rejection (state_change_row now usr event topic db) = true <->
   exists k, In k bad_keywords /\
             substring k (lower (py_str (dict_get (u "to_state") (payload event))))).
Proof.
  intros V Hu Ha Ht. split; [|apply is_rejection_state_spec].
  now apply hh_webhook_state_change.
Qed.

(** X10. A state change that is a rejection, for a user who mutes
    rejections: the next delivery pass sets the new row [sent = true] and
    no event of the pass for it is a call of the endpoint. *)
Theorem state_change_rejection_muted now send d event db usr topic :
  wf_db db ->
  WebhookEvent_validate d = Some event ->
  users_by_hh_user_id (ev_user_id event) db = [usr] ->
  action_type event = u "NEGOTIATION_EMPLOYER_STATE_CHANGE" ->
  dict_get (u "topic_id") (payload event) =
    match topic with Some t => JStr t | None => JNull end ->
  (exists k, In k bad_keywords /\
             substring k (lower (py_str (dict_get (u "to_state") (payload event))))) ->
  mute_rejections usr = true ->
  In (set_sent (state_change_row now usr event topic db))
     (notifications
        (fst (notifications_worker_cycle send
                (fst (hh_webhook now (Some (JDict d)) db))))) /\
  forall e,
    In e (snd (notifications_worker_cycle send
                 (fst (hh_webhook now (Some (JDict d)) db)))) ->
    event_notif e = notif_id (state_change_row now usr event topic db) ->
    is_call e = false.
Proof.
  intros Hwf V Hu Ha Ht Hk Hmute.
  rewrite (hh_webhook_state_change now d event db usr topic V Hu Ha Ht). cbn [fst].
  set (n := state_change_row now usr event topic db).
  set (db1 := mkDB (users db) (notifications db ++ [n]) _).
  assert (Hwf1 : wf_db db1) by now apply wf_db_add.
  assert (Hin : In n (notifications db1)) by (apply in_or_app; right; now left).
  assert (Hown : owner db1 n usr).
  { split; [|reflexivity]. cbn [users db1].
    assert (H : In usr (users_by_hh_user_id (ev_user_id event) db)) by (rewrite Hu; now left).
    unfold users_by_hh_user_id in H. now apply filter_In in H. }
  destruct (worker_row send db1 n usr Hwf1 Hin eq_refl Hown)
    as [e [He [Hout [Huniq Hfin]]]].
  assert (Hrej : is_rejection n = true) by now apply is_rejection_state_spec.
  unfold outcome_of, suppressed in Hout. rewrite Hrej, Hmute in Hout.
  cbn [andb] in Hout. subst e. cbn [marks] in Hfin. split; trivial.
  intros e' He' Hid. now rewrite (Huniq e' He' Hid).
Qed.

(** ** More on the poll pass *)

Lemma adds_refl P ns : adds P ns ns.
Proof. exists []. rewrite app_nil_r. split; [reflexivity | constructor]. Qed.

Lemma adds_trans P a b c : adds P a b -> adds P b c -> adds P a c.
Proof.
  intros [x [-> Hx]] [y [-> Hy]]. exists (x ++ y). rewrite app_assoc.
  split; [reflexivity|]. apply Forall_app. tauto.
Qed.

Lemma adds_impl (P Q : Notification -> Prop) a b :
  (forall n, P n -> Q n) -> adds P a b -> adds Q a b.
Proof.
  intros H [x [-> Hx]]. exists x. split; [reflexivity|].
  eapply Forall_impl; [exact H | exact Hx].
Qed.

Lemma for_each_adds {A} (P : Notification -> Prop)
    (body : A -> list Notification -> option (list Notification)) l :
  (forall x s s', In x l -> body x s = Some s' -> adds P s s') ->
  forall s s', for_each body l s = Some s' -> adds P s s'.
Proof.
  induction l as [|a l IH]; intros Hstep s s' H; simpl in H.
  - injection H as <-. apply adds_refl.
  - destruct (body a s) as [s1|] eqn:B; [|discriminate].
    eapply adds_trans; [apply (Hstep a s s1 (or_introl eq_refl) B)|].
    apply IH; trivial. intros x t t' Hin. apply Hstep. now right.
Qed.

Lemma for_each_abort {A S} (body : A -> S -> option S) l x :
  In x l -> (forall s, body x s = None) -> forall s, for_each body l s = None.
Proof.
  induction l as [|a l IH]; simpl; [tauto|].
  intros [<- | Hx] Hb s.
  - now rewrite Hb.
  - destruct (body a s); [now apply IH | reflexivity].
Qed.

Lemma poll_message_adds clock user msg ns ns' :
  poll_message clock user msg ns = Some ns' ->
  adds (row_of_message user msg) ns ns'.
Proof.
  rewrite poll_message_eq.
  destruct (inbound_message msg) as [[[id0 txt0]|]|] eqn:Hib; [| |discriminate].
  - destruct (scalar_one_or_none _) as [[x|]|]; [| |discriminate];
      intros H; injection H as <-; [apply adds_refl|].
    eexists. split; [reflexivity|]. constructor; [|constructor].
    exists id0, txt0. split; [exact Hib|].
    cbn [user_id kind hh_object_id text is_rejection sent].
    repeat split.
  - intros H. injection H as <-. apply adds_refl.
Qed.

Lemma poll_user_adds hh clock user ns ns' :
  poll_user hh clock user ns = Some ns' ->
  adds (fun n => exists msg, polled_message hh user msg /\ row_of_message user msg n)
    ns ns'.
Proof.
  unfold poll_user.
  destruct (hh_access_token user) as [[|c tok]|] eqn:T; cbn [truthy negb];
    try (intros H; injection H as <-; apply adds_refl).
  destruct (get_negotiations hh user) as [| |j] eqn:G;
    [intros H; injection H as <-; apply adds_refl | discriminate |].
  destruct (items (Body j)) as [v|] eqn:I; [|discriminate].
  destruct (py_iter v) as [negotiations|] eqn:P; [|discriminate].
  apply for_each_adds. intros neg s s' Hneg.
  unfold poll_negotiation; cbv zeta.
  destruct neg as [| | | | |n]; try discriminate.
  set (nid := py_or (dict_get (u "id") n) (dict_get (u "topic_id") n)).
  destruct (truthy nid) eqn:Ht; cbn [negb];
    [|intros H; injection H as <-; apply adds_refl].
  destruct (get_messages hh user nid) as [| |j'] eqn:G';
    [intros H; injection H as <-; apply adds_refl | discriminate |].
  destruct (items (Body j')) as [v'|] eqn:I'; [|discriminate].
  destruct (py_iter v') as [msgs|] eqn:P'; [|discriminate].
  apply for_each_adds. intros msg t t' Hmsg Hpm.
  apply poll_message_adds in Hpm. revert Hpm. apply adds_impl.
  intros row Hrow. exists msg. split; trivial.
  split; [exists (c :: tok); split; [exact T | discriminate]|].
  exists v, negotiations, n, v', msgs. fold nid. rewrite G, G'.
  repeat split; trivial.
Qed.

Lemma poll_users_adds hh clock us : forall ns ns' fin,
  poll_users hh clock us ns = (ns', fin) ->
  adds (fun n => exists user msg,
          In user us /\ polled_message hh user msg /\ row_of_message user msg n)
    ns ns'.
Proof.
  induction us as [|user us IH]; simpl; intros ns ns' fin H.
  - injection H as <- _. apply adds_refl.
  - destruct (poll_user hh clock user ns) as [ns1|] eqn:PU.
    + eapply adds_trans.
      * apply poll_user_adds in PU. revert PU. apply adds_impl.
        intros n [msg Hn]. exists user, msg. tauto.
      * apply IH in H. revert H. apply adds_impl.
        intros n [usr [msg Hn]]. exists usr, msg. tauto.
    + injection H as <- _. apply adds_refl.
Qed.

Lemma poll_rows_provenance_aux hh clock db :
  users (fst (hh_messages_worker_cycle hh clock db)) = users db /\
  adds (fun n => exists user msg,
          In user (users db) /\ polled_message hh user msg /\
          row_of_message user msg n)
    (notifications db)
    (notifications (fst (hh_messages_worker_cycle hh clock db))).
Proof.
  unfold hh_messages_worker_cycle.
  destruct (poll_users hh clock _ (notifications db)) as [ns1 fin] eqn:PU.
  cbn [fst users notifications]. split; [reflexivity|].
  apply poll_users_adds in PU. revert PU. apply adds_impl.
  intros n [user [msg [Hin H]]]. exists user, msg. split; [|exact H].
  now apply filter_In in Hin.
Qed.

(** X11. A pass of the poll worker touches neither [users] nor
    [log_events], and every row it adds stems from an inbound message with
    text that the platform listed in a thread of a user with a token: the
    row has that user's id, kind [message], the message's [str(id)] as
    [hh_object_id], the marker followed by the stripped text, the
    classifier's verdict on that text as [is_rejection], and is unsent. *)
Theorem poll_rows_provenance hh clock db :
  users (fst (hh_messages_worker_cycle hh clock db)) = users db /\
  log_events (fst (hh_messages_worker_cycle hh clock db)) = log_events db /\
  adds (fun n => exists user msg,
          In user (users db) /\ polled_message hh user msg /\
          row_of_message user msg n)
    (notifications db)
    (notifications (fst (hh_messages_worker_cycle hh clock db))).
Proof.
  unfold hh_messages_worker_cycle.
  destruct (poll_users hh clock _ (notifications db)) as [ns1 fin] eqn:PU.
  cbn [fst users log_events notifications]. split; [reflexivity|]. split; [reflexivity|].
  apply poll_users_adds in PU. revert PU. apply adds_impl.
  intros n [user [msg [Hin H]]]. exists user, msg. split; [|exact H].
  now apply filter_In in Hin.
Qed.

Lemma poll_user_malformed hh user msg :
  polled_message hh user msg -> inbound_message msg = None ->
  forall clock ns, poll_user hh clock user ns = None.
Proof.
  intros [[t [Ht Hne]] [v [negs [n [v' [msgs [Hi [Hp [Hn [Htr [Hi' [Hp' Hm]]]]]]]]]]]] Hib
    clock ns.
  unfold poll_user. rewrite Ht.
  destruct t as [|c t]; [now elim Hne|]. cbn [truthy negb].
  destruct (get_negotiations hh user) as [| |j] eqn:G; try discriminate Hi.
  rewrite Hi, Hp. apply (for_each_abort _ _ (JDict n)); trivial.
  intros s. unfold poll_negotiation; cbv zeta. rewrite Htr. cbn [negb].
  destruct (get_messages hh user
              (py_or (dict_get (u "id") n) (dict_get (u "topic_id") n)))
    as [| |j'] eqn:G'; try discriminate Hi'.
  rewrite Hi', Hp'. apply (for_each_abort _ _ msg); trivial.
  intros s0. now rewrite poll_message_eq, Hib.
Qed.

Lemma NoDup_map_filter {A B} (f : A -> B) (p : A -> bool) l :
  NoDup (map f l) -> NoDup (map f (filter p l)).
Proof.
  induction l as [|a l IH]; simpl; intros H; [constructor|].
  inversion H as [|? ? Hnotin Hnd]; subst.
  destruct (p a); [|now apply IH].
  simpl. constructor; [|now apply IH].
  intros Hin. apply Hnotin. apply in_map_iff in Hin. destruct Hin as [b [Hb Hin]].
  apply filter_In in Hin. apply in_map_iff. exists b. tauto.
Qed.

Lemma poll_users_blocked hh clock user :
  (forall c s, poll_user hh c user s = None) ->
  forall us ns ns' fin,
    NoDup (map uid us) -> In user us ->
    poll_users hh clock us ns = (ns', fin) ->
    fin = false /\ adds (fun n => user_id n <> uid user) ns ns'.
Proof.
  intros Hab. induction us as [|a us IH]; simpl; intros ns ns' fin Hnd Hin H; [tauto|].
  inversion Hnd as [|? ? Hnotin Hnd']; subst.
  destruct Hin as [-> | Hin].
  - rewrite Hab in H. injection H as <- <-. split; [reflexivity | apply adds_refl].
  - assert (Hne : uid a <> uid user).
    { intros E. apply Hnotin. rewrite E. now apply in_map. }
    destruct (poll_user hh clock a ns) as [ns1|] eqn:PU.
    + destruct (IH _ _ _ Hnd' Hin H) as [Hf Ha]. split; trivial.
      eapply adds_trans; [|exact Ha].
      apply poll_user_adds in PU. revert PU. apply adds_impl.
      intros n [m [_ [mid [txt [_ [Huid _]]]]]]. congruence.
    + injection H as <- <-. split; [reflexivity | apply adds_refl].
Qed.

(** X12. A listed message on which the loop body raises (the message is
    no object, its text is a value other than a string, or its [author] is
    present and no object) stops the pass: the pass does not come to its
    end, and no row of the user of that thread is stored by it, whatever
    else the user's threads hold. *)
Theorem poll_malformed_message_blocks hh clock db user msg :
  wf_db db -> In user (users db) ->
  polled_message hh user msg -> inbound_message msg = None ->
  snd (hh_messages_worker_cycle hh clock db) = false /\
  adds (fun n => user_id n <> uid user)
    (notifications db)
    (notifications (fst (hh_messages_worker_cycle hh clock db))).
Proof.
  intros [Hu _] Hin Hp Hib. unfold hh_messages_worker_cycle.
  destruct (poll_users hh clock _ (notifications db)) as [ns1 fin] eqn:PU.
  cbn [fst snd notifications].
  apply (poll_users_blocked hh clock user (poll_user_malformed hh user msg Hp Hib))
    in PU; trivial.
  - now apply NoDup_map_filter.
  - apply filter_In. split; trivial. destruct Hp as [[t [-> _]] _]. reflexivity.
Qed.

(** X13. Every row a poll pass adds is picked up by the next delivery
    pass: it has its owner, gets its event there (suppressed when the
    classifier took the text for a rejection and the owner mutes, a call
    otherwise) and is [sent = true] when that event marks. *)
Theorem polled_rows_delivered hh clock send db :
  wf_db db ->
  exists added,
    notifications (fst (hh_messages_worker_cycle hh clock db)) =
      notifications db ++ added /\
    forall n, In n added ->
      exists usr msg e,
        owner (fst (hh_messages_worker_cycle hh clock db)) n usr /\
        polled_message hh usr msg /\ row_of_message usr msg n /\
        In e (snd (notifications_worker_cycle send
                     (fst (hh_messages_worker_cycle hh clock db)))) /\
        outcome_of n usr e /\
        In (if marks e then set_sent n else n)
           (notifications
              (fst (notifications_worker_cycle send
                      (fst (hh_messages_worker_cycle hh clock db))))).
Proof.
  intros Hwf.
  assert (Hwf1 : wf_db (fst (hh_messages_worker_cycle hh clock db)))
    by apply (run_op_wf (Poll hh clock) db Hwf).
  destruct (poll_rows_provenance_aux hh clock db) as [Hu [added [Hn Hall]]].
  exists added. split; trivial. intros n Hin.
  rewrite Forall_forall in Hall.
  destruct (Hall n Hin) as [usr [msg [Husr [Hp Hrow]]]].
  assert (Hown : owner (fst (hh_messages_worker_cycle hh clock db)) n usr).
  { split; [now rewrite Hu|]. destruct Hrow as [mid [txt [_ [Huid _]]]]. now rewrite Huid. }
  assert (Hs : sent n = false) by (destruct Hrow as [mid [txt H]]; apply H).
  assert (Hin1 : In n (notifications (fst (hh_messages_worker_cycle hh clock db))))
    by (rewrite Hn; apply in_or_app; now right).
  destruct (worker_row send _ n usr Hwf1 Hin1 Hs Hown) as [e [He [Hout [_ Hfin]]]].
  exists usr, msg, e. tauto.
Qed.

(** ** The commands *)

Lemma filter_map_commute {A} (p : A -> bool) (f : A -> A) l :
  (forall x, p (f x) = p x) -> filter p (map f l) = map f (filter p l).
Proof.
  intros H. induction l as [|a l IH]; simpl; trivial.
  rewrite H. destruct (p a); simpl; now rewrite IH.
Qed.

Lemma next_user_id_fresh us x : In x us -> uid x < next_user_id us.
Proof.
  unfold next_user_id. induction us as [|a us IH]; cbn [In map fold_right]; [tauto|].
  intros [<- | H]; [|specialize (IH H)]; lia.
Qed.

Lemma set_mute_same usr b : set_mute (mute_rejections usr) (set_mute b usr) = usr.
Proof. now destruct usr. Qed.

Lemma log_user_request_le1 tg txt s :
  (List.length (users_by_telegram_id tg (main s)) <= 1)%nat ->
  log_user_request tg txt s =
  Some (mkStore (main s)
          (user_requests s ++
           [mkUserRequestLog
              (option_map uid (hd_error (users_by_telegram_id tg (main s)))) tg txt])).
Proof.
  unfold log_user_request.
  destruct (users_by_telegram_id tg (main s)) as [|a [|b l]]; simpl; intros H;
    [reflexivity | reflexivity | lia].
Qed.

(** X14. [/start] from a sender the table knows at most once: afterwards
    the table has exactly one user with the sender's telegram id; when
    there was none, that user is appended with a fresh id, no platform
    identity, no token and [mute_rejections = true], and the other tables
    stay as they are; a repeated [/start] changes nothing more. The answer
    carries the link with the sender's id. *)
Theorem cmd_start_registers base message s :
  (List.length (users_by_telegram_id (from_user_id message) (main s)) <= 1)%nat ->
  (exists usr,
     users_by_telegram_id (from_user_id message)
       (main (fst (cmd_start base message s))) = [usr] /\
     (users_by_telegram_id (from_user_id message) (main s) = [] ->
      users (main (fst (cmd_start base message s))) = users (main s) ++ [usr] /\
      usr = mkUser (uid usr) (from_user_id message) None None true /\
      forall x, In x (users (main s)) -> uid x < uid usr) /\
     (users_by_telegram_id (from_user_id message) (main s) <> [] ->
      users (main (fst (cmd_start base message s))) = users (main s))) /\
  notifications (main (fst (cmd_start base message s))) = notifications (main s) /\
  log_events (main (fst (cmd_start base message s))) = log_events (main s) /\
  main (fst (cmd_start base message (fst (cmd_start base message s)))) =
    main (fst (cmd_start base message s)) /\
  snd (cmd_start base message s) =
    Some [start_text (base ++ u "/hh/auth/start?tg_id=" ++ str_of_Z (from_user_id message))].
Proof.
  intros Hle. set (tg := from_user_id message) in *.
  assert (Hnew : forall us, users_by_telegram_id tg
                   (mkDB (us ++ [new_user tg us]) (notifications (main s)) (log_events (main s)))
                 = filter (fun usr => telegram_id usr =? tg) us ++ [new_user tg us]).
  { intros us. unfold users_by_telegram_id. cbn [users]. rewrite filter_app.
    cbn [filter new_user telegram_id]. now rewrite Z.eqb_refl. }
  unfold cmd_start. fold tg. rewrite (log_user_request_le1 _ _ _ Hle).
  cbv zeta. cbn [main].
  destruct (users_by_telegram_id tg (main s)) as [|usr [|b l]] eqn:E;
    [| |simpl in Hle; lia]; cbn [scalar_one_or_none fst snd main].
  - cbn [users notifications log_events]. split; [|repeat split].
    + exists (new_user tg (users (main s))). split.
      * rewrite Hnew. unfold users_by_telegram_id in E. now rewrite E.
      * split; [|congruence]. intros _. split; [reflexivity|]. split; [reflexivity|].
        intros x Hx. now apply next_user_id_fresh.
    + assert (E1 : users_by_telegram_id tg
                     (mkDB (users (main s) ++ [new_user tg (users (main s))])
                        (notifications (main s)) (log_events (main s)))
                   = [new_user tg (users (main s))]).
      { rewrite Hnew. unfold users_by_telegram_id in E. now rewrite E. }
      unfold log_user_request. cbn [main]. rewrite E1.
      cbn [scalar_one_or_none main fst]. now rewrite E1.
  - split; [|repeat split].
    + exists usr. split; [exact E|]. split; [discriminate | reflexivity].
    + unfold log_user_request. cbn [main]. rewrite E.
      cbn [scalar_one_or_none main fst]. now rewrite E.
Qed.

Lemma users_by_telegram_id_toggle tg us ns logs usr b :
  filter (fun x => telegram_id x =? tg) us = [usr] ->
  users_by_telegram_id tg
    (mkDB (map (fun x => if uid x =? uid usr then set_mute b x else x) us) ns logs) =
  [set_mute b usr].
Proof.
  intros E. unfold users_by_telegram_id. cbn [users].
  rewrite filter_map_commute.
  - rewrite E. cbn [map]. now rewrite Z.eqb_refl.
  - intros x. now destruct (uid x =? uid usr).
Qed.

Lemma cmd_settings_found message s usr :
  users_by_telegram_id (from_user_id message) (main s) = [usr] ->
  cmd_settings message s =
    (mkStore
       (mkDB (map (fun x => if uid x =? uid usr
                            then set_mute (negb (mute_rejections usr)) x else x)
                (users (main s)))
          (notifications (main s)) (log_events (main s)))
       (user_requests s ++
        [mkUserRequestLog (Some (uid usr)) (from_user_id message) (text_or_empty message)]),
     Some [if negb (mute_rejections usr) then mute_on_text else mute_off_text]).
Proof.
  intros E.
  assert (Hle : (List.length (users_by_telegram_id (from_user_id message) (main s)) <= 1)%nat)
    by (rewrite E; simpl; lia).
  unfold cmd_settings. rewrite (log_user_request_le1 _ _ _ Hle).
  cbv zeta. cbn [main]. rewrite E. reflexivity.
Qed.

(** X15. [/settings] from a sender with exactly one user row flips that
    user's [mute_rejections] and nothing else: the other users, the ids,
    the notifications and the log events stay, and the answer names the
    new state. A second [/settings] restores the database. *)
Theorem cmd_settings_toggles message s usr :
  NoDup (map uid (users (main s))) ->
  users_by_telegram_id (from_user_id message) (main s) = [usr] ->
  snd (cmd_settings message s) =
    Some [if negb (mute_rejections usr) then mute_on_text else mute_off_text] /\
  In (set_mute (negb (mute_rejections usr)) usr)
     (users (main (fst (cmd_settings message s)))) /\
  (forall x, In x (users (main s)) -> x <> usr ->
             In x (users (main (fst (cmd_settings message s))))) /\
  map uid (users (main (fst (cmd_settings message s)))) = map uid (users (main s)) /\
  notifications (main (fst (cmd_settings message s))) = notifications (main s) /\
  log_events (main (fst (cmd_settings message s))) = log_events (main s) /\
  main (fst (cmd_settings message (fst (cmd_settings message s)))) = main s.
Proof.
  intros Hnd E. set (tg := from_user_id message) in *.
  assert (Hle : (List.length (users_by_telegram_id tg (main s)) <= 1)%nat)
    by (rewrite E; simpl; lia).
  assert (Hin : In usr (users (main s))).
  { assert (H : In usr (users_by_telegram_id tg (main s))) by (rewrite E; now left).
    unfold users_by_telegram_id in H. now apply filter_In in H. }
  pose proof (cmd_settings_found message s usr E) as Heq. fold tg in Heq.
  rewrite Heq. cbn [fst snd main users notifications log_events].
  split; [reflexivity|]. split; [|split; [|split; [|split; [|split]]]]; trivial.
  - apply in_map_iff. exists usr. rewrite Z.eqb_refl. tauto.
  - intros x Hx Hne. apply in_map_iff. exists x. split; trivial.
    destruct (uid x =? uid usr) eqn:U; trivial.
    apply Z.eqb_eq in U. elim Hne. now apply (NoDup_map_eq uid (users (main s))).
  - rewrite map_map. apply map_ext. intros x. now destruct (uid x =? uid usr).
  - unfold cmd_settings. fold tg.
    assert (E1 : users_by_telegram_id tg
              (mkDB (map (fun x => if uid x =? uid usr
                                   then set_mute (negb (mute_rejections usr)) x else x)
                       (users (main s)))
                 (notifications (main s)) (log_events (main s)))
            = [set_mute (negb (mute_rejections usr)) usr])
      by (apply users_by_telegram_id_toggle; exact E).
    unfold log_user_request. cbn [main]. rewrite E1.
    cbn [scalar_one_or_none main]. cbv zeta. rewrite E1.
    cbn [scalar_one_or_none fst main users notifications log_events
         set_mute uid mute_rejections].
    rewrite negb_involutive, map_map.
    transitivity (mkDB (users (main s)) (notifications (main s)) (log_events (main s)));
      [|apply db_eta].
    f_equal. rewrite (map_ext_in _ (fun x => x)); [apply map_id|].
    intros x Hx. destruct (uid x =? uid usr) eqn:U; [|now rewrite U].
    cbn [set_mute uid]. rewrite U.
    apply Z.eqb_eq in U.
    assert (x = usr) by now apply (NoDup_map_eq uid (users (main s))).
    subst x. apply set_mute_same.
Qed.

(** X16. Each of the three handlers logs the message before anything else:
    it appends exactly one request row with the sender's telegram id, the
    text of the message (empty when it has none) and the user id the table
    had on arrival, so the first [/start] of a new sender is logged without
    a user id. A message that is no command changes nothing else, and
    [/settings] from an unknown sender changes nothing else and asks for
    [/start]. *)
Theorem requests_logged base message s :
  (List.length (users_by_telegram_id (from_user_id message) (main s)) <= 1)%nat ->
  user_requests (fst (cmd_start base message s)) =
    user_requests s ++ [request_row message s] /\
  user_requests (fst (cmd_settings message s)) =
    user_requests s ++ [request_row message s] /\
  any_message message s =
    (mkStore (main s) (user_requests s ++ [request_row message s]),
     Some [not_recognized_text]) /\
  (users_by_telegram_id (from_user_id message) (main s) = [] ->
   main (fst (cmd_settings message s)) = main s /\
   snd (cmd_settings message s) = Some [u "Сначала отправь /start."]).
Proof.
  intros Hle. unfold cmd_start, cmd_settings, any_message.
  rewrite (log_user_request_le1 _ _ _ Hle). cbv zeta. cbn [main].
  fold (request_row message s).
  destruct (users_by_telegram_id (from_user_id message) (main s)) as [|usr [|b l]] eqn:E;
    [| |simpl in Hle; lia]; cbn [scalar_one_or_none fst snd user_requests main].
  - repeat split.
  - repeat split; discriminate.
Qed.

(** X17. The mute preference applies to what is already queued: after
    [/settings] of the owner of a pending rejection, the next delivery pass
    calls the endpoint for it when the command switched muting off, and
    consumes it without a call when the command switched muting on. *)
Theorem settings_then_delivery message send s usr n :
  wf_db (main s) ->
  users_by_telegram_id (from_user_id message) (main s) = [usr] ->
  In n (notifications (main s)) -> sent n = false -> is_rejection n = true ->
  user_id n = uid usr ->
  (mute_rejections usr = true ->
   exists ok,
     In (SendMessage (notif_id n) (telegram_id usr) (text n) ok)
        (snd (notifications_worker_cycle send (main (fst (cmd_settings message s)))))) /\
  (mute_rejections usr = false ->
   In (set_sent n)
      (notifications
         (fst (notifications_worker_cycle send (main (fst (cmd_settings message s)))))) /\
   forall e,
     In e (snd (notifications_worker_cycle send (main (fst (cmd_settings message s))))) ->
     event_notif e = notif_id n -> is_call e = false).
Proof.
  intros [Hu Hn] E Hin Hs Hrej Hid.
  rewrite (cmd_settings_found message s usr E). cbn [fst main].
  set (usr' := set_mute (negb (mute_rejections usr)) usr).
  set (db1 := mkDB _ (notifications (main s)) (log_events (main s))).
  assert (Husr : In usr (users (main s))).
  { assert (H : In usr (users_by_telegram_id (from_user_id message) (main s)))
      by (rewrite E; now left).
    unfold users_by_telegram_id in H. now apply filter_In in H. }
  assert (Hwf1 : wf_db db1).
  { split; [|exact Hn]. unfold db1. cbn [users]. rewrite map_map.
    erewrite map_ext; [exact Hu|].
    intros x. now destruct (uid x =? uid usr). }
  assert (Hown : owner db1 n usr').
  { split; [|now rewrite Hid]. unfold db1. cbn [users].
    apply in_map_iff. exists usr. now rewrite Z.eqb_refl. }
  destruct (worker_row send db1 n usr' Hwf1 Hin Hs Hown) as [e [He [Hout [Huniq Hfin]]]].
  unfold outcome_of, suppressed in Hout. rewrite Hrej in Hout.
  cbn [usr' set_mute mute_rejections telegram_id andb] in Hout.
  split; intros Hm; rewrite Hm in Hout; cbn [negb] in Hout.
  - destruct Hout as [ok ->]. now exists ok.
  - subst e. cbn [marks] in Hfin. split; trivial.
    intros e' He' Hid'. now rewrite (Huniq e' He' Hid').
Qed.

(** ** The OAuth callback *)

Lemma store_link_inv now tg hh_id access_token refresh_token expires_in s s1 :
  store_link now tg hh_id access_token refresh_token expires_in s = Some s1 ->
  exists found token refresh expires,
    scalar_one_or_none (users_by_telegram_id tg (web_db s)) = Some found /\
    text_column access_token = Some token /\
    text_column refresh_token = Some refresh /\
    s1 = mkWebStore
           (mkDB
              (match found with
               | Some user =>
                 map (fun x => if uid x =? uid user then set_link hh_id token x else x)
                   (users (web_db s))
               | None =>
                 users (web_db s) ++
                 [set_link hh_id token (new_user tg (users (web_db s)))]
               end)
              (notifications (web_db s)) (log_events (web_db s)))
           (set_credentials
              (match found with
               | Some user => uid user
               | None => next_user_id (users (web_db s))
               end) refresh expires (credentials s)).
Proof.
  unfold store_link.
  destruct (scalar_one_or_none (users_by_telegram_id tg (web_db s))) as [found|];
    [|discriminate].
  destruct (if truthy expires_in then _ else _) as [expires|]; [|discriminate].
  destruct (text_column access_token) as [token|]; [|discriminate].
  destruct (text_column refresh_token) as [refresh|]; [|discriminate].
  intros H. exists found, token, refresh, expires.
  repeat split; trivial. destruct found; now injection H as <-.
Qed.

Lemma scalar_one_none_inv {A} (l : list A) :
  scalar_one_or_none l = Some None -> l = [].
Proof. destruct l as [|a [|b l]]; simpl; congruence. Qed.

Lemma In_set_credentials usr refresh expires cs :
  exists c, In c (set_credentials usr refresh expires cs) /\
            cred_user c = usr /\ hh_refresh_token c = refresh.
Proof.
  unfold set_credentials. eexists. split; [apply in_or_app; right; now left|].
  split; reflexivity.
Qed.

(** X18. The session of the callback upserts by telegram id. On a table
    with distinct ids that knows the sender at most once, with values the
    columns accept: afterwards exactly one user has the telegram id, and it
    is the old row, or a fresh row with [mute_rejections = true], with the
    platform identity and the token set; the old row keeps its id and its
    mute preference; users with another telegram id, the notifications and
    the log events are untouched, the ids stay distinct, and the refresh
    token is recorded for the user. *)
Theorem store_link_upserts now tg hh_id access_token refresh_token expires_in s
    token refresh :
  NoDup (map uid (users (web_db s))) ->
  (List.length (users_by_telegram_id tg (web_db s)) <= 1)%nat ->
  text_column access_token = Some token ->
  text_column refresh_token = Some refresh ->
  (truthy expires_in = true -> expiry now expires_in <> None) ->
  exists s1 usr,
    store_link now tg hh_id access_token refresh_token expires_in s = Some s1 /\
    users_by_telegram_id tg (web_db s1) = [usr] /\
    usr = set_link hh_id token
            (match users_by_telegram_id tg (web_db s) with
             | old :: _ => old
             | [] => new_user tg (users (web_db s))
             end) /\
    (forall x, In x (users (web_db s)) -> telegram_id x <> tg ->
               In x (users (web_db s1))) /\
    (forall x, In x (users (web_db s1)) -> x = usr \/ In x (users (web_db s))) /\
    NoDup (map uid (users (web_db s1))) /\
    notifications (web_db s1) = notifications (web_db s) /\
    log_events (web_db s1) = log_events (web_db s) /\
    exists c, In c (credentials s1) /\ cred_user c = uid usr /\
              hh_refresh_token c = refresh.
Proof.
  intros Hnd Hle Ht Hr Hex. unfold store_link. rewrite Ht, Hr.
  assert (Hexp : exists expires,
             (if truthy expires_in
              then match expiry now expires_in with
                   | Some t => Some (Some t)
                   | None => None
                   end
              else Some None) = Some expires).
  { destruct (truthy expires_in); [|now eexists].
    destruct (expiry now expires_in); [now eexists | now elim Hex]. }
  destruct Hexp as [expires ->].
  unfold users_by_telegram_id in *.
  destruct (filter (fun usr => telegram_id usr =? tg) (users (web_db s)))
    as [|old [|b l]] eqn:E; [| |simpl in Hle; lia]; cbn [scalar_one_or_none].
  - eexists. eexists. split; [reflexivity|]. cbn [web_db users notifications log_events credentials].
    split; [|split; [reflexivity|]].
    { rewrite filter_app, E. cbn [filter set_link new_user telegram_id app].
      now rewrite Z.eqb_refl. }
    split; [intros x Hx _; apply in_or_app; now left|].
    split; [intros x Hx; apply in_app_or in Hx; destruct Hx as [Hx | [<- | []]]; tauto|].
    split.
    { rewrite map_app. cbn [map set_link new_user uid]. apply NoDup_app; trivial.
      - repeat constructor. tauto.
      - intros z Hz [<- | []]. apply in_map_iff in Hz. destruct Hz as [x [Hx Hin]].
        apply next_user_id_fresh in Hin. lia. }
    split; [reflexivity|]. split; [reflexivity|]. apply In_set_credentials.
  - assert (Hold : In old (users (web_db s)) /\ telegram_id old = tg).
    { assert (H : In old (filter (fun usr => telegram_id usr =? tg) (users (web_db s))))
        by (rewrite E; now left).
      apply filter_In in H. destruct H as [H1 H2]. apply Z.eqb_eq in H2. tauto. }
    destruct Hold as [Hold Htg].
    eexists. eexists. split; [reflexivity|].
    cbn [web_db users notifications log_events credentials].
    split; [|split; [reflexivity|]].
    { rewrite filter_map_commute.
      - rewrite E. cbn [map]. now rewrite Z.eqb_refl.
      - intros x. now destruct (uid x =? uid old). }
    split.
    { intros x Hx Hne. apply in_map_iff. exists x. split; trivial.
      destruct (uid x =? uid old) eqn:U; trivial. apply Z.eqb_eq in U.
      assert (x = old) by now apply (NoDup_map_eq uid (users (web_db s))).
      subst x. now elim Hne. }
    split.
    { intros x Hx. apply in_map_iff in Hx. destruct Hx as [y [Hy Hin]].
      destruct (uid y =? uid old) eqn:U; [|right; now subst x].
      apply Z.eqb_eq in U.
      assert (y = old) by now apply (NoDup_map_eq uid (users (web_db s))).
      subst y. left. now symmetry. }
    split.
    { rewrite map_map. erewrite map_ext; [exact Hnd|].
      intros x. now destruct (uid x =? uid old). }
    split; [reflexivity|]. split; [reflexivity|]. apply In_set_credentials.
Qed.

Lemma given_true x : given x = true -> exists c t, x = Some (c :: t).
Proof. destruct x as [[|c t]|]; simpl; try discriminate. intros _. now exists c, t. Qed.

Lemma hh_oauth_callback_path int_of_str hh now error c st s tg status token_data
    access_token me :
  given error = false -> c <> [] -> st <> [] ->
  int_of_str st = Some tg ->
  post_token hh c = TokenStatus status (Some (JDict token_data)) -> status < 400 ->
  dict_lookup (u "access_token") token_data = Some access_token ->
  get_me hh access_token = Body (JDict me) ->
  hh_oauth_callback int_of_str hh now (Some c) error (Some st) s =
    match store_link now tg (py_str (dict_get (u "id") me)) access_token
            (dict_get (u "refresh_token") token_data)
            (dict_get (u "expires_in") token_data) s with
    | None => (s, Unhandled)
    | Some s1 =>
      match post_subscriptions hh access_token with
      | SubscriptionRequestFailed => (s1, Unhandled)
      | SubscriptionStatus sub =>
        if 400 <=? sub then
          (web_log (u "ERROR") (u "Failed to subscribe webhooks") s1,
           HTTPException 500 (u "Failed to subscribe webhooks"))
        else
          (web_log (u "INFO") (u "HH account linked") s1,
           Response 200
             (u "Ваш аккаунт hh.ru успешно привязан. Можно закрыть это окно и вернуться в бота."))
      end
    end.
Proof.
  intros He Hc Hst Hint Htok Hlt Hacc Hme.
  unfold hh_oauth_callback. rewrite He.
  destruct c as [|c0 c]; [now elim Hc|]. destruct st as [|t0 st]; [now elim Hst|].
  cbn [given negb orb]. rewrite Hint, Htok.
  destruct (400 <=? status) eqn:E; [apply Z.leb_le in E; lia|].
  rewrite Hacc. cbv zeta. rewrite Hme. reflexivity.
Qed.

(** X19. The link is committed before the webhooks are subscribed: on the
    path where the token exchange and the account look-up succeed and the
    session stores the link, the users and credentials after the callback
    are those the session stored whatever the subscription answers; a
    refused subscription only turns the answer from 200 into 500 and the
    log row from INFO into ERROR. Notifications are not touched. *)
Theorem oauth_link_before_subscription int_of_str hh now error c st s tg status
    token_data access_token me s1 sub :
  given error = false -> c <> [] -> st <> [] ->
  int_of_str st = Some tg ->
  post_token hh c = TokenStatus status (Some (JDict token_data)) -> status < 400 ->
  dict_lookup (u "access_token") token_data = Some access_token ->
  get_me hh access_token = Body (JDict me) ->
  store_link now tg (py_str (dict_get (u "id") me)) access_token
    (dict_get (u "refresh_token") token_data)
    (dict_get (u "expires_in") token_data) s = Some s1 ->
  post_subscriptions hh access_token = SubscriptionStatus sub ->
  users (web_db (fst (hh_oauth_callback int_of_str hh now (Some c) error (Some st) s)))
    = users (web_db s1) /\
  credentials (fst (hh_oauth_callback int_of_str hh now (Some c) error (Some st) s))
    = credentials s1 /\
  notifications
    (web_db (fst (hh_oauth_callback int_of_str hh now (Some c) error (Some st) s)))
    = notifications (web_db s) /\
  web_status (snd (hh_oauth_callback int_of_str hh now (Some c) error (Some st) s))
    = (if 400 <=? sub then 500 else 200) /\
  log_events
    (web_db (fst (hh_oauth_callback int_of_str hh now (Some c) error (Some st) s)))
    = log_events (web_db s) ++
      [if 400 <=? sub
       then mkLogEvent (u "ERROR") (u "Failed to subscribe webhooks")
       else mkLogEvent (u "INFO") (u "HH account linked")].
Proof.
  intros He Hc Hst Hint Htok Hlt Hacc Hme Hlink Hsub.
  rewrite (hh_oauth_callback_path int_of_str hh now error c st s tg status token_data
             access_token me He Hc Hst Hint Htok Hlt Hacc Hme).
  rewrite Hlink, Hsub.
  apply store_link_inv in Hlink.
  destruct Hlink as [found [token [refresh [expires [_ [_ [_ ->]]]]]]].
  destruct (400 <=? sub); cbn [fst snd web_log web_db credentials web_status];
    unfold log_event; cbn [users notifications log_events]; repeat split.
Qed.

Lemma store_link_linked now tg hh_id access_token refresh_token expires_in s s1 :
  store_link now tg hh_id access_token refresh_token expires_in s = Some s1 ->
  notifications (web_db s1) = notifications (web_db s) /\
  log_events (web_db s1) = log_events (web_db s) /\
  exists usr, In usr (users (web_db s1)) /\ telegram_id usr = tg /\
              hh_user_id usr = Some hh_id.
Proof.
  intros H. apply store_link_inv in H.
  destruct H as [found [token [refresh [expires [Hf [_ [_ ->]]]]]]].
  cbn [web_db users notifications log_events]. split; [reflexivity|].
  split; [reflexivity|].
  destruct found as [user|].
  - apply scalar_one_some in Hf.
    assert (H : In user (users_by_telegram_id tg (web_db s))) by (rewrite Hf; now left).
    unfold users_by_telegram_id in H. apply filter_In in H. destruct H as [Hin Htg].
    apply Z.eqb_eq in Htg.
    exists (set_link hh_id token user). split; [|split; [exact Htg | reflexivity]].
    apply in_map_iff. exists user. now rewrite Z.eqb_refl.
  - eexists. split; [apply in_or_app; right; now left|]. split; reflexivity.
Qed.

(** X20. Whatever its parameters and whatever the platform answers, the
    callback leaves the notifications alone and answers 200, 400 or 500;
    an [error] parameter always gives 400; with 400 the users and the
    credentials are as before; and 200 is answered only with the sender
    of [state] in the table under a platform identity. *)
Theorem oauth_outcomes int_of_str hh now code error state s :
  notifications
    (web_db (fst (hh_oauth_callback int_of_str hh now code error state s)))
    = notifications (web_db s) /\
  (web_status (snd (hh_oauth_callback int_of_str hh now code error state s)) = 200 \/
   web_status (snd (hh_oauth_callback int_of_str hh now code error state s)) = 400 \/
   web_status (snd (hh_oauth_callback int_of_str hh now code error state s)) = 500) /\
  (given error = true ->
   web_status (snd (hh_oauth_callback int_of_str hh now code error state s)) = 400) /\
  (web_status (snd (hh_oauth_callback int_of_str hh now code error state s)) = 400 ->
   users (web_db (fst (hh_oauth_callback int_of_str hh now code error state s)))
     = users (web_db s) /\
   credentials (fst (hh_oauth_callback int_of_str hh now code error state s))
     = credentials s) /\
  (web_status (snd (hh_oauth_callback int_of_str hh now code error state s)) = 200 ->
   exists st tg usr,
     state = Some st /\ int_of_str st = Some tg /\
     In usr (users (web_db (fst (hh_oauth_callback int_of_str hh now code error state s))))
     /\ telegram_id usr = tg /\ hh_user_id usr <> None).
Proof.
  unfold hh_oauth_callback.
  destruct (given error) eqn:He.
  { cbn [fst snd web_status web_log web_db credentials]. unfold log_event.
    cbn [users notifications]. repeat split; try tauto; discriminate. }
  destruct (given code) eqn:Hc; cbn [negb orb];
    [|cbn [fst snd web_status]; repeat split; try tauto; discriminate].
  destruct (given state) eqn:Hs; cbn [negb orb];
    [|cbn [fst snd web_status]; repeat split; try tauto; discriminate].
  apply given_true in Hs. destruct Hs as [t0 [st ->]].
  destruct (int_of_str (t0 :: st)) as [tg|] eqn:Hint;
    [|cbn [fst snd web_status]; repeat split; try tauto; discriminate].
  destruct (post_token hh _) as [|status body];
    [cbn [fst snd web_status]; repeat split; try tauto; discriminate|].
  destruct (400 <=? status).
  { cbn [fst snd web_status web_log web_db credentials]. unfold log_event.
    cbn [users notifications]. repeat split; try tauto; discriminate. }
  destruct body as [[| | | | |token_data]|];
    try (cbn [fst snd web_status]; repeat split; try tauto; discriminate).
  destruct (dict_lookup (u "access_token") token_data) as [access_token|];
    [|cbn [fst snd web_status]; repeat split; try tauto; discriminate].
  cbv zeta.
  destruct (get_me hh access_token) as [| |[| | | | |me]];
    try (cbn [fst snd web_status]; repeat split; try tauto; discriminate).
  destruct (store_link now tg (py_str (dict_get (u "id") me)) access_token
              (dict_get (u "refresh_token") token_data)
              (dict_get (u "expires_in") token_data) s) as [s1|] eqn:Hlink;
    [|cbn [fst snd web_status]; repeat split; try tauto; discriminate].
  destruct (store_link_linked _ _ _ _ _ _ _ _ Hlink) as [Hn [_ [usr [Hin [Htg Hhh]]]]].
  destruct (post_subscriptions hh access_token) as [|sub];
    [cbn [fst snd web_status]; repeat split; try tauto; discriminate|].
  destruct (400 <=? sub);
    cbn [fst snd web_status web_log web_db credentials]; unfold log_event;
    cbn [users notifications]; repeat split; try tauto; try discriminate.
  intros _. exists (t0 :: st), tg, usr. repeat split; trivial. congruence.
Qed.

Lemma filter_nil_of {A} (p : A -> bool) l :
  (forall x, In x l -> p x = false) -> filter p l = [].
Proof.
  induction l as [|a l IH]; simpl; intros H; trivial.
  rewrite (H a (or_introl eq_refl)). apply IH. intros x Hx. apply H. now right.
Qed.

Lemma filter_nil_inv {A} (p : A -> bool) l x :
  filter p l = [] -> In x l -> p x = false.
Proof.
  intros H Hx. destruct (p x) eqn:E; trivial.
  assert (Hin : In x (filter p l)) by (apply filter_In; tauto).
  rewrite H in Hin. destruct Hin.
Qed.

Lemma filter_map_single (p q : User -> bool) (g : User -> User) us user :
  NoDup (map uid us) -> filter q us = [user] ->
  p (g user) = true ->
  (forall x, In x us -> q x = false -> p x = false) ->
  filter p (map (fun x => if uid x =? uid user then g x else x) us) = [g user].
Proof.
  intros Hnd Hq Hp Hrest. induction us as [|a us IH]; [discriminate Hq|].
  inversion Hnd as [|? ? Hnotin Hnd']; subst. cbn [map filter] in *.
  destruct (q a) eqn:Qa.
  - injection Hq as -> Hq. rewrite Z.eqb_refl, Hp. f_equal.
    apply filter_nil_of. intros y Hy. apply in_map_iff in Hy.
    destruct Hy as [x [<- Hx]].
    destruct (uid x =? uid user) eqn:U.
    + apply Z.eqb_eq in U. elim Hnotin. rewrite <- U. now apply in_map.
    + apply Hrest; [now right|]. now apply (filter_nil_inv q us).
  - assert (Hu : In user us).
    { assert (H : In user (filter q us)) by (rewrite Hq; now left).
      now apply filter_In in H. }
    destruct (uid a =? uid user) eqn:U.
    + apply Z.eqb_eq in U. elim Hnotin. rewrite U. now apply in_map.
    + rewrite (Hrest a (or_introl eq_refl) Qa). apply IH; trivial.
      intros x Hx. apply Hrest. now right.
Qed.

Lemma not_linked_to E x :
  hh_user_id x <> Some E ->
  match hh_user_id x with Some h => pystr_eqb h E | None => false end = false.
Proof.
  destruct (hh_user_id x) as [h|]; trivial. intros H.
  destruct (pystr_eqb h E) eqn:Eq; trivial.
  apply pystr_eqb_eq in Eq. subst. now elim H.
Qed.

Lemma store_link_row now tg E access_token refresh_token expires_in s s1 :
  store_link now tg E access_token refresh_token expires_in s = Some s1 ->
  NoDup (map uid (users (web_db s))) ->
  exists usr,
    users_by_telegram_id tg (web_db s1) = [usr] /\
    NoDup (map uid (users (web_db s1))) /\
    ((forall x, In x (users (web_db s)) -> telegram_id x <> tg ->
                hh_user_id x <> Some E) ->
     users_by_hh_user_id E (web_db s1) = [usr]).
Proof.
  intros Hlink Hnd. apply store_link_inv in Hlink.
  destruct Hlink as [found [token [refresh [expires [Hf [_ [_ ->]]]]]]].
  unfold users_by_hh_user_id, users_by_telegram_id in *. cbn [web_db users].
  destruct found as [user|].
  - apply scalar_one_some in Hf.
    exists (set_link E token user). split; [|split].
    + rewrite filter_map_commute.
      * rewrite Hf. cbn [map]. now rewrite Z.eqb_refl.
      * intros x. now destruct (uid x =? uid user).
    + rewrite map_map. erewrite map_ext; [exact Hnd|].
      intros x. now destruct (uid x =? uid user).
    + intros Hother.
      apply (filter_map_single _ (fun x => telegram_id x =? tg)); trivial.
      * cbn [set_link hh_user_id]. apply pystr_eqb_refl.
      * intros x Hx Hq. cbv beta in Hq. apply not_linked_to, Hother; trivial.
        intros Heq. rewrite Heq, Z.eqb_refl in Hq. discriminate.
  - apply scalar_one_none_inv in Hf.
    exists (set_link E token (new_user tg (users (web_db s)))). split; [|split].
    + rewrite filter_app, Hf. cbn [filter set_link new_user telegram_id app].
      now rewrite Z.eqb_refl.
    + rewrite map_app. cbn [map set_link new_user uid]. apply NoDup_app; trivial.
      * repeat constructor. tauto.
      * intros z Hz [<- | []]. apply in_map_iff in Hz. destruct Hz as [x [Hx Hin]].
        apply next_user_id_fresh in Hin. lia.
    + intros Hother. rewrite filter_app. cbn [filter set_link hh_user_id].
      rewrite pystr_eqb_refl.
      rewrite filter_nil_of; [reflexivity|].
      intros x Hx. apply not_linked_to, Hother; trivial.
      intros Heq. pose proof (filter_nil_inv _ _ x Hf Hx) as Hq. cbv beta in Hq.
      rewrite Heq, Z.eqb_refl in Hq. discriminate.
Qed.

(** X21. End to end from the link: when the session of the callback has
    stored the link of a sender to a platform identity that no other user
    holds, an invitation event for that identity is answered "ok" and
    appends exactly one invitation row owned by that sender's user, and the
    next delivery pass calls the endpoint for it with the sender's
    telegram id. *)
Theorem linked_account_receives_invitation now now2 send tg E access_token
    refresh_token expires_in s s1 i sub :
  wf_db (web_db s) ->
  (forall x, In x (users (web_db s)) -> telegram_id x <> tg -> hh_user_id x <> Some E) ->
  store_link now tg E access_token refresh_token expires_in s = Some s1 ->
  exists usr,
    users_by_telegram_id tg (web_db s1) = [usr] /\
    hh_webhook now2 (Some (invitation_event i sub E)) (web_db s1) =
      (mkDB (users (web_db s1))
         (notifications (web_db s) ++ [invitation_row now2 usr (web_db s)])
         (log_events (web_db s) ++ [mkLogEvent (u "INFO") (u "Incoming HH webhook")]),
       PlainTextResponse (u "ok") 200) /\
    exists ok,
      In (SendMessage (notif_id (invitation_row now2 usr (web_db s))) tg
            (text (invitation_row now2 usr (web_db s))) ok)
         (snd (notifications_worker_cycle send
                 (fst (hh_webhook now2 (Some (invitation_event i sub E)) (web_db s1))))).
Proof.
  intros [Hnd Hnn] Hother Hlink.
  destruct (store_link_row _ _ _ _ _ _ _ _ Hlink Hnd) as [usr [Htg [Hnd1 Hhh]]].
  specialize (Hhh Hother).
  destruct (store_link_linked _ _ _ _ _ _ _ _ Hlink) as [Hn1 [Hl1 _]].
  exists usr. split; trivial.
  assert (Hweb := hh_webhook_invitation now2 (web_db s1) usr i sub E Hhh).
  assert (Hrow : invitation_row now2 usr (web_db s1) = invitation_row now2 usr (web_db s))
    by (unfold invitation_row; now rewrite Hn1).
  rewrite Hn1, Hl1, Hrow in Hweb. split; trivial.
  rewrite Hweb. cbn [fst].
  set (n := invitation_row now2 usr (web_db s)).
  set (db2 := mkDB (users (web_db s1)) (notifications (web_db s) ++ [n]) _).
  assert (Hwf2 : wf_db db2).
  { split; [exact Hnd1|]. unfold db2. cbn [notifications].
    rewrite map_app. cbn [map]. apply NoDup_app; trivial.
    - repeat constructor. tauto.
    - intros z Hz [<- | []]. apply in_map_iff in Hz. destruct Hz as [m [Hm Hin]].
      apply next_id_fresh in Hin. unfold n, invitation_row in Hm. cbn [notif_id] in Hm. lia. }
  assert (Hin : In n (notifications db2)) by (apply in_or_app; right; now left).
  assert (Husr1 : In usr (users (web_db s1)) /\ telegram_id usr = tg).
  { assert (H : In usr (users_by_telegram_id tg (web_db s1))) by (rewrite Htg; now left).
    unfold users_by_telegram_id in H. apply filter_In in H.
    destruct H as [H1 H2]. apply Z.eqb_eq in H2. tauto. }
  assert (Hown : owner db2 n usr) by (split; [apply Husr1 | reflexivity]).
  destruct (worker_row send db2 n usr Hwf2 Hin eq_refl Hown) as [e [He [Hout _]]].
  unfold outcome_of, suppressed in Hout. cbn [is_rejection n invitation_row andb] in Hout.
  destruct Hout as [ok ->]. exists ok. now rewrite (proj2 Husr1) in He.
Qed.

Lemma filter_two {A} (p : A -> bool) l a b :
  In a l -> In b l -> a <> b -> p a = true -> p b = true ->
  exists x y rest, filter p l = x :: y :: rest.
Proof.
  intros Ha Hb Hne Hpa Hpb.
  assert (Ia : In a (filter p l)) by (apply filter_In; tauto).
  assert (Ib : In b (filter p l)) by (apply filter_In; tauto).
  destruct (filter p l) as [|x [|y rest]].
  - destruct Ia.
  - destruct Ia as [<- | []], Ib as [<- | []]. now elim Hne.
  - now exists x, y, rest.
Qed.

Lemma store_link_keeps_link now tg E access_token refresh_token expires_in s s1 x :
  store_link now tg E access_token refresh_token expires_in s = Some s1 ->
  In x (users (web_db s)) -> hh_user_id x = Some E ->
  exists y, In y (users (web_db s1)) /\ telegram_id y = telegram_id x /\
            hh_user_id y = Some E.
Proof.
  intros H Hx Hh. apply store_link_inv in H.
  destruct H as [found [token [refresh [expires [_ [_ [_ ->]]]]]]].
  cbn [web_db users]. destruct found as [user|].
  - exists (if uid x =? uid user then set_link E token x else x). split.
    + apply in_map_iff. now exists x.
    + destruct (uid x =? uid user); split; trivial.
  - exists x. split; [apply in_or_app; now left | tauto].
Qed.

(** X22. [hh_user_id] is no key. After the sessions of two callbacks have
    linked two different telegram senders to one platform identity, every
    event for that identity that passes the validation makes the handler's
    look-up raise: the caller gets the server's 500 and no notification is
    created, for either sender. *)
Theorem shared_account_breaks_webhook now1 now2 now3 tg1 tg2 E a1 r1 e1 a2 r2 e2
    s s1 s2 d event :
  tg1 <> tg2 ->
  store_link now1 tg1 E a1 r1 e1 s = Some s1 ->
  store_link now2 tg2 E a2 r2 e2 s1 = Some s2 ->
  WebhookEvent_validate d = Some event -> ev_user_id event = E ->
  snd (hh_webhook now3 (Some (JDict d)) (web_db s2)) = Raised MultipleResultsFound /\
  http_status (snd (hh_webhook now3 (Some (JDict d)) (web_db s2))) = 500 /\
  notifications (fst (hh_webhook now3 (Some (JDict d)) (web_db s2))) =
    notifications (web_db s2).
Proof.
  intros Hne H1 H2 V HE.
  destruct (store_link_linked _ _ _ _ _ _ _ _ H1) as [_ [_ [u1 [Hin1 [Ht1 Hh1]]]]].
  destruct (store_link_keeps_link _ _ _ _ _ _ _ _ u1 H2 Hin1 Hh1) as [y1 [Hy1 [Hty1 Hhy1]]].
  destruct (store_link_linked _ _ _ _ _ _ _ _ H2) as [_ [_ [u2 [Hin2 [Ht2 Hh2]]]]].
  assert (Hdiff : y1 <> u2) by (intros ->; congruence).
  destruct (filter_two
              (fun usr => match hh_user_id usr with
                          | Some h => pystr_eqb h E
                          | None => false
                          end)
              (users (web_db s2)) y1 u2 Hy1 Hin2 Hdiff) as [x [y [rest Hf]]].
  { rewrite Hhy1. apply pystr_eqb_refl. }
  { rewrite Hh2. apply pystr_eqb_refl. }
  unfold hh_webhook. rewrite V. cbv zeta. rewrite HE.
  change (users_by_hh_user_id E
            (log_event (u "INFO") (u "Incoming HH webhook") (web_db s2)))
    with (filter (fun usr => match hh_user_id usr with
                             | Some h => pystr_eqb h E
                             | None => false
                             end) (users (web_db s2))).
  rewrite Hf. cbn [scalar_one_or_none fst snd http_status].
  repeat split.
Qed.

End Pipeline.

(** ** The theorems at work on the example *)

#[local] Existing Instance letters_runtime.

Lemma example_db_wf : wf_db example_db.
Proof.
  split; vm_compute;
    repeat (constructor; [intros H; repeat (destruct H as [H | H]; try discriminate H); exact H|]);
    constructor.
Defined.

Lemma mute_semantics_witness :
  (In (set_sent rej_alice)
      (notifications (fst (notifications_worker_cycle send_ok example_db))) /\
   forall e, In e (snd (notifications_worker_cycle send_ok example_db)) ->
             event_notif e = notif_id rej_alice -> is_call e = false) /\
  exists ok, In (SendMessage (notif_id rej_bob) (telegram_id bob) (text rej_bob) ok)
                (snd (notifications_worker_cycle send_ok example_db)).
Proof.
  split.
  - apply (proj1 (mute_semantics send_ok example_db rej_alice alice
                    example_db_wf (or_intror (or_introl eq_refl)) eq_refl eq_refl
                    (conj (or_introl eq_refl) eq_refl))).
    reflexivity.
  - apply (proj2 (mute_semantics send_ok example_db rej_bob bob
                    example_db_wf
                    (or_intror (or_intror (or_intror (or_introl eq_refl))))
                    eq_refl eq_refl
                    (conj (or_intror (or_introl eq_refl)) eq_refl))).
    reflexivity.
Defined.

Lemma partial_failure_isolation_witness :
  (In rej_bob (notifications (fst (notifications_worker_cycle send_fail_bob example_db))) /\
   sent rej_bob = false) /\
  exists e,
    In e (snd (notifications_worker_cycle send_fail_bob example_db)) /\
    outcome_of inv_a alice e /\
    In (if marks e then set_sent inv_a else inv_a)
       (notifications (fst (notifications_worker_cycle send_fail_bob example_db))).
Proof.
  apply (partial_failure_isolation send_fail_bob example_db
           rej_bob bob (telegram_id bob) (text rej_bob) inv_a alice example_db_wf).
  - vm_compute. tauto.
  - reflexivity.
  - split; [right; left; reflexivity | reflexivity].
  - vm_compute. tauto.
  - reflexivity.
  - split; [left; reflexivity | reflexivity].
  - vm_compute. tauto.
Defined.

Lemma delivery_order_witness :
  exists e1 e2 e3,
    in_order e1 e2 e3 (snd (notifications_worker_cycle send_ok example_db)) /\
    outcome_of inv_a alice e1 /\ outcome_of inv_b alice e2 /\ outcome_of inv_c alice e3.
Proof.
  apply (delivery_order send_ok example_db alice inv_a inv_b inv_c).
  - intros n [<- | [<- | [<- | []]]]; (split; [vm_compute; tauto|]);
      (split; [reflexivity|]); (split; [left; reflexivity | reflexivity]).
  - reflexivity.
  - reflexivity.
Defined.

Lemma classify_spec_witness :
  classify (u "Добрый день! К СОЖАЛЕНИЮ, вынуждены Вам отказать.") = true /\
  classify (u "Приглашаем вас на собеседование") = false.
Proof.
  split.
  - apply (proj1 classify_spec).
    exists (u "к сожалению"). split; [left; reflexivity|].
    exists (u "добрый день! "), (u ", вынуждены вам отказать."). reflexivity.
  - apply (proj1 (proj2 classify_spec)).
    intros p Hin Hsub. apply contains_spec in Hsub.
    repeat (destruct Hin as [<- | Hin]; [vm_compute in Hsub; discriminate Hsub|]).
    exact Hin.
Defined.

Lemma example_polled : polled_message example_hh alice msg_hello.
Proof.
  split.
  - exists (u "token-a"). split; [reflexivity | discriminate].
  - exists (JList [JDict example_thread]), [JDict example_thread], example_thread,
      (JList [msg_hello; msg_refusal; msg_own]), [msg_hello; msg_refusal; msg_own].
    repeat split; try reflexivity; left; reflexivity.
Defined.

Lemma poll_dedup_witness :
  hh_messages_worker_cycle example_hh (fun i => 900 + i)
    (fst (hh_messages_worker_cycle example_hh example_clock example_db)) =
  hh_messages_worker_cycle example_hh example_clock example_db /\
  count_message (uid alice) (u "m1")
    (notifications (fst (hh_messages_worker_cycle example_hh example_clock example_db)))
  = 1%nat.
Proof.
  split.
  - apply (proj1 (poll_dedup example_hh example_clock (fun i => 900 + i) example_db)).
  - apply (proj1 (proj2 (poll_dedup example_hh example_clock example_clock example_db))
             eq_refl alice msg_hello (u "m1") (u "Здравствуйте!")).
    + left. reflexivity.
    + exact example_polled.
    + reflexivity.
Defined.

Lemma webhook_unknown_user_witness :
  snd (hh_webhook 60 (Some (JDict event_unknown)) example_db) =
    PlainTextResponse (u "unknown user") 200 /\
  http_status (snd (hh_webhook 60 (Some (JDict event_unknown)) example_db)) = 200 /\
  notifications (fst (hh_webhook 60 (Some (JDict event_unknown)) example_db)) =
    notifications example_db.
Proof.
  apply (webhook_unknown_user 60 event_unknown
           (mkWebhookEvent (u "e1") (u "s1") (u "NEW_RESPONSE_OR_INVITATION_VACANCY")
              (u "hh-9") [])).
  - reflexivity.
  - intros usr [<- | [<- | []]]; vm_compute; discriminate.
Defined.

Lemma webhook_invitation_end_to_end_witness :
  notifications
    (fst (hh_webhook 60 (Some (invitation_event (u "e2") (u "s1") (u "hh-1"))) example_db)) =
    notifications example_db ++ [invitation_row 60 alice example_db] /\
  exists ok,
    In (SendMessage (notif_id (invitation_row 60 alice example_db)) (telegram_id alice)
          (text (invitation_row 60 alice example_db)) ok)
       (snd (notifications_worker_cycle send_ok
               (fst (hh_webhook 60 (Some (invitation_event (u "e2") (u "s1") (u "hh-1")))
                       example_db)))) /\
    In (if ok then set_sent (invitation_row 60 alice example_db)
        else invitation_row 60 alice example_db)
       (notifications
          (fst (notifications_worker_cycle send_ok
                  (fst (hh_webhook 60 (Some (invitation_event (u "e2") (u "s1") (u "hh-1")))
                          example_db))))) /\
    ((forall h, send_ok h (telegram_id alice) (text (invitation_row 60 alice example_db))
                = true) ->
     ok = true).
Proof.
  apply (webhook_invitation_end_to_end 60 send_ok example_db alice
           (u "e2") (u "s1") (u "hh-1") example_db_wf).
  reflexivity.
Defined.

Lemma webhook_missing_field_witness :
  hh_webhook 60 event_without_payload example_db = (example_db, Raised ValidationError) /\
  notifications (fst (hh_webhook 60 event_without_payload example_db)) =
    notifications example_db /\
  http_status (snd (hh_webhook 60 event_without_payload example_db)) = 500.
Proof.
  apply (webhook_missing_field 60 event_without_payload example_db).
  eexists. exists (u "payload"). split; [reflexivity|].
  split; [vm_compute; tauto | reflexivity].
Defined.

(** C8, as the design document has it, fails: the body without [payload]
    lacks a required field and the answer is no 4xx. *)
Lemma webhook_missing_field_no_client_error :
  missing_field event_without_payload /\
  ~ (400 <= http_status (snd (hh_webhook 60 event_without_payload example_db)) <= 499).
Proof.
  split.
  - eexists. exists (u "payload"). split; [reflexivity|].
    split; [vm_compute; tauto | reflexivity].
  - vm_compute. intros [_ H]. now apply H.
Qed.

Lemma idless_message_key_witness :
  py_str (dict_get (u "id") msg_no_id) = u "None" /\
  (forall clock msg_id txt ns,
     inbound_message (JDict msg_no_id) = Some (Some (msg_id, txt)) ->
     msg_id = u "None" /\
     (count_message (uid alice) (u "None") ns = 1%nat ->
      poll_message clock alice (JDict msg_no_id) ns = Some ns)) /\
  (forall ops db,
     (count_message (uid alice) (u "None") (notifications db) <= 1)%nat ->
     (count_message (uid alice) (u "None") (notifications (run_ops ops db)) <= 1)%nat).
Proof.
  apply (idless_message_key alice msg_no_id). reflexivity.
Defined.

(** ** The further theorems at work on the example *)

Lemma mixed_db_wf : wf_db mixed_db.
Proof.
  split; vm_compute;
    repeat (constructor; [intros H; repeat (destruct H as [H | H]; try discriminate H); exact H|]);
    constructor.
Defined.

Lemma unselected_rows_untouched_witness :
  In sent_row (notifications (fst (notifications_worker_cycle send_ok mixed_db))) /\
  In orphan_row (notifications (fst (notifications_worker_cycle send_ok mixed_db))).
Proof.
  split.
  - apply (proj1 (unselected_rows_untouched send_ok mixed_db sent_row mixed_db_wf
                    (or_introl eq_refl) (or_introl eq_refl))).
  - apply (unselected_rows_untouched send_ok mixed_db orphan_row mixed_db_wf
             (or_intror (or_introl eq_refl))).
    right. intros usr [<- | [<- | []]]; vm_compute; discriminate.
Defined.

Lemma delivery_nothing_pending_witness :
  notifications_worker_cycle send_ok settled_db = (settled_db, []).
Proof.
  apply (delivery_nothing_pending send_ok settled_db).
  intros n [<- | [<- | []]] Hs; [discriminate Hs|].
  intros usr [<- | [<- | []]]; vm_compute; discriminate.
Defined.

Lemma delivery_drains_witness :
  notifications_worker_cycle send_fail_bob
    (fst (notifications_worker_cycle send_ok example_db)) =
  (fst (notifications_worker_cycle send_ok example_db), []).
Proof.
  apply (delivery_drains send_ok send_fail_bob example_db). reflexivity.
Defined.

Lemma failed_delivery_retried_witness :
  exists ok,
    In (SendMessage (notif_id rej_bob) (telegram_id bob) (text rej_bob) ok)
       (snd (notifications_worker_cycle send_ok
               (fst (notifications_worker_cycle send_fail_bob example_db)))).
Proof.
  apply (failed_delivery_retried send_fail_bob send_ok example_db rej_bob bob
           example_db_wf).
  - vm_compute. tauto.
  - reflexivity.
  - split; [right; left; reflexivity | reflexivity].
  - vm_compute. tauto.
Defined.

Lemma webhook_no_dedup_witness :
  snd (hh_webhook 61 (Some (invitation_event (u "e2") (u "s1") (u "hh-1")))
         (fst (hh_webhook 60 (Some (invitation_event (u "e2") (u "s1") (u "hh-1")))
                 example_db))) =
  PlainTextResponse (u "ok") 200.
Proof.
  apply (webhook_no_dedup 60 61 (Some (invitation_event (u "e2") (u "s1") (u "hh-1")))
           example_db).
  reflexivity.
Defined.

Lemma webhook_state_change_witness :
  hh_webhook 60 (Some (JDict event_discard)) example_db =
    (mkDB (users example_db)
       (notifications example_db ++
        [state_change_row 60 alice event_discard_parsed (Some (u "t7")) example_db])
       (log_events example_db ++ [mkLogEvent (u "INFO") (u "Incoming HH webhook")]),
     PlainTextResponse (u "ok") 200).
Proof.
  apply (webhook_state_change 60 event_discard event_discard_parsed example_db alice
           (Some (u "t7"))); reflexivity.
Defined.

Lemma state_change_rejection_muted_witness :
  In (set_sent (state_change_row 60 alice event_discard_parsed (Some (u "t7")) example_db))
     (notifications
        (fst (notifications_worker_cycle send_ok
                (fst (hh_webhook 60 (Some (JDict event_discard)) example_db))))).
Proof.
  apply (state_change_rejection_muted 60 send_ok event_discard event_discard_parsed
           example_db alice (Some (u "t7")) example_db_wf);
    try reflexivity.
  exists (u "discard"). split; [left; reflexivity|].
  exists [], (u "_by_employer"). reflexivity.
Defined.

Lemma bad_polled : polled_message bad_hh alice msg_bad.
Proof.
  split.
  - exists (u "token-a"). split; [reflexivity | discriminate].
  - exists (JList [JDict example_thread]), [JDict example_thread], example_thread,
      (JList [msg_hello; msg_bad]), [msg_hello; msg_bad].
    repeat split; try reflexivity; [left | right; left]; reflexivity.
Defined.

Lemma poll_malformed_message_blocks_witness :
  snd (hh_messages_worker_cycle bad_hh example_clock example_db) = false.
Proof.
  apply (poll_malformed_message_blocks bad_hh example_clock example_db alice msg_bad
           example_db_wf).
  - left. reflexivity.
  - exact bad_polled.
  - reflexivity.
Defined.

Lemma polled_rows_delivered_witness :
  exists added,
    notifications (fst (hh_messages_worker_cycle example_hh example_clock example_db)) =
      notifications example_db ++ added /\
    forall n, In n added ->
      exists usr msg e,
        owner (fst (hh_messages_worker_cycle example_hh example_clock example_db)) n usr /\
        polled_message example_hh usr msg /\ row_of_message usr msg n /\
        In e (snd (notifications_worker_cycle send_ok
                     (fst (hh_messages_worker_cycle example_hh example_clock example_db)))) /\
        outcome_of n usr e /\
        In (if marks e then set_sent n else n)
           (notifications
              (fst (notifications_worker_cycle send_ok
                      (fst (hh_messages_worker_cycle example_hh example_clock
                              example_db))))).
Proof.
  apply (polled_rows_delivered example_hh example_clock send_ok example_db example_db_wf).
Defined.

Lemma cmd_start_registers_witness :
  exists usr,
    users_by_telegram_id 2000
      (main (fst (cmd_start (u "https://bot.example") start_from_carol example_store)))
    = [usr].
Proof.
  destruct (cmd_start_registers (u "https://bot.example") start_from_carol example_store)
    as [[usr [H _]] _].
  - vm_compute. lia.
  - exists usr. exact H.
Defined.

Lemma cmd_settings_toggles_witness :
  main (fst (cmd_settings settings_from_alice
               (fst (cmd_settings settings_from_alice example_store)))) =
  main example_store.
Proof.
  apply (cmd_settings_toggles settings_from_alice example_store alice).
  - apply example_db_wf.
  - reflexivity.
Defined.

Lemma requests_logged_witness :
  user_requests
    (fst (cmd_start (u "https://bot.example") start_from_carol example_store)) =
  user_requests example_store ++ [request_row start_from_carol example_store].
Proof.
  apply (requests_logged (u "https://bot.example") start_from_carol example_store).
  vm_compute. lia.
Defined.

Lemma settings_then_delivery_witness :
  exists ok,
    In (SendMessage (notif_id rej_alice) (telegram_id alice) (text rej_alice) ok)
       (snd (notifications_worker_cycle send_ok
               (main (fst (cmd_settings settings_from_alice example_store))))).
Proof.
  apply (proj1 (settings_then_delivery settings_from_alice send_ok example_store
                  alice rej_alice example_db_wf eq_refl
                  (or_intror (or_introl eq_refl)) eq_refl eq_refl eq_refl)).
  reflexivity.
Defined.


Lemma store_link_upserts_witness :
  exists s1 usr,
    store_link 1000 2000 (u "hh-9") (JStr (u "token-c")) (JStr (u "refresh-c"))
      (JInt 3600) example_web_store = Some s1 /\
    users_by_telegram_id 2000 (web_db s1) = [usr].
Proof.
  destruct (store_link_upserts 1000 2000 (u "hh-9") (JStr (u "token-c"))
              (JStr (u "refresh-c")) (JInt 3600) example_web_store
              (Some (u "token-c")) (Some (u "refresh-c")))
    as [s1 [usr [H1 [H2 _]]]].
  - apply example_db_wf.
  - vm_compute. lia.
  - reflexivity.
  - reflexivity.
  - intros _. vm_compute. discriminate.
  - exists s1, usr. split; [exact H1 | exact H2].
Defined.

Lemma oauth_link_before_subscription_witness :
  users (web_db (fst (hh_oauth_callback int_of_digits example_oauth 1000
                        (Some (u "code")) None (Some (u "2000")) example_web_store)))
    = users (web_db linked_store) /\
  web_status (snd (hh_oauth_callback int_of_digits example_oauth 1000
                     (Some (u "code")) None (Some (u "2000")) example_web_store))
    = 200.
Proof.
  destruct (oauth_link_before_subscription int_of_digits example_oauth 1000 None
              (u "code") (u "2000") example_web_store 2000 200 example_token
              (JStr (u "token-c")) [ (u "id", JStr (u "hh-9")) ] linked_store 201)
    as [H1 [_ [_ [H2 _]]]].
  - reflexivity.
  - vm_compute. discriminate.
  - vm_compute. discriminate.
  - vm_compute. reflexivity.
  - reflexivity.
  - lia.
  - vm_compute. reflexivity.
  - reflexivity.
  - vm_compute. reflexivity.
  - reflexivity.
  - split; [exact H1 | exact H2].
Defined.

Lemma linked_account_receives_invitation_witness :
  exists usr,
    users_by_telegram_id 2000 (web_db linked_store) = [usr] /\
    exists ok,
      In (SendMessage (notif_id (invitation_row 70 usr example_db)) 2000
            (text (invitation_row 70 usr example_db)) ok)
         (snd (notifications_worker_cycle send_ok
                 (fst (hh_webhook 70 (Some (invitation_event (u "e1") (u "s1") (u "hh-9")))
                         (web_db linked_store))))).
Proof.
  destruct (linked_account_receives_invitation 1000 70 send_ok 2000 (u "hh-9")
              (JStr (u "token-c")) (JStr (u "refresh-c")) (JInt 3600)
              example_web_store linked_store (u "e1") (u "s1"))
    as [usr [H1 [_ H2]]].
  - apply example_db_wf.
  - intros x [<- | [<- | []]] _; vm_compute; discriminate.
  - vm_compute. reflexivity.
  - exists usr. split; [exact H1 | exact H2].
Defined.

Lemma shared_account_breaks_webhook_witness :
  snd (hh_webhook 70 (Some (JDict event_unknown)) (web_db linked_twice)) =
    Raised MultipleResultsFound.
Proof.
  apply (shared_account_breaks_webhook 1000 2000 70 2000 3000 (u "hh-9")
           (JStr (u "token-c")) (JStr (u "refresh-c")) (JInt 3600)
           (JStr (u "token-c")) (JStr (u "refresh-c")) (JInt 3600)
           example_web_store linked_store linked_twice event_unknown
           (mkWebhookEvent (u "e1") (u "s1") (u "NEW_RESPONSE_OR_INVITATION_VACANCY")
              (u "hh-9") [])).
  - lia.
  - vm_compute. reflexivity.
  - vm_compute. reflexivity.
  - reflexivity.
  - reflexivity.
Defined.
